(** * Balder: connection metadata, feature controller and scenario/setup
      controller

    A shallow embedding of

    - [_balder/connection_metadata.py] (class [ConnectionMetadata]),
    - [_balder/controllers/feature_controller.py] (class [FeatureController]),
    - [_balder/controllers/normal_scenario_setup_controller.py]
      (class [NormalScenarioSetupController]),

    together with the properties of these classes that the specification
    states.  Python classes are values of [pyclass]; exceptions are values of
    [exception] threaded through the [result] monad; dictionaries whose
    iteration order is observable are association lists, the nested table of
    [get_absolute_single_connections] is a nested [gmap]. *)

From stdpp Require Import base option list strings gmap.
From Stdlib Require Import Bool.

Local Open Scope string_scope.

(* ===================================================================== *)
(** ** Python classes *)
(* ===================================================================== *)

Module Py.

(** A class object: its identity ([cid], what [is] and [==] on classes
    compare), [__name__], [__qualname__.split('.')] and [__bases__].  A class
    is created after its bases, hence the inductive type. *)
#[warnings="-register-all"]
Inductive pyclass : Type :=
  PyClass (cid : positive) (name : string) (qualname : list string)
          (bases : list pyclass).

Definition cid (c : pyclass) : positive :=
  match c with PyClass i _ _ _ => i end.
Definition __name__ (c : pyclass) : string :=
  match c with PyClass _ n _ _ => n end.
Definition __qualname__ (c : pyclass) : list string :=
  match c with PyClass _ _ q _ => q end.
Definition __bases__ (c : pyclass) : list pyclass :=
  match c with PyClass _ _ _ bs => bs end.

(** [c == d] and [c is d] on classes. *)
Definition class_eq (c d : pyclass) : bool := bool_decide (cid c = cid d).

(** [issubclass(c, d)]: [d] is [c] or is reachable from [c] through
    [__bases__]. *)
Fixpoint issubclass (c d : pyclass) : bool :=
  match c with
  | PyClass i _ _ bs => bool_decide (i = cid d) || existsb (fun b => issubclass b d) bs
  end.

(** The framework's root classes. *)
Definition object_ : pyclass := PyClass 1 "object" ["object"] [].
Definition Feature : pyclass := PyClass 2 "Feature" ["Feature"] [object_].
Definition VDevice : pyclass := PyClass 3 "VDevice" ["VDevice"] [object_].
Definition Device : pyclass := PyClass 4 "Device" ["Device"] [object_].
Definition Scenario : pyclass := PyClass 5 "Scenario" ["Scenario"] [object_].
Definition Setup : pyclass := PyClass 6 "Setup" ["Setup"] [object_].

(** The values an untyped argument can hold, as far as the code tells them
    apart: a class ([isinstance(v, type)]), a string ([isinstance(v, str)]),
    or any other object (compared by identity, the default [__eq__]). *)
Inductive pyvalue : Type :=
| VClass (c : pyclass)
| VStr (s : string)
| VObject (o : positive).

(** [v == w]. *)
Definition value_eq (v w : pyvalue) : bool :=
  match v, w with
  | VClass c, VClass d => class_eq c d
  | VStr s, VStr t => bool_decide (s = t)
  | VObject o, VObject p => bool_decide (o = p)
  | _, _ => false
  end.

(** [v == w] where either side may be [None]. *)
Definition opt_eq (v w : option pyvalue) : bool :=
  match v, w with
  | None, None => true
  | Some a, Some b => value_eq a b
  | _, _ => false
  end.

(** *** Exceptions *)

Inductive exc_class : Type :=
| ValueError
| TypeError
| IndexError
| UnclearMethodVariationError
| MultiInheritanceError
| VDeviceOverwritingError
| VDeviceResolvingError
| FeatureOverwritingError
| DeviceOverwritingError.

(** The message templates of the [raise] statements, with the values that
    are interpolated into them. *)
Inductive message : Type :=
| msg_all_or_none
| msg_illegal_device (attribute : string) (v : pyvalue)
| msg_illegal_node (attribute : string) (v : pyvalue)
| msg_unpack
| msg_no_method_variations
| msg_method_not_found (method : string)
| msg_found_no_variation (feature method vdevice : string)
| msg_found_more_than_one_variation (feature method vdevice : string)
| msg_feature_multi_parent (feature : string)
| msg_missing_overwriting (parent_vdevice : list string) (feature : string)
| msg_vdevice_should_inherit (child_vdevice parent_vdevice : list string)
| msg_property_not_found (property : string) (parent_vdevice child_vdevice : list string)
| msg_feature_overwrite (property : string) (child_vdevice parent_vdevice : list string)
                        (base_feature : string)
| msg_multiple_parent_classes (cls : string)
| msg_multi_scenario_setup_parent (cls : string)
| msg_multi_device_parent (related_type device : string)
| msg_device_should_have_same_name (device parent_device : list string)
| msg_device_should_inherit (device parent_device : list string)
| msg_device_not_implemented (parent_device : list string) (cls : string)
| msg_multiple_definitions (from_device : list string) (from_node : option string)
                           (to_device : list string) (to_node : option string)
                           (cls : string)
| msg_list_index_out_of_range
| msg_get_for_illegal_type
| msg_connection (detail : string).

Record exception : Type := Exception { exc_type : exc_class; exc_msg : message }.

(** A call either returns a value or raises. *)
Inductive result (A : Type) : Type :=
| Return (a : A)
| Raise (e : exception).
Arguments Return {A} a.
Arguments Raise {A} e.

Definition bind {A B} (r : result A) (k : A -> result B) : result B :=
  match r with
  | Return a => k a
  | Raise e => Raise e
  end.

End Py.

Import Py.

Notation "x <- r ;; k" := (bind r (fun x => k))
  (at level 100, r at next level, right associativity).
Notation "r ;;; k" := (bind r (fun _ => k))
  (at level 100, right associativity).

(** [s == t] on strings. *)
Definition str_eq (s t : string) : bool := bool_decide (s = t).

(** A [for] loop whose body may raise. *)
Fixpoint for_each {A} (body : A -> result unit) (l : list A) : result unit :=
  match l with
  | [] => Return tt
  | x :: r => body x ;;; for_each body r
  end.

(** A [for] loop that updates a variable and may raise. *)
Fixpoint for_fold {A S} (body : S -> A -> result S) (l : list A) (s : S) : result S :=
  match l with
  | [] => Return s
  | x :: r => s' <- body s x ;; for_fold body r s'
  end.

(* ===================================================================== *)
(** ** connection_metadata.py *)
(* ===================================================================== *)

Module ConnectionMetadata.

(** The attributes of a [ConnectionMetadata] object. *)
Record t : Type := Build {
  _from_device : option pyvalue;
  _from_device_node_name : option pyvalue;
  _to_device : option pyvalue;
  _to_device_node_name : option pyvalue;
  _bidirectional : bool
}.

(** The properties [from_device], [to_device], [from_node_name],
    [to_node_name], [bidirectional]. *)
Definition from_device (self : t) := _from_device self.
Definition to_device (self : t) := _to_device self.
Definition from_node_name (self : t) := _from_device_node_name self.
Definition to_node_name (self : t) := _to_device_node_name self.
Definition bidirectional (self : t) := _bidirectional self.

(** [from_device is not None and isinstance(from_device, type) and not
    issubclass(from_device, Device)] *)
Definition illegal_device (v : option pyvalue) : bool :=
  match v with
  | Some (VClass c) => negb (issubclass c Device)
  | _ => false
  end.

(** [name is not None and not isinstance(name, str)] *)
Definition illegal_node (v : option pyvalue) : bool :=
  match v with
  | Some (VStr _) => false
  | Some _ => true
  | None => false
  end.

Definition the (v : option pyvalue) : pyvalue := default (VObject 1) v.

(** [set_from]: the object after the call, and how the call ended.  The
    device is already assigned when the node check raises. *)
Definition set_from (self : t) (from_device from_device_node_name : option pyvalue)
  : t * result unit :=
  if illegal_device from_device then
    (self, Raise (Exception TypeError (msg_illegal_device "from_device" (the from_device))))
  else
    let self1 := Build from_device (_from_device_node_name self)
                       (_to_device self) (_to_device_node_name self) (_bidirectional self) in
    if illegal_node from_device_node_name then
      (self1, Raise (Exception TypeError
                       (msg_illegal_node "from_device_node_name" (the from_device_node_name))))
    else
      (Build from_device from_device_node_name
             (_to_device self1) (_to_device_node_name self1) (_bidirectional self1),
       Return tt).

(** [set_to], the same on the TO side. *)
Definition set_to (self : t) (to_device to_device_node_name : option pyvalue)
  : t * result unit :=
  if illegal_device to_device then
    (self, Raise (Exception TypeError (msg_illegal_device "to_device" (the to_device))))
  else
    let self1 := Build (_from_device self) (_from_device_node_name self)
                       to_device (_to_device_node_name self) (_bidirectional self) in
    if illegal_node to_device_node_name then
      (self1, Raise (Exception TypeError
                       (msg_illegal_node "to_device_node_name" (the to_device_node_name))))
    else
      (Build (_from_device self1) (_from_device_node_name self1)
             to_device to_device_node_name (_bidirectional self1),
       Return tt).

Definition is_none (v : option pyvalue) : bool :=
  match v with None => true | Some _ => false end.

(** [__init__]: the constructed object, or the exception that leaves no
    object behind.  [_bidirectional] is assigned last in the source; no
    statement before that reads it, so the blank object carries it from the
    start. *)
Definition __init__ (from_device to_device from_device_node_name to_device_node_name
                       : option pyvalue) (bidirectional : bool) : result t :=
  let self := Build None None None None bidirectional in
  let '(self, r) := set_from self from_device from_device_node_name in
  r ;;;
  let '(self, r) := set_to self to_device to_device_node_name in
  r ;;;
  if negb ((is_none from_device && is_none to_device && is_none from_device_node_name
            && is_none to_device_node_name)
           || (negb (is_none from_device) && negb (is_none to_device)
               && negb (is_none from_device_node_name) && negb (is_none to_device_node_name)))
  then Raise (Exception ValueError msg_all_or_none)
  else Return self.

(** [__compare_with] with its two local functions. *)
Definition check_same (self other : t) : bool :=
  opt_eq (from_device self) (from_device other)
  && opt_eq (from_node_name self) (from_node_name other)
  && opt_eq (to_device self) (to_device other)
  && opt_eq (to_node_name self) (to_node_name other).

Definition check_twisted (self other : t) : bool :=
  opt_eq (from_device self) (to_device other)
  && opt_eq (from_node_name self) (to_node_name other)
  && opt_eq (to_device self) (from_device other)
  && opt_eq (to_node_name self) (from_node_name other).

Definition __compare_with (self other : t)
           (allow_single_unidirectional_for_both_directions : bool) : bool :=
  if bidirectional self && bidirectional other then
    check_same self other || check_twisted self other
  else if negb (bidirectional self) && negb (bidirectional other) then
    check_same self other
  else if allow_single_unidirectional_for_both_directions then
    if bidirectional self && negb (bidirectional other)
       || negb (bidirectional self) && bidirectional other
    then check_same self other || check_twisted self other
    else false
  else false.

Definition equal_with (self other : t) : bool := __compare_with self other false.
Definition contained_in (self other : t) : bool := __compare_with self other true.
Definition __eq__ (self other : t) : bool := equal_with self other.

(** The four identity fields are all present or all absent. *)
Definition all_or_none (self : t) : Prop :=
  (_from_device self = None /\ _from_device_node_name self = None
   /\ _to_device self = None /\ _to_device_node_name self = None)
  \/ (is_Some (_from_device self) /\ is_Some (_from_device_node_name self)
      /\ is_Some (_to_device self) /\ is_Some (_to_device_node_name self)).

(** The metadata [(X@p, Y@q)] with the given directionality. *)
Definition link (X p Y q : pyvalue) (bidirectional : bool) : t :=
  Build (Some X) (Some p) (Some Y) (Some q) bidirectional.

End ConnectionMetadata.

(* ===================================================================== *)
(** ** Dictionaries in insertion order *)
(* ===================================================================== *)

Module Dict.
Section Dict.
Context {K V : Type} (eqb : K -> K -> bool).

(** [d.items()] is the list itself, [d.keys()] its first projections. *)
Definition keys (d : list (K * V)) : list K := map fst d.

(** [d.get(k)] *)
Fixpoint get (k : K) (d : list (K * V)) : option V :=
  match d with
  | [] => None
  | (k', v) :: r => if eqb k k' then Some v else get k r
  end.

(** [k in d.keys()] *)
Definition mem (k : K) (d : list (K * V)) : bool :=
  match get k d with Some _ => true | None => false end.

(** [d[k] = v]: an existing key keeps its position, a new one goes last. *)
Fixpoint set (k : K) (v : V) (d : list (K * V)) : list (K * V) :=
  match d with
  | [] => [(k, v)]
  | (k', v') :: r => if eqb k k' then (k', v) :: r else (k', v') :: set k v r
  end.

(** [del d[k]] *)
Definition del (k : K) (d : list (K * V)) : list (K * V) :=
  filter (fun kv => eqb k kv.1 = false) d.
End Dict.
End Dict.

(* ===================================================================== *)
(** ** The Connection class, as far as the controllers use it *)
(* ===================================================================== *)

(** [_balder/connection.py] is not part of the sources at hand; the
    controllers use the following methods of it. *)
Class ConnectionAPI (Connection : Type) : Type := {
  (** [cnn.get_singles()] *)
  get_singles : Connection -> list Connection;
  (** [cnn.contained_in(other, ignore_metadata=...)] *)
  cnn_contained_in : Connection -> Connection -> bool -> bool;
  (** [Connection.based_on(a, b)] *)
  based_on : Connection -> Connection -> result Connection;
  (** [Connection.based_on(tuple_of_connections)] *)
  based_on_tuple : list Connection -> result Connection;
  (** [a == b] *)
  cnn_eq : Connection -> Connection -> bool;
  (** [a is b] *)
  cnn_is : Connection -> Connection -> bool;
  (** [cnn.from_device] (a Device class or [None]), [cnn.from_node_name] and
      [cnn.to_node_name] (a [str] or [None]) *)
  cnn_from_device : Connection -> option pyclass;
  cnn_from_node_name : Connection -> option string;
  cnn_to_node_name : Connection -> option string
}.

(* ===================================================================== *)
(** ** controllers/feature_controller.py *)
(* ===================================================================== *)

Module FeatureController.
Section FeatureController.
Context {Connection : Type} `{ConnectionAPI Connection}.
Context {Callable : Type} `{EqDecision Callable}.

(** [Dict[Callable, Dict[Type[VDevice], List[Connection]]]] *)
Definition method_impl_dict : Type := list (Callable * list (pyclass * list Connection)).

(** What the controller reads from outside the class hierarchy:
    [inspect.getmembers(cls, inspect.isclass)], the [_for_vdevice]
    attribute of the controller [FeatureController.get_for(cls)], and
    [VDeviceController.get_for(vdevice).get_all_instantiated_feature_objects()]
    with every Feature instance given by its [__class__]. *)
Variable getmembers_isclass : pyclass -> list (string * pyclass).
Variable _for_vdevice : pyclass -> option (list (string * method_impl_dict)).
Variable get_all_instantiated_feature_objects : pyclass -> list (string * pyclass).

Definition callable_eq (f g : Callable) : bool := bool_decide (f = g).

Definition get_method_based_for_vdevice (related_cls : pyclass) := _for_vdevice related_cls.

(** *** get_method_variation *)

(** Lines 166-181: the candidates, every implementation with the
    [based_on] combination of its matching singles. *)
Fixpoint add_matching_singles (with_connection : Connection) (cur_impl_method : Callable)
         (cur_impl_method_cnns : list Connection)
         (all_possible_method_variations : list (Callable * Connection))
  : result (list (Callable * Connection)) :=
  match cur_impl_method_cnns with
  | [] => Return all_possible_method_variations
  | cur_single :: rest =>
      if cnn_contained_in cur_single with_connection true then
        match Dict.get callable_eq cur_impl_method all_possible_method_variations with
        | None =>
            add_matching_singles with_connection cur_impl_method rest
              (Dict.set callable_eq cur_impl_method cur_single all_possible_method_variations)
        | Some present =>
            combined <- based_on present cur_single ;;
            add_matching_singles with_connection cur_impl_method rest
              (Dict.set callable_eq cur_impl_method combined all_possible_method_variations)
        end
      else add_matching_singles with_connection cur_impl_method rest
             all_possible_method_variations
  end.

Fixpoint collect_possible (for_vdevice : pyclass) (with_connection : Connection)
         (items : method_impl_dict)
         (all_possible_method_variations : list (Callable * Connection))
  : result (list (Callable * Connection)) :=
  match items with
  | [] => Return all_possible_method_variations
  | (cur_impl_method, cur_method_impl_dict) :: rest =>
      match Dict.get class_eq for_vdevice cur_method_impl_dict with
      | Some cnns =>
          d <- add_matching_singles with_connection cur_impl_method
                 (concat (map get_singles cnns)) all_possible_method_variations ;;
          collect_possible for_vdevice with_connection rest d
      | None => collect_possible for_vdevice with_connection rest
                  all_possible_method_variations
      end
  end.

(** Lines 207-214: the inner [for] sets [can_be_deleted] to [False] as soon
    as a connection that is not [==] to [cur_cnn] does not contain it. *)
Definition can_be_deleted (d : list (Callable * Connection)) (cur_cnn : Connection) : bool :=
  forallb (fun other => cnn_eq cur_cnn other.2 || cnn_contained_in cur_cnn other.2 false) d.

(** One pass of the outer [for]: the first deletable entry is deleted and
    the [for] is left. *)
Definition first_deletable (d : list (Callable * Connection)) : option (Callable * Connection) :=
  find (fun cur => can_be_deleted d cur.2) d.

Definition sweep (d : list (Callable * Connection)) : list (Callable * Connection) :=
  match first_deletable d with
  | Some (cur_meth, _) => Dict.del callable_eq cur_meth d
  | None => d
  end.

(** Lines 204-219: the [while] loop; [fuel] bounds the number of passes. *)
Fixpoint determine_outer (fuel : nat) (d : list (Callable * Connection))
  : list (Callable * Connection) :=
  match fuel with
  | 0 => d
  | S fuel =>
      let length_before := length d in
      let d' := sweep d in
      if bool_decide (length d' = 1) then d'
      else if bool_decide (length_before = length d') then d'
      else determine_outer fuel d'
  end.

(** Lines 200-226: what is done with a non-empty candidate dictionary. *)
Definition select_variation (related_cls : pyclass) (of_method_name : string)
           (for_vdevice : pyclass) (d : list (Callable * Connection))
  : result (option Callable) :=
  if bool_decide (length d = 1) then
    match Dict.keys d with
    | k :: _ => Return (Some k)
    | [] => Raise (Exception IndexError msg_list_index_out_of_range)
    end
  else
    let d := determine_outer (length d) d in
    if bool_decide (1 < length d) then
      Raise (Exception UnclearMethodVariationError
               (msg_found_more_than_one_variation (__name__ related_cls) of_method_name
                  (__name__ for_vdevice)))
    else
      match Dict.keys d with
      | k :: _ => Return (Some k)
      | [] => Raise (Exception IndexError msg_list_index_out_of_range)
      end.

(** Lines 186-192: the parent classes are tried in the order of
    [__bases__]; [rec] is the method of the parent's controller. *)
Fixpoint try_parents (rec : pyclass -> result (option Callable)) (bases : list pyclass)
  : result (option Callable) :=
  match bases with
  | [] => Return None
  | cur_base :: rest =>
      if issubclass cur_base Feature && negb (class_eq cur_base Feature) then
        parent_meth_result <- rec cur_base ;;
        match parent_meth_result with
        | Some m => Return (Some m)
        | None => try_parents rec rest
        end
      else try_parents rec rest
  end.

(** The body of [get_method_variation] after [with_connection] has been
    normalised, with the recursive call abstracted as [rec]. *)
Definition get_method_variation_body (rec : pyclass -> result (option Callable))
           (related_cls : pyclass) (bases : list pyclass) (of_method_name : string)
           (for_vdevice : pyclass) (with_connection : Connection)
           (ignore_no_findings : bool) : result (option Callable) :=
  match get_method_based_for_vdevice related_cls with
  | None => Raise (Exception ValueError msg_no_method_variations)
  | Some all_vdevice_method_variations =>
      match Dict.get str_eq of_method_name all_vdevice_method_variations with
      | None => Raise (Exception ValueError (msg_method_not_found of_method_name))
      | Some items =>
          all_possible_method_variations <-
            collect_possible for_vdevice with_connection items [] ;;
          if bool_decide (length all_possible_method_variations = 0) then
            parent_meth_result <- try_parents rec bases ;;
            match parent_meth_result with
            | Some m => Return (Some m)
            | None =>
                if negb ignore_no_findings then
                  Raise (Exception UnclearMethodVariationError
                           (msg_found_no_variation (__name__ related_cls) of_method_name
                              (__name__ for_vdevice)))
                else Return None
            end
          else select_variation related_cls of_method_name for_vdevice
                 all_possible_method_variations
      end
  end.

(** [get_method_variation] once [with_connection] is a [Connection]. *)
Fixpoint get_method_variation_cnn (related_cls : pyclass) (of_method_name : string)
         (for_vdevice : pyclass) (with_connection : Connection)
         (ignore_no_findings : bool) {struct related_cls} : result (option Callable) :=
  match related_cls with
  | PyClass _ _ _ bases =>
      get_method_variation_body
        (fun cur_base =>
           get_method_variation_cnn cur_base of_method_name for_vdevice with_connection true)
        related_cls bases of_method_name for_vdevice with_connection ignore_no_findings
  end.

(** [FeatureController.get_for(related_cls).get_method_variation(...)];
    [with_connection] is a [Connection] or a tuple of them (lines 157-158). *)
Definition get_method_variation (related_cls : pyclass) (of_method_name : string)
           (for_vdevice : pyclass) (with_connection : Connection + list Connection)
           (ignore_no_findings : bool) : result (option Callable) :=
  with_connection <- match with_connection with
                     | inl cnn => Return cnn
                     | inr tuple => based_on_tuple tuple
                     end ;;
  get_method_variation_cnn related_cls of_method_name for_vdevice with_connection
    ignore_no_findings.

(** *** get_inner_vdevice_classes and get_abs_inner_vdevice_classes *)

(** [q[-2:]] unpacked into two names: fails unless two components are
    left. *)
Fixpoint last_two (q : list string) : option (string * string) :=
  match q with
  | [] => None
  | [_] => None
  | [a; b] => Some (a, b)
  | _ :: r => last_two r
  end.

(** Lines 238-248: the members that are VDevice classes declared in the
    body of the related class. *)
Fixpoint filter_vdevice_classes (related_cls : pyclass) (all_classes : list (string * pyclass))
  : result (list pyclass) :=
  match all_classes with
  | [] => Return []
  | (_, cur_class) :: rest =>
      if negb (issubclass cur_class VDevice) then filter_vdevice_classes related_cls rest
      else
        match last_two (__qualname__ cur_class) with
        | None => Raise (Exception ValueError msg_unpack)
        | Some (outer_class_name, _) =>
            if negb (str_eq outer_class_name (__name__ related_cls)) then
              filter_vdevice_classes related_cls rest
            else
              filtered <- filter_vdevice_classes related_cls rest ;;
              Return (cur_class :: filtered)
        end
  end.

(** Lines 252-256 and 271-275: the [for] over [__bases__] that both methods
    run when [filtered_classes] is empty; when no base returns, the method
    goes on to [return filtered_classes]. *)
Fixpoint search_in_parent (rec : pyclass -> result (list pyclass)) (bases : list pyclass)
         (filtered_classes : list pyclass) : result (list pyclass) :=
  match bases with
  | [] => Return filtered_classes
  | cur_base :: rest =>
      if class_eq cur_base Feature then Return []
      else if issubclass cur_base Feature then rec cur_base
      else search_in_parent rec rest filtered_classes
  end.

(** The body of [get_inner_vdevice_classes]; [abs] is
    [get_abs_inner_vdevice_classes] of a parent's controller. *)
Definition get_inner_vdevice_classes_body (abs : pyclass -> result (list pyclass))
           (related_cls : pyclass) (bases : list pyclass) : result (list pyclass) :=
  filtered_classes <- filter_vdevice_classes related_cls (getmembers_isclass related_cls) ;;
  if bool_decide (length filtered_classes = 0) then
    search_in_parent abs bases filtered_classes
  else Return filtered_classes.

Fixpoint get_abs_inner_vdevice_classes (related_cls : pyclass) : result (list pyclass) :=
  match related_cls with
  | PyClass _ _ _ bases =>
      filtered_classes <-
        get_inner_vdevice_classes_body get_abs_inner_vdevice_classes related_cls bases ;;
      if bool_decide (length filtered_classes = 0) then
        search_in_parent get_abs_inner_vdevice_classes bases filtered_classes
      else Return filtered_classes
  end.

Definition get_inner_vdevice_classes (related_cls : pyclass) : result (list pyclass) :=
  get_inner_vdevice_classes_body get_abs_inner_vdevice_classes related_cls
    (__bases__ related_cls).

(** The VDevice classes declared in the body of the class itself. *)
Definition local_vdevice_classes (related_cls : pyclass) : result (list pyclass) :=
  filter_vdevice_classes related_cls (getmembers_isclass related_cls).

(** *** validate_inner_vdevice_inheritance *)

(** Lines 310-317: the parent Feature class, paired with the outcome [rec]
    of the call that is made on it in line 322. *)
Fixpoint next_feature_parent {A} (rec : pyclass -> A) (related_cls : pyclass)
         (bases : list pyclass) (found : option (pyclass * A))
  : result (option (pyclass * A)) :=
  match bases with
  | [] => Return found
  | cur_parent :: rest =>
      if issubclass cur_parent Feature && negb (class_eq cur_parent Feature) then
        match found with
        | Some _ => Raise (Exception MultiInheritanceError
                             (msg_feature_multi_parent (__name__ related_cls)))
        | None => next_feature_parent rec related_cls rest (Some (cur_parent, rec cur_parent))
        end
      else next_feature_parent rec related_cls rest found
  end.

(** [isinstance(obj, cls)] for an object given by its class. *)
Definition isinstance (obj_class cls : pyclass) : bool := issubclass obj_class cls.

(** Lines 353-370: the Feature properties of the parent VDevice against
    those of the overriding one. *)
Fixpoint check_vdevice_features (related_child_vdevice cur_parent_vdevice : pyclass)
         (cur_vdevice_features : list (string * pyclass))
         (cur_vdevice_base_features : list (string * pyclass)) : result unit :=
  match cur_vdevice_base_features with
  | [] => Return tt
  | (cur_base_property_name, cur_base_feature_class) :: rest =>
      match Dict.get str_eq cur_base_property_name cur_vdevice_features with
      | None => Raise (Exception VDeviceResolvingError
                         (msg_property_not_found cur_base_property_name
                            (__qualname__ cur_parent_vdevice)
                            (__qualname__ related_child_vdevice)))
      | Some cur_feature_class =>
          if negb (isinstance cur_feature_class cur_base_feature_class) then
            Raise (Exception FeatureOverwritingError
                     (msg_feature_overwrite cur_base_property_name
                        (__qualname__ related_child_vdevice)
                        (__qualname__ cur_parent_vdevice)
                        (__name__ cur_base_feature_class)))
          else check_vdevice_features related_child_vdevice cur_parent_vdevice
                 cur_vdevice_features rest
      end
  end.

(** [direct_namings.index(name)] followed by the list access. *)
Definition find_by_name (name : string) (classes : list pyclass) : option pyclass :=
  find (fun c => str_eq (__name__ c) name) classes.

(** Lines 328-370: the body of the [for] over the parent's VDevices. *)
Definition check_parent_vdevice (related_cls : pyclass)
           (all_direct_vdevices_of_this_feature_lvl : list pyclass)
           (cur_parent_vdevice : pyclass) : result unit :=
  match find_by_name (__name__ cur_parent_vdevice) all_direct_vdevices_of_this_feature_lvl with
  | None => Raise (Exception VDeviceOverwritingError
                     (msg_missing_overwriting (__qualname__ cur_parent_vdevice)
                        (__name__ related_cls)))
  | Some related_child_vdevice =>
      if negb (issubclass related_child_vdevice cur_parent_vdevice) then
        Raise (Exception VDeviceOverwritingError
                 (msg_vdevice_should_inherit (__qualname__ related_child_vdevice)
                    (__qualname__ cur_parent_vdevice)))
      else
        check_vdevice_features related_child_vdevice cur_parent_vdevice
          (get_all_instantiated_feature_objects related_child_vdevice)
          (get_all_instantiated_feature_objects cur_parent_vdevice)
  end.

Fixpoint validate_inner_vdevice_inheritance (related_cls : pyclass) : result unit :=
  match related_cls with
  | PyClass _ _ _ bases =>
      all_direct_vdevices_of_this_feature_lvl <- get_inner_vdevice_classes related_cls ;;
      if negb (bool_decide (length all_direct_vdevices_of_this_feature_lvl = 0)) then
        next_feature_parent <-
          next_feature_parent validate_inner_vdevice_inheritance related_cls bases None ;;
        match next_feature_parent with
        | Some (next_feature_parent, parent_validation) =>
            parent_validation ;;;
            parent_vdevices <- get_abs_inner_vdevice_classes next_feature_parent ;;
            for_each (check_parent_vdevice related_cls all_direct_vdevices_of_this_feature_lvl)
              parent_vdevices
        | None => Return tt
        end
      else Return tt
  end.

(** *** Vocabulary of the statements about this controller *)

(** [proper_feature_parent b]: [b] is a subclass of [Feature] other than
    [Feature] itself (lines 187 and 312). *)
Definition proper_feature_parent (b : pyclass) : bool :=
  issubclass b Feature && negb (class_eq b Feature).

(** [eliminates d d']: [d'] is reached from the candidate dictionary [d]
    by deleting candidates one at a time, each of them, when it is deleted,
    with a connection that is [contained_in] the connection of every
    candidate that stays. *)
Inductive eliminates : list (Callable * Connection) -> list (Callable * Connection) -> Prop :=
| eliminates_done d : eliminates d d
| eliminates_step d cur_meth cur_cnn d' :
    In (cur_meth, cur_cnn) d ->
    length d = S (length (Dict.del callable_eq cur_meth d)) ->
    (forall other, In other (Dict.del callable_eq cur_meth d) ->
                   cnn_contained_in cur_cnn other.2 false = true) ->
    eliminates (Dict.del callable_eq cur_meth d) d' ->
    eliminates d d'.

(** No candidate of [d] can be deleted any more: each has another
    candidate, with a connection not [==] to its own, whose connection does
    not contain it. *)
Definition nothing_deletable (d : list (Callable * Connection)) : Prop :=
  forall cur, In cur d ->
    exists other, In other d /\ cnn_eq cur.2 other.2 = false
                  /\ cnn_contained_in cur.2 other.2 false = false.

(** The Feature properties of the parent VDevice [pv] all exist on [v],
    under the same name, with an instance of the same or a sub-class. *)
Definition features_compatible (v pv : pyclass) : Prop :=
  forall prop base_class,
    In (prop, base_class) (get_all_instantiated_feature_objects pv) ->
    exists cls, Dict.get str_eq prop (get_all_instantiated_feature_objects v) = Some cls
                /\ isinstance cls base_class = true.

End FeatureController.
End FeatureController.

(* ===================================================================== *)
(** ** controllers/normal_scenario_setup_controller.py *)
(* ===================================================================== *)

Module NormalScenarioSetupController.
Section NormalScenarioSetupController.
Context {Connection : Type} `{ConnectionAPI Connection}.

(** What the controller reads from outside the class hierarchy:
    [inspect.getmembers(cls, inspect.isclass)], the attributes
    [connections] and [absolute_connections] of
    [DeviceController.get_for(device)], and the class attribute
    [_related_type] ([Scenario] or [Setup]) of the concrete controller. *)
Variable getmembers_isclass : pyclass -> list (string * pyclass).
Variable connections : pyclass -> list (string * list Connection).
Variable absolute_connections : pyclass -> list (pyclass * list Connection).
Variable _related_type : pyclass.


(** [a == b] for two variables that hold a class or [None]. *)
Definition opt_class_eq (a b : option pyclass) : bool :=
  match a, b with
  | None, None => true
  | Some c, Some d => class_eq c d
  | _, _ => false
  end.

(** *** get_all_inner_device_classes *)

Fixpoint filter_device_classes (related_cls : pyclass) (all_classes : list (string * pyclass))
  : result (list pyclass) :=
  match all_classes with
  | [] => Return []
  | (_, cur_class) :: rest =>
      if negb (issubclass cur_class Device) then filter_device_classes related_cls rest
      else
        match __qualname__ cur_class with
        | [outer_class_name; _] =>
            if negb (str_eq outer_class_name (__name__ related_cls)) then
              filter_device_classes related_cls rest
            else
              filtered <- filter_device_classes related_cls rest ;;
              Return (cur_class :: filtered)
        | _ => Raise (Exception ValueError msg_unpack)
        end
  end.

Definition get_all_inner_device_classes (related_cls : pyclass) : result (list pyclass) :=
  filter_device_classes related_cls (getmembers_isclass related_cls).

(** *** get_all_abs_inner_device_classes *)

(** Lines 89-95: the parent class of the related type, paired with the
    outcome [rec] of the call that line 99 makes on it. *)
Fixpoint find_base_class {A} (rec : pyclass -> A) (related_cls : pyclass)
         (bases : list pyclass) (base_class : option (pyclass * A))
  : result (option (pyclass * A)) :=
  match bases with
  | [] => Return base_class
  | cur_base :: rest =>
      if issubclass cur_base _related_type then
        match base_class with
        | Some _ => Raise (Exception MultiInheritanceError
                             (msg_multiple_parent_classes (__name__ related_cls)))
        | None => find_base_class rec related_cls rest (Some (cur_base, rec cur_base))
        end
      else find_base_class rec related_cls rest base_class
  end.

Fixpoint get_all_abs_inner_device_classes (related_cls : pyclass) : result (list pyclass) :=
  match related_cls with
  | PyClass _ _ _ bases =>
      cls_devices <- get_all_inner_device_classes related_cls ;;
      if bool_decide (length cls_devices = 0) then
        base_class <- find_base_class get_all_abs_inner_device_classes related_cls bases None ;;
        match base_class with
        | Some (base_class, parent_devices) =>
            if class_eq base_class _related_type then Return []
            else parent_devices
        | None => Raise (Exception TypeError msg_get_for_illegal_type)
        end
      else Return cls_devices
  end.

(** *** get_all_connections and get_all_abs_connections *)

Definition get_all_connections (related_cls : pyclass) : result (list Connection) :=
  all_device_classes <- get_all_inner_device_classes related_cls ;;
  Return (concat (map (fun cur_device => concat (map snd (connections cur_device)))
                    all_device_classes)).

(** [cur_cnn in all_connections] *)
Definition cnn_in (cur_cnn : Connection) (all_connections : list Connection) : bool :=
  existsb (fun e => cnn_is cur_cnn e || cnn_eq cur_cnn e) all_connections.

(** Lines 126-127 *)
Definition append_if_new (all_connections : list Connection) (cur_cnn : Connection)
  : list Connection :=
  if negb (cnn_in cur_cnn all_connections) then all_connections ++ [cur_cnn]
  else all_connections.

Definition get_all_abs_connections (related_cls : pyclass) : result (list Connection) :=
  all_device_classes <- get_all_abs_inner_device_classes related_cls ;;
  Return (foldl append_if_new []
            (concat (map (fun cur_device => concat (map snd (absolute_connections cur_device)))
                       all_device_classes))).

(** *** validate_inheritance *)

(** Lines 142-150, with the outcome [rec] of the call of line 218. *)
Fixpoint find_parent_scenario_or_setup {A} (rec : pyclass -> A) (related_cls : pyclass)
         (bases : list pyclass) (parent : option (pyclass * A))
  : result (option (pyclass * A)) :=
  match bases with
  | [] => Return parent
  | cur_base_class :: rest =>
      if issubclass cur_base_class Scenario || issubclass cur_base_class Setup then
        match parent with
        | Some _ => Raise (Exception MultiInheritanceError
                             (msg_multi_scenario_setup_parent (__name__ related_cls)))
        | None => find_parent_scenario_or_setup rec related_cls rest
                    (Some (cur_base_class, rec cur_base_class))
        end
      else find_parent_scenario_or_setup rec related_cls rest parent
  end.

(** Lines 168-171 *)
Definition relevant_parent_according_naming (cur_item_device : pyclass)
           (abs_parent_devices : list pyclass) : option pyclass :=
  find (fun p => str_eq (__name__ p) (__name__ cur_item_device)) abs_parent_devices.

(** Lines 174-183 *)
Fixpoint relevant_parent_device_according_inheritance (cur_item_device : pyclass)
         (abs_parent_devices : list pyclass) (found : option pyclass)
  : result (option pyclass) :=
  match abs_parent_devices with
  | [] => Return found
  | cur_parent :: rest =>
      if issubclass cur_item_device cur_parent then
        match found with
        | Some _ => Raise (Exception MultiInheritanceError
                             (msg_multi_device_parent (__name__ _related_type)
                                (__name__ cur_item_device)))
        | None => relevant_parent_device_according_inheritance cur_item_device rest
                    (Some cur_parent)
        end
      else relevant_parent_device_according_inheritance cur_item_device rest found
  end.

(** Lines 166-203: the body of the [for] over the inner devices. *)
Definition check_item_device (abs_parent_devices : list pyclass) (cur_item_device : pyclass)
  : result unit :=
  let by_naming := relevant_parent_according_naming cur_item_device abs_parent_devices in
  by_inheritance <-
    relevant_parent_device_according_inheritance cur_item_device abs_parent_devices None ;;
  if opt_class_eq by_naming by_inheritance && negb (bool_decide (by_inheritance = None)) then
    Return tt
  else if bool_decide (by_naming = None) && bool_decide (by_inheritance = None) then
    Return tt
  else
    match by_naming, by_inheritance with
    | None, Some inherited =>
        Raise (Exception DeviceOverwritingError
                 (msg_device_should_have_same_name (__qualname__ cur_item_device)
                    (__qualname__ inherited)))
    | Some named, None =>
        Raise (Exception DeviceOverwritingError
                 (msg_device_should_inherit (__qualname__ cur_item_device)
                    (__qualname__ named)))
    | _, _ => Return tt
    end.

(** Lines 206-215: the body of the [for] over the parent devices. *)
Definition check_parent_implemented (related_cls : pyclass) (devices : list pyclass)
           (cur_parent : pyclass) : result unit :=
  if existsb (fun cur_item_device => issubclass cur_item_device cur_parent) devices then
    Return tt
  else Raise (Exception DeviceOverwritingError
                (msg_device_not_implemented (__qualname__ cur_parent) (__name__ related_cls))).

Fixpoint validate_inheritance (related_cls : pyclass) : result unit :=
  match related_cls with
  | PyClass _ _ _ bases =>
      parent <- find_parent_scenario_or_setup validate_inheritance related_cls bases None ;;
      match parent with
      | None => Raise (Exception TypeError msg_get_for_illegal_type)
      | Some (parent_scenario_or_setup, parent_validation) =>
          if class_eq parent_scenario_or_setup Scenario
             || class_eq parent_scenario_or_setup Setup
          then Return tt
          else
            devices <- get_all_inner_device_classes related_cls ;;
            abs_parent_devices <- get_all_abs_inner_device_classes parent_scenario_or_setup ;;
            if bool_decide (length devices = 0) then Return tt
            else
              for_each (check_item_device abs_parent_devices) devices ;;;
              for_each (check_parent_implemented related_cls devices) abs_parent_devices ;;;
              parent_validation
      end
  end.

(** *** get_absolute_single_connections *)

(** [result[dev1][node-of-dev1][dev2][node-of-dev2]]; a Device class is
    keyed by its identity. *)
Definition table : Type :=
  gmap positive (gmap (option string) (gmap positive (gmap (option string) (list Connection)))).

(** The four keys [(dev1, node-of-dev1, dev2, node-of-dev2)] and the
    access [result[dev1][node-of-dev1][dev2][node-of-dev2]]. *)
Definition four_keys : Type := positive * option string * positive * option string.

Definition lookup4 (t : table) (k : four_keys) : option (list Connection) :=
  let '(from_device, from_node, to_device, to_node) := k in
  l1 ← t !! from_device; l2 ← l1 !! from_node; l3 ← l2 !! to_device; l3 !! to_node.

(** Lines 281-286 *)
Definition nodes_seen_from (cur_from_device : pyclass) (cur_cnn : Connection)
  : option string * option string :=
  if opt_class_eq (Some cur_from_device) (cnn_from_device cur_cnn)
  then (cnn_from_node_name cur_cnn, cnn_to_node_name cur_cnn)
  else (cnn_to_node_name cur_cnn, cnn_from_node_name cur_cnn).

(** Lines 281-306: the body of the innermost [for]. *)
Definition add_connection (related_cls cur_from_device cur_to_device : pyclass)
           (all_abs_single_connections : table) (cur_cnn : Connection) : result table :=
  let '(cur_from_node, cur_to_node) := nodes_seen_from cur_from_device cur_cnn in
  let l1 := default ∅ (all_abs_single_connections !! cid cur_from_device) in
  let l2 := default ∅ (l1 !! cur_from_node) in
  let l3 := default ∅ (l2 !! cid cur_to_device) in
  match l3 !! cur_to_node with
  | None =>
      Return (<[cid cur_from_device :=
                 <[cur_from_node :=
                    <[cid cur_to_device :=
                       <[cur_to_node := get_singles cur_cnn]> l3]> l2]> l1]>
                all_abs_single_connections)
  | Some _ =>
      Raise (Exception ValueError
               (msg_multiple_definitions (__qualname__ cur_from_device) cur_from_node
                  (__qualname__ cur_to_device) cur_to_node (__name__ related_cls)))
  end.

(** The connections in the order the three nested [for] loops reach them,
    each with its FROM and TO device. *)
Definition connections_in_order (all_devices : list pyclass)
  : list (pyclass * pyclass * Connection) :=
  concat (map (fun cur_from_device =>
                 concat (map (fun item : pyclass * list Connection =>
                                map (fun cur_cnn => (cur_from_device, item.1, cur_cnn)) item.2)
                           (absolute_connections cur_from_device)))
            all_devices).

Definition get_absolute_single_connections (related_cls : pyclass) : result table :=
  all_devices <- get_all_abs_inner_device_classes related_cls ;;
  for_fold (fun t '(cur_from_device, cur_to_device, cur_cnn) =>
              add_connection related_cls cur_from_device cur_to_device t cur_cnn)
    (connections_in_order all_devices) ∅.

(** *** Vocabulary of the statements about this controller *)

(** The four keys under which a connection reached by the loops is
    stored. *)
Definition keys_of (e : pyclass * pyclass * Connection) : four_keys :=
  let '(cur_from_device, cur_to_device, cur_cnn) := e in
  let '(cur_from_node, cur_to_node) := nodes_seen_from cur_from_device cur_cnn in
  (cid cur_from_device, cur_from_node, cid cur_to_device, cur_to_node).

(** No element of the list is [in] the part of the list before it. *)
Definition deduplicated (l : list Connection) : Prop :=
  forall before x after, l = (before ++ x :: after)%list -> cnn_in x before = false.

End NormalScenarioSetupController.
End NormalScenarioSetupController.

(* ===================================================================== *)
(** ** Concrete classes and connections used in the examples *)
(* ===================================================================== *)

Module Examples.

(** Two devices of a setup and their attachment points. *)
Definition DevA : pyclass := PyClass 101 "DevA" ["SetupX"; "DevA"] [Device].
Definition DevB : pyclass := PyClass 102 "DevB" ["SetupX"; "DevB"] [Device].

Definition A : pyvalue := VClass DevA.
Definition B : pyvalue := VClass DevB.
Definition p1 : pyvalue := VStr "p1".
Definition n1 : pyvalue := VStr "n1".

(** A Feature with two VDevices, a child that overrides only one of them,
    and a grandchild without VDevices of its own (the classes of the test
    [test_0_overwrite_illegally_befsce]). *)
Definition FeatureOfRelevanceLvl1 : pyclass :=
  PyClass 201 "FeatureOfRelevanceLvl1" ["FeatureOfRelevanceLvl1"] [Feature].
Definition Lvl1_VDeviceWithI : pyclass :=
  PyClass 211 "VDeviceWithI" ["FeatureOfRelevanceLvl1"; "VDeviceWithI"] [VDevice].
Definition Lvl1_VDeviceWithII : pyclass :=
  PyClass 212 "VDeviceWithII" ["FeatureOfRelevanceLvl1"; "VDeviceWithII"] [VDevice].
Definition FeatureOfRelevanceLvl2 : pyclass :=
  PyClass 202 "FeatureOfRelevanceLvl2" ["FeatureOfRelevanceLvl2"] [FeatureOfRelevanceLvl1].
Definition Lvl2_VDeviceWithI : pyclass :=
  PyClass 221 "VDeviceWithI" ["FeatureOfRelevanceLvl2"; "VDeviceWithI"] [Lvl1_VDeviceWithI].
Definition SetupFeatureOfRelevanceLvl3 : pyclass :=
  PyClass 203 "SetupFeatureOfRelevanceLvl3" ["SetupFeatureOfRelevanceLvl3"]
          [FeatureOfRelevanceLvl2].

(** A child that overrides both VDevices of [FeatureOfRelevanceLvl1]. *)
Definition FeatureComplete : pyclass :=
  PyClass 204 "FeatureComplete" ["FeatureComplete"] [FeatureOfRelevanceLvl1].
Definition Complete_VDeviceWithI : pyclass :=
  PyClass 241 "VDeviceWithI" ["FeatureComplete"; "VDeviceWithI"] [Lvl1_VDeviceWithI].
Definition Complete_VDeviceWithII : pyclass :=
  PyClass 242 "VDeviceWithII" ["FeatureComplete"; "VDeviceWithII"] [Lvl1_VDeviceWithII].

(** Two unrelated Features without VDevices and a class that inherits from
    both. *)
Definition FeatureLeft : pyclass := PyClass 251 "FeatureLeft" ["FeatureLeft"] [Feature].
Definition FeatureRight : pyclass := PyClass 252 "FeatureRight" ["FeatureRight"] [Feature].
Definition FeatureBoth : pyclass :=
  PyClass 253 "FeatureBoth" ["FeatureBoth"] [FeatureLeft; FeatureRight].

(** A class that inherits from two Features and declares a VDevice. *)
Definition FeatureBothWithVDevice : pyclass :=
  PyClass 254 "FeatureBothWithVDevice" ["FeatureBothWithVDevice"] [FeatureLeft; FeatureRight].
Definition Both_VDevice : pyclass :=
  PyClass 255 "VDeviceX" ["FeatureBothWithVDevice"; "VDeviceX"] [VDevice].

(** A VDevice declared at module level, used by the methods of
    [FeatureLeft] and [FeatureRight]. *)
Definition SomeVDevice : pyclass := PyClass 260 "SomeVDevice" ["SomeVDevice"] [VDevice].

(** [inspect.getmembers(cls, inspect.isclass)]: sorted by name, inherited
    members included. *)
Definition getmembers_isclass (c : pyclass) : list (string * pyclass) :=
  match cid c with
  | 201 => [("VDeviceWithI", Lvl1_VDeviceWithI); ("VDeviceWithII", Lvl1_VDeviceWithII)]
  | 202 | 203 => [("VDeviceWithI", Lvl2_VDeviceWithI); ("VDeviceWithII", Lvl1_VDeviceWithII)]
  | 204 => [("VDeviceWithI", Complete_VDeviceWithI); ("VDeviceWithII", Complete_VDeviceWithII)]
  | 254 => [("VDeviceX", Both_VDevice)]
  | _ => []
  end%positive.

(** The Feature classes instantiated inside the VDevices. *)
Definition IsUsedFeature : pyclass := PyClass 270 "IsUsedFeature" ["IsUsedFeature"] [Feature].
Definition IsUsedFeatureChild : pyclass :=
  PyClass 271 "IsUsedFeatureChild" ["IsUsedFeatureChild"] [IsUsedFeature].

Definition get_all_instantiated_feature_objects (v : pyclass) : list (string * pyclass) :=
  match cid v with
  | 211 => [("used", IsUsedFeature)]
  | 221 => [("used", IsUsedFeatureChild)]
  | 241 => [("used", IsUsedFeatureChild); ("more", IsUsedFeature)]
  | _ => []
  end%positive.

(** *** An example implementation of the Connection interface

    A connection is an AND-combination of kinds out of a small type tree,
    with optional endpoints; a kind is contained in itself and in the kinds
    derived from it. *)
Inductive kind : Type := Serial | SerialOverUSB | Ethernet | Usb.

Definition kind_contained_in (k k' : kind) : bool :=
  match k, k' with
  | Serial, Serial | Serial, SerialOverUSB | SerialOverUSB, SerialOverUSB
  | Ethernet, Ethernet | Usb, Usb => true
  | _, _ => false
  end.

Record connection : Type := Cnn {
  oid : positive;
  kinds : list kind;
  endpoint_from : option pyclass;
  endpoint_from_node : option string;
  endpoint_to_node : option string
}.

Definition kinds_contained_in (a b : connection) : bool :=
  forallb (fun k => existsb (kind_contained_in k) (kinds b)) (kinds a).

#[export] Instance connection_api : ConnectionAPI connection := {
  get_singles c := map (fun k => Cnn (oid c) [k] (endpoint_from c) (endpoint_from_node c)
                                  (endpoint_to_node c)) (kinds c);
  cnn_contained_in a b _ := kinds_contained_in a b;
  based_on a b := Return (Cnn (oid a) (kinds a ++ kinds b) (endpoint_from a)
                            (endpoint_from_node a) (endpoint_to_node a));
  based_on_tuple t :=
    match t with
    | [] => Raise (Exception ValueError (msg_connection "empty tuple"))
    | a :: r => Return (Cnn (oid a) (concat (map kinds (a :: r))) (endpoint_from a)
                          (endpoint_from_node a) (endpoint_to_node a))
    end;
  cnn_eq a b := kinds_contained_in a b && kinds_contained_in b a;
  cnn_is a b := bool_decide (oid a = oid b);
  cnn_from_device := endpoint_from;
  cnn_from_node_name := endpoint_from_node;
  cnn_to_node_name := endpoint_to_node
}.

Definition template (i : positive) (ks : list kind) : connection := Cnn i ks None None None.

(** Method implementations are named by numbers: [read] of [FeatureLeft] is
    1 (over [Serial]), 2 (over [SerialOverUSB]) and 3 (over [Ethernet]);
    [read] of [FeatureRight] is 4 (over [Usb]); [FeatureBoth] registers
    [read] without an implementation for a VDevice. *)
Definition _for_vdevice (c : pyclass)
  : option (list (string * list (positive * list (pyclass * list connection)))) :=
  match cid c with
  | 251 => Some [("read", [(1, [(SomeVDevice, [template 1 [Serial]])]);
                           (2, [(SomeVDevice, [template 2 [SerialOverUSB]])]);
                           (3, [(SomeVDevice, [template 3 [Ethernet]])])])]
  | 252 => Some [("read", [(4, [(SomeVDevice, [template 4 [Usb]])])])]
  | 253 => Some [("read", [])]
  | _ => None
  end%positive.

(** A child of [FeatureRight] that introduces the method [write], with
    the implementation 5 (over [Serial]), and registers [read] without an
    implementation of its own; [FeatureRight] has no [write]. *)
Definition FeatureRightChild : pyclass :=
  PyClass 256 "FeatureRightChild" ["FeatureRightChild"] [FeatureRight].

Definition _for_vdevice_with_child (c : pyclass)
  : option (list (string * list (positive * list (pyclass * list connection)))) :=
  match cid c with
  | 256 => Some [("read", []);
                 ("write", [(5, [(SomeVDevice, [template 5 [Serial]])])])]
  | _ => _for_vdevice c
  end%positive.

(** *** Setups

    A setup with two connected devices (the classes of the test
    [test_0_setup_inheritance_missing_device_inheritance]), and children of
    it. *)
Definition SetupAParent : pyclass := PyClass 301 "SetupAParent" ["SetupAParent"] [Setup].
Definition Parent_SetupDevice1 : pyclass :=
  PyClass 311 "SetupDevice1" ["SetupAParent"; "SetupDevice1"] [Device].
Definition Parent_SetupDevice2 : pyclass :=
  PyClass 312 "SetupDevice2" ["SetupAParent"; "SetupDevice2"] [Device].

(** The child of the test: both devices are declared again, the second one
    without inheriting from the parent's device. *)
Definition SetupAChild : pyclass := PyClass 302 "SetupAChild" ["SetupAChild"] [SetupAParent].
Definition Child_SetupDevice1 : pyclass :=
  PyClass 321 "SetupDevice1" ["SetupAChild"; "SetupDevice1"] [Parent_SetupDevice1].
Definition Child_SetupDevice2 : pyclass :=
  PyClass 322 "SetupDevice2" ["SetupAChild"; "SetupDevice2"] [Device].

(** A child whose devices inherit crosswise: [SetupDevice1] from the
    parent's [SetupDevice2] and the other way round. *)
Definition SetupSwapped : pyclass :=
  PyClass 303 "SetupSwapped" ["SetupSwapped"] [SetupAParent].
Definition Swapped_SetupDevice1 : pyclass :=
  PyClass 331 "SetupDevice1" ["SetupSwapped"; "SetupDevice1"] [Parent_SetupDevice2].
Definition Swapped_SetupDevice2 : pyclass :=
  PyClass 332 "SetupDevice2" ["SetupSwapped"; "SetupDevice2"] [Parent_SetupDevice1].

(** A child that renames the device it inherits. *)
Definition SetupRenamed : pyclass :=
  PyClass 304 "SetupRenamed" ["SetupRenamed"] [SetupAParent].
Definition Renamed_Other : pyclass :=
  PyClass 341 "OtherDevice" ["SetupRenamed"; "OtherDevice"] [Parent_SetupDevice1].

(** A child without devices of its own. *)
Definition SetupPlainChild : pyclass :=
  PyClass 305 "SetupPlainChild" ["SetupPlainChild"] [SetupAParent].

(** A setup that defines the connection between [DevA@p1] and [DevB@n1]
    twice. *)
Definition SetupX : pyclass := PyClass 306 "SetupX" ["SetupX"] [Setup].

Definition setup_members (c : pyclass) : list (string * pyclass) :=
  match cid c with
  | 301 | 305 => [("SetupDevice1", Parent_SetupDevice1); ("SetupDevice2", Parent_SetupDevice2)]
  | 302 => [("SetupDevice1", Child_SetupDevice1); ("SetupDevice2", Child_SetupDevice2)]
  | 303 => [("SetupDevice1", Swapped_SetupDevice1); ("SetupDevice2", Swapped_SetupDevice2)]
  | 304 => [("OtherDevice", Renamed_Other); ("SetupDevice1", Parent_SetupDevice1);
            ("SetupDevice2", Parent_SetupDevice2)]
  | 306 => [("DevA", DevA); ("DevB", DevB)]
  | _ => []
  end%positive.

(** The connection [SetupDevice1@p1 -- SetupDevice2@n1], known to both
    devices, and the two connections between [DevA@p1] and [DevB@n1]. *)
Definition cnn_1_2 : connection :=
  Cnn 11 [Serial; Ethernet] (Some Parent_SetupDevice1) (Some "p1") (Some "n1").
Definition cnn_a_b : connection := Cnn 12 [Serial] (Some DevA) (Some "p1") (Some "n1").
Definition cnn_a_b' : connection := Cnn 13 [Ethernet] (Some DevA) (Some "p1") (Some "n1").

(** [DeviceController.get_for(device).connections] *)
Definition connections (device : pyclass) : list (string * list connection) :=
  match cid device with
  | 311 => [("p1", [cnn_1_2])]
  | 312 => [("n1", [cnn_1_2])]
  | _ => []
  end%positive.

(** [DeviceController.get_for(device).absolute_connections] *)
Definition absolute_connections (device : pyclass) : list (pyclass * list connection) :=
  match cid device with
  | 311 => [(Parent_SetupDevice2, [cnn_1_2])]
  | 312 => [(Parent_SetupDevice1, [cnn_1_2])]
  | 101 => [(DevB, [cnn_a_b; cnn_a_b'])]
  | _ => []
  end%positive.

End Examples.

(* ===================================================================== *)
(** ** connection_metadata.py: the query methods *)
(* ===================================================================== *)

Module ConnectionMetadataQueries.
Import ConnectionMetadata.

(** The messages of the four [ValueError]s of [get_conn_partner_of]. *)
Inductive partner_error : Type :=
| device_no_component (device : list string)
| inner_device_connection
| node_no_component (node : pyvalue)
| node_not_of_device (node : pyvalue) (device : list string).

(** A call of [get_conn_partner_of] returns a pair or raises a
    [ValueError]. *)
Inductive partner_result : Type :=
| Partner (device node : option pyvalue)
| PartnerValueError (msg : partner_error).

(** [x in (a, b)] *)
Definition in_pair (x a b : option pyvalue) : bool := opt_eq x a || opt_eq x b.

(** [get_conn_partner_of(device, node)]; [device] is a class, as annotated
    (the messages read its [__qualname__]), [node] a value or [None]. *)
Definition get_conn_partner_of (self : t) (device : pyclass) (node : option pyvalue)
  : partner_result :=
  let dev := Some (VClass device) in
  if negb (in_pair dev (from_device self) (to_device self)) then
    PartnerValueError (device_no_component (__qualname__ device))
  else
    match node with
    | None =>
        if opt_eq (from_device self) (to_device self) then
          PartnerValueError inner_device_connection
        else if opt_eq dev (from_device self) then
          Partner (to_device self) (to_node_name self)
        else Partner (from_device self) (from_node_name self)
    | Some n =>
        if negb (in_pair node (from_node_name self) (to_node_name self)) then
          PartnerValueError (node_no_component n)
        else if opt_eq dev (from_device self) && opt_eq node (from_node_name self) then
          Partner (to_device self) (to_node_name self)
        else if opt_eq dev (to_device self) && opt_eq node (to_node_name self) then
          Partner (from_device self) (from_node_name self)
        else PartnerValueError (node_not_of_device n (__qualname__ device))
    end.

(** [has_connection_from_to(start_device, end_device)] *)
Definition has_connection_from_to (self : t) (start_device end_device : option pyvalue)
  : bool :=
  match end_device with
  | None =>
      if bidirectional self then in_pair start_device (from_device self) (to_device self)
      else opt_eq start_device (from_device self)
  | Some _ =>
      if bidirectional self then
        opt_eq start_device (from_device self) && opt_eq end_device (to_device self)
        || opt_eq start_device (to_device self) && opt_eq end_device (from_device self)
      else opt_eq start_device (from_device self) && opt_eq end_device (to_device self)
  end.

End ConnectionMetadataQueries.

(* ===================================================================== *)
(** ** feature_controller.py: the controller objects and their registry *)
(* ===================================================================== *)

Module FeatureControllerRegistry.
Import FeatureController.
Section FeatureControllerRegistry.
Context {Connection : Type} {Callable : Type}.

(** The root of the connection classes, [_balder.connection.Connection]. *)
Definition Connection_class : pyclass := PyClass 7 "Connection" ["Connection"] [object_].

(** An element of a class-based binding list: a connection object or a
    class. *)
Definition binding : Type := Connection + pyclass.

(** The attributes of a [FeatureController] object. *)
Record controller : Type := Controller {
  _related_cls : pyclass;
  _cls_for_vdevice : option (list (pyclass * list binding));
  _for_vdevice : option (list (string * @method_impl_dict Connection Callable))
}.

(** The exceptions of [__init__]: one [RuntimeError] and three
    [TypeError]s, by their messages. *)
Inductive init_error : Type :=
| RuntimeError_manual_instantiation
| TypeError_no_type
| TypeError_no_feature_subtype
| TypeError_native_type.

Inductive init_result : Type :=
| Created (self : controller)
| InitError (e : init_error).

(** [FeatureController(related_cls, _priv_instantiate_key)]; [key_matches]
    says whether the key is the private one of the class. *)
Definition __init__ (related_cls : pyvalue) (key_matches : bool) : init_result :=
  if negb key_matches then InitError RuntimeError_manual_instantiation
  else
    match related_cls with
    | VClass c =>
        if negb (issubclass c Feature) then InitError TypeError_no_feature_subtype
        else if class_eq c Feature then InitError TypeError_native_type
        else Created (Controller c None None)
    | _ => InitError TypeError_no_type
    end.

(** [FeatureController._items]: the controllers by the identity of their
    class. *)
Definition registry : Type := gmap positive controller.

(** [FeatureController._items.get(related_cls)]: only classes are keys. *)
Definition items_get (_items : registry) (related_cls : pyvalue) : option controller :=
  match related_cls with
  | VClass c => _items !! cid c
  | _ => None
  end.

(** [FeatureController.get_for(related_cls)]: the registry after the call
    and its outcome. *)
Definition get_for (_items : registry) (related_cls : pyvalue) : registry * init_result :=
  match items_get _items related_cls with
  | Some item => (_items, Created item)
  | None =>
      match __init__ related_cls true with
      | Created item =>
          match related_cls with
          | VClass c => (<[cid c := item]> _items, Created item)
          | _ => (_items, Created item)
          end
      | InitError e => (_items, InitError e)
      end
  end.

(** [set_method_based_for_vdevice] and [set_class_based_for_vdevice] on a
    controller object. *)
Definition set_method_based_for_vdevice (self : controller)
           (data : option (list (string * method_impl_dict))) : controller :=
  Controller (_related_cls self) (_cls_for_vdevice self) data.

Definition set_class_based_for_vdevice (self : controller)
           (data : option (list (pyclass * list binding))) : controller :=
  Controller (_related_cls self) data (_for_vdevice self).

(** [get_class_based_for_vdevice]; [instantiate cls] is the call [cls()]. *)
Definition get_class_based_for_vdevice (instantiate : pyclass -> Connection)
           (self : controller) : option (list (pyclass * list binding)) :=
  match _cls_for_vdevice self with
  | Some data =>
      Some (map (fun item : pyclass * list binding =>
                   (item.1,
                    map (fun cur_cnn : binding =>
                           match cur_cnn with
                           | inr cls => if issubclass cls Connection_class
                                        then inl (instantiate cls) else inr cls
                           | inl cnn => inl cnn
                           end) item.2)) data)
  | None => None
  end.

(** Every controller of the registry belongs to the class it is stored
    for, a subclass of [Feature] other than [Feature]. *)
Definition registry_ok (_items : registry) : Prop :=
  forall k item, _items !! k = Some item ->
                 cid (_related_cls item) = k
                 /\ proper_feature_parent (_related_cls item) = true.

End FeatureControllerRegistry.
End FeatureControllerRegistry.

(* ===================================================================== *)
(** ** feature_controller.py: vocabulary for the class hierarchy *)
(* ===================================================================== *)

Module FeatureHierarchy.
Import FeatureController.
Section FeatureHierarchy.
Context {Connection : Type} `{ConnectionAPI Connection}.
Context {Callable : Type}.
Variable _for_vdevice : pyclass -> option (list (string * @method_impl_dict Connection Callable)).

(** [feature_ancestor c a]: [a] is [c] or is reached from [c] through
    bases that are subclasses of [Feature]. *)
Inductive feature_ancestor : pyclass -> pyclass -> Prop :=
| feature_ancestor_self c : feature_ancestor c c
| feature_ancestor_base c b a :
    In b (__bases__ c) -> issubclass b Feature = true ->
    feature_ancestor b a -> feature_ancestor c a.

(** The implementation [m] is registered at the class [a] for the method
    [name] and the VDevice [v], with a connection one single of which is
    contained in [w] (metadata ignored). *)
Definition registered_match (a : pyclass) (name : string) (v : pyclass) (w : Connection)
           (m : Callable) : Prop :=
  exists all items impl cnns single,
    _for_vdevice a = Some all
    /\ Dict.get str_eq name all = Some items
    /\ In (m, impl) items
    /\ Dict.get class_eq v impl = Some cnns
    /\ In single (concat (map get_singles cnns))
    /\ cnn_contained_in single w true = true.

End FeatureHierarchy.
End FeatureHierarchy.

(* ===================================================================== *)
(** ** normal_scenario_setup_controller.py: check_vdevice_feature_existence *)
(* ===================================================================== *)

Module VDeviceFeatureExistence.
Import NormalScenarioSetupController.

(** The value of the property [active_vdevice_device_mapping] of a Feature
    object: a pair without an active VDevice, or a VDevice class with the
    Device class it is mapped to.  (A pair of a VDevice and [None] would lead
    into [DeviceController.get_for(None)], outside of this file.) *)
Inductive vdevice_device_mapping : Type :=
| no_active_vdevice (related_device : option pyclass)
| mapped (active_vdevice related_device : pyclass).

(** A Feature object, as far as the method reads it: its class and its
    property [active_vdevice_device_mapping]. *)
Record feature_object : Type := FeatureObject {
  __class__ : pyclass;
  active_vdevice_device_mapping : vdevice_device_mapping
}.

(** How a call of [check_vdevice_feature_existence] ends: it returns, it
    raises the [Exception] of lines 256-260 (with the names that go into the
    message), or an exception of a method it calls comes through. *)
Inductive outcome : Type :=
| Returns
| MissingImplementation (related_device active_vdevice feature : string)
| Raises (e : exception).

Section VDeviceFeatureExistence.

(** [inspect.getmembers], [_related_type], and the dictionaries
    [get_all_instantiated_feature_objects()] of the controllers of a Device
    class and of a VDevice class. *)
Variable getmembers_isclass : pyclass -> list (string * pyclass).
Variable _related_type : pyclass.
Variable device_feature_objects : pyclass -> list (string * feature_object).
Variable vdevice_feature_objects : pyclass -> list (string * feature_object).

(** A [for] loop whose body may raise. *)
Fixpoint for_all {A} (body : A -> outcome) (l : list A) : outcome :=
  match l with
  | [] => Returns
  | x :: r => match body x with
              | Returns => for_all body r
              | stopped => stopped
              end
  end.

(** Lines 248-260; [isinstance(obj, cls)] is [issubclass] on the class of
    the object. *)
Definition check_vdevice_feature (related_device active_vdevice : pyclass)
           (orig_device_features : list feature_object)
           (cur_vdevice_feature : feature_object) : outcome :=
  if existsb (fun cur_orig_feature =>
                issubclass (__class__ cur_orig_feature) (__class__ cur_vdevice_feature))
       orig_device_features
  then Returns
  else MissingImplementation (__name__ related_device) (__name__ active_vdevice)
         (__name__ (__class__ cur_vdevice_feature)).

(** Lines 235-260: the body of the loop over the Feature objects of a
    device. *)
Definition check_feature (cur_feature : feature_object) : outcome :=
  match active_vdevice_device_mapping cur_feature with
  | no_active_vdevice _ => Returns
  | mapped active_vdevice related_device =>
      let orig_device_features := map snd (device_feature_objects related_device) in
      for_all (check_vdevice_feature related_device active_vdevice orig_device_features)
        (map snd (vdevice_feature_objects active_vdevice))
  end.

Definition check_vdevice_feature_existence (related_cls : pyclass) : outcome :=
  match get_all_abs_inner_device_classes getmembers_isclass _related_type related_cls with
  | Raise e => Raises e
  | Return devices =>
      for_all (fun cur_device =>
                 for_all check_feature (map snd (device_feature_objects cur_device)))
        devices
  end.

(** Every Feature object of the VDevice has a counterpart among the
    Feature objects of the device: an instance of its class or of a
    subclass. *)
Definition implements (related_device active_vdevice : pyclass) : Prop :=
  forall name vdevice_feature,
    In (name, vdevice_feature) (vdevice_feature_objects active_vdevice) ->
    exists name' device_feature,
      In (name', device_feature) (device_feature_objects related_device)
      /\ issubclass (__class__ device_feature) (__class__ vdevice_feature) = true.

End VDeviceFeatureExistence.
End VDeviceFeatureExistence.

(* ===================================================================== *)
(** ** normal_scenario_setup_controller.py: vocabulary for the hierarchy *)
(* ===================================================================== *)

Module ScenarioSetupHierarchy.

(** [related_ancestor t c a]: [a] is [c] or is reached from [c] through
    bases that are subclasses of the related type [t]. *)
Inductive related_ancestor (_related_type : pyclass) : pyclass -> pyclass -> Prop :=
| related_ancestor_self c : related_ancestor _related_type c c
| related_ancestor_base c b a :
    In b (__bases__ c) -> issubclass b _related_type = true ->
    related_ancestor _related_type b a -> related_ancestor _related_type c a.

(** [is_scenario_or_setup b]: the test of line 144. *)
Definition is_scenario_or_setup (b : pyclass) : bool :=
  issubclass b Scenario || issubclass b Setup.

End ScenarioSetupHierarchy.

(* ===================================================================== *)
(** ** Example Feature objects *)
(* ===================================================================== *)

Module FeatureObjectExamples.
Import VDeviceFeatureExistence Examples.

(** [SetupDevice1] of [SetupAParent] holds a [FeatureLeft] object whose
    VDevice [SomeVDevice] is mapped to [SetupDevice2]; [SetupDevice2] holds
    an [IsUsedFeatureChild] object, and [SomeVDevice] asks for an
    [IsUsedFeature] object. *)
Definition device_feature_objects (device : pyclass) : list (string * feature_object) :=
  match cid device with
  | 311 => [("left", FeatureObject FeatureLeft (mapped SomeVDevice Parent_SetupDevice2))]
  | 312 => [("used", FeatureObject IsUsedFeatureChild (no_active_vdevice None))]
  | _ => []
  end%positive.

Definition vdevice_feature_objects (vdevice : pyclass) : list (string * feature_object) :=
  match cid vdevice with
  | 260 => [("used", FeatureObject IsUsedFeature (no_active_vdevice None))]
  | _ => []
  end%positive.

End FeatureObjectExamples.

(* ===================================================================== *)
(** ** executor/scenario_executor.py *)
(* ===================================================================== *)

Module ScenarioExecutor.

(** [PreviousExecutorMark]: the members the file names, and any other. *)
Inductive PreviousExecutorMark : Type :=
| SKIP
| COVERED_BY
| DISCARDED
| other_mark (tag : positive).

#[export] Instance PreviousExecutorMark_eq_dec : EqDecision PreviousExecutorMark.
Proof. solve_decision. Defined.

(** A [VariationExecutor] object is given by its identity: [==], [in] and
    [list.remove] compare objects of this class by identity. *)
Definition VariationExecutor : Type := positive.

(** [self._variation_executors] *)
Definition children : Type := list VariationExecutor.

(** How [add_variation_executor] ends: with the new child list, or with
    one of its two exceptions. *)
Inductive add_result : Type :=
| Added (_variation_executors : children)
| TypeError_no_variation_executor
| ValueError_already_exists.

(** [l.remove(x)]: the first element equal to [x] goes; [None] is the
    [ValueError] for an [x] that is not in [l]. *)
Fixpoint list_remove (x : VariationExecutor) (l : children) : option children :=
  match l with
  | [] => None
  | y :: r => if bool_decide (x = y) then Some r
              else r' ← list_remove x r; Some (y :: r')
  end.

Section ScenarioExecutor.

(** What the methods read from a child: [prev_mark], the list that
    [get_testcase_executors()] returns (by the identities of its elements)
    and [base_device_mapping], a dictionary from Device classes to Device
    classes (by their identities). *)
Variable prev_mark : VariationExecutor -> PreviousExecutorMark.
Variable get_testcase_executors : VariationExecutor -> list positive.
Variable base_device_mapping : VariationExecutor -> gmap positive positive.

(** [get_variation_executors(return_discarded)] *)
Definition get_variation_executors (_variation_executors : children) (return_discarded : bool)
  : children :=
  if negb return_discarded then
    List.filter (fun cur_executor => negb (bool_decide (prev_mark cur_executor = DISCARDED)))
      _variation_executors
  else _variation_executors.

(** [cleanup_empty_executor_branches(consider_discarded)]: the child list
    after the call, or [None] for the [ValueError] of [list.remove]. *)
Definition cleanup_empty_executor_branches (_variation_executors : children)
           (consider_discarded : bool) : option children :=
  let to_remove_executor :=
    List.filter (fun cur_variation_executor =>
                   bool_decide (length (get_testcase_executors cur_variation_executor) = 0))
      (get_variation_executors _variation_executors consider_discarded) in
  fold_left (fun l cur_variation_executor => l ← l; list_remove cur_variation_executor l)
    to_remove_executor (Some _variation_executors).

(** [add_variation_executor(variation_executor)]; the argument is a
    [VariationExecutor] or some other value. *)
Definition add_variation_executor (_variation_executors : children)
           (variation_executor : VariationExecutor + pyvalue) : add_result :=
  match variation_executor with
  | inr _ => TypeError_no_variation_executor
  | inl variation_executor =>
      if bool_decide (variation_executor ∈ _variation_executors)
      then ValueError_already_exists
      else Added (_variation_executors ++ [variation_executor])%list
  end.

(** [get_executor_for_device_mapping(device_mapping)] *)
Definition get_executor_for_device_mapping (_variation_executors : children)
           (device_mapping : gmap positive positive) : option VariationExecutor :=
  List.find (fun cur_variation_executor =>
               bool_decide (base_device_mapping cur_variation_executor = device_mapping))
    _variation_executors.

End ScenarioExecutor.

(** The local function [determine_most_inherited_class] of
    [get_covered_by_dict]. *)
Definition determine_most_inherited_class (class_list : list pyclass) : option pyclass :=
  List.find (fun cur_candidate =>
               forallb (fun cur_other_candidate => issubclass cur_candidate cur_other_candidate)
                 class_list)
    class_list.

(** Whether [cleanup_empty_executor_branches] looks at a child. *)
Definition considered (prev_mark : VariationExecutor -> PreviousExecutorMark)
           (consider_discarded : bool) (e : VariationExecutor) : bool :=
  consider_discarded || negb (bool_decide (prev_mark e = DISCARDED)).

End ScenarioExecutor.

(* ===================================================================== *)
(** ** Properties of connection_metadata.py *)
(* ===================================================================== *)

Module ConnectionMetadataFacts.
Import ConnectionMetadata Examples.

Lemma class_eq_refl c : class_eq c c = true.
Proof. unfold class_eq. by apply bool_decide_eq_true. Qed.

Lemma class_eq_sym c d : class_eq c d = class_eq d c.
Proof. unfold class_eq. apply bool_decide_ext. split; congruence. Qed.

Lemma class_eq_trans c d e : class_eq c d = true -> class_eq d e = true -> class_eq c e = true.
Proof. unfold class_eq. rewrite !bool_decide_eq_true. congruence. Qed.

Lemma value_eq_refl v : value_eq v v = true.
Proof. destruct v; simpl; [apply class_eq_refl | |]; by apply bool_decide_eq_true. Qed.

Lemma value_eq_sym v w : value_eq v w = value_eq w v.
Proof.
  destruct v, w; simpl; try reflexivity;
    [apply class_eq_sym | |]; apply bool_decide_ext; split; congruence.
Qed.

Lemma value_eq_trans u v w : value_eq u v = true -> value_eq v w = true -> value_eq u w = true.
Proof.
  destruct u, v, w; simpl; try discriminate; [apply class_eq_trans | |];
    rewrite !bool_decide_eq_true; congruence.
Qed.

Lemma opt_eq_refl v : opt_eq v v = true.
Proof. destruct v; simpl; [apply value_eq_refl | reflexivity]. Qed.

Lemma opt_eq_sym v w : opt_eq v w = opt_eq w v.
Proof. destruct v, w; simpl; try reflexivity. apply value_eq_sym. Qed.

Lemma opt_eq_trans u v w : opt_eq u v = true -> opt_eq v w = true -> opt_eq u w = true.
Proof. destruct u, v, w; simpl; try discriminate; [apply value_eq_trans | reflexivity]. Qed.

Create HintDb cmp.
#[local] Hint Resolve opt_eq_refl opt_eq_trans : cmp.

(** [check_same] and [check_twisted] read as "same endpoints" and "swapped
    endpoints"; they compose like the two elements of a group of order 2. *)

Lemma check_same_refl a : check_same a a = true.
Proof. unfold check_same. by rewrite !opt_eq_refl. Qed.

Ltac split_checks :=
  unfold check_same, check_twisted, from_device, to_device, from_node_name, to_node_name in *;
  repeat match goal with
         | H : _ && _ = true |- _ => apply andb_true_iff in H; destruct H
         end;
  repeat (apply andb_true_iff; split).

Lemma same_same a b c :
  check_same a b = true -> check_same b c = true -> check_same a c = true.
Proof. intros; split_checks; eauto with cmp. Qed.

Lemma same_twisted a b c :
  check_same a b = true -> check_twisted b c = true -> check_twisted a c = true.
Proof. intros; split_checks; eauto with cmp. Qed.

Lemma twisted_same a b c :
  check_twisted a b = true -> check_same b c = true -> check_twisted a c = true.
Proof. intros; split_checks; eauto with cmp. Qed.

Lemma twisted_twisted a b c :
  check_twisted a b = true -> check_twisted b c = true -> check_same a c = true.
Proof. intros; split_checks; eauto with cmp. Qed.

Lemma check_same_link X p Y q b b' :
  check_same (link X p Y q b) (link X p Y q b') = true.
Proof. unfold check_same; simpl. by rewrite !value_eq_refl. Qed.

Lemma check_twisted_link X p Y q b b' :
  check_twisted (link X p Y q b) (link Y q X p b') = true.
Proof. unfold check_twisted; simpl. by rewrite !value_eq_refl. Qed.

(** What [contained_in] and [equal_with] compute, by directionality. *)
Lemma contained_in_spec a b :
  contained_in a b
  = check_same a b || (bidirectional a || bidirectional b) && check_twisted a b.
Proof.
  unfold contained_in, __compare_with.
  destruct (bidirectional a), (bidirectional b); simpl;
    destruct (check_same a b), (check_twisted a b); reflexivity.
Qed.

Lemma equal_with_spec a b :
  equal_with a b
  = eqb (bidirectional a) (bidirectional b)
    && (check_same a b || bidirectional a && check_twisted a b).
Proof.
  unfold equal_with, __compare_with.
  destruct (bidirectional a), (bidirectional b); simpl;
    destruct (check_same a b), (check_twisted a b); reflexivity.
Qed.

(** C2, as the code has it.  For all endpoints [X@p], [Y@q]: the
    bidirectional metadata [(X@p, Y@q)] is [equal_with] the bidirectional
    [(Y@q, X@p)]; it is not [equal_with] the unidirectional [(X@p, Y@q)], in
    either order of the comparison; and [contained_in] between the
    unidirectional and the bidirectional version holds in both directions:
    [__compare_with] treats "one is unidirectional, the other bidirectional"
    symmetrically. *)
Theorem reversal_law_contained_both_ways (X p Y q : pyvalue) :
  equal_with (link X p Y q true) (link Y q X p true) = true
  /\ equal_with (link X p Y q true) (link X p Y q false) = false
  /\ equal_with (link X p Y q false) (link X p Y q true) = false
  /\ contained_in (link X p Y q false) (link X p Y q true) = true
  /\ contained_in (link X p Y q true) (link X p Y q false) = true.
Proof.
  split; [| split; [| split; [| split]]].
  - rewrite equal_with_spec, check_twisted_link. simpl. apply orb_true_r.
  - rewrite equal_with_spec. reflexivity.
  - rewrite equal_with_spec. reflexivity.
  - rewrite contained_in_spec, check_same_link. reflexivity.
  - rewrite contained_in_spec, check_same_link. reflexivity.
Qed.

(** C2 as the specification states it fails at [(DevA@p1, DevB@n1)]: the
    bidirectional metadata is contained in the unidirectional one as well. *)
Lemma one_way_containment_fails :
  ~ (equal_with (link A p1 B n1 true) (link B n1 A p1 true) = true
     /\ equal_with (link A p1 B n1 true) (link A p1 B n1 false) = false
     /\ contained_in (link A p1 B n1 false) (link A p1 B n1 true) = true
     /\ contained_in (link A p1 B n1 true) (link A p1 B n1 false) = false).
Proof. intros (_ & _ & _ & Hback). vm_compute in Hback. discriminate. Qed.

(** C6, as the code has it.  [contained_in] composes, [a] in [b] and [b] in
    [c] give [a] in [c], whenever [a] or [c] is bidirectional or [b] is
    unidirectional; this covers three metadata of one directionality. *)
Theorem contained_in_transitive_guarded (a b c : t) :
  bidirectional a = true \/ bidirectional c = true \/ bidirectional b = false ->
  contained_in a b = true -> contained_in b c = true -> contained_in a c = true.
Proof.
  rewrite !contained_in_spec. intros Hdir Hab Hbc.
  apply orb_true_iff in Hab. apply orb_true_iff in Hbc. apply orb_true_iff.
  destruct Hab as [Sab | Tab], Hbc as [Sbc | Tbc].
  - left. eauto using same_same.
  - apply andb_true_iff in Tbc as [Dbc Tbc]. right.
    rewrite (same_twisted a b c Sab Tbc), andb_true_r.
    destruct (bidirectional a), (bidirectional b), (bidirectional c);
      simpl in *; try reflexivity; try discriminate;
      destruct Hdir as [Hd | [Hd | Hd]]; discriminate.
  - apply andb_true_iff in Tab as [Dab Tab]. right.
    rewrite (twisted_same a b c Tab Sbc), andb_true_r.
    destruct (bidirectional a), (bidirectional b), (bidirectional c);
      simpl in *; try reflexivity; try discriminate;
      destruct Hdir as [Hd | [Hd | Hd]]; discriminate.
  - apply andb_true_iff in Tab as [_ Tab]. apply andb_true_iff in Tbc as [_ Tbc].
    left. eauto using twisted_twisted.
Qed.

Lemma contained_in_transitive_guarded_witness :
  contained_in (link A p1 B n1 false) (link B n1 A p1 true) = true.
Proof.
  apply (contained_in_transitive_guarded
           (link A p1 B n1 false) (link A p1 B n1 true) (link B n1 A p1 true)).
  - right; left; reflexivity.
  - vm_compute; reflexivity.
  - vm_compute; reflexivity.
Defined.

(** C6 as stated fails: a unidirectional [DevA@p1 -> DevB@n1] is contained
    in the bidirectional link, which is contained in the unidirectional
    [DevB@n1 -> DevA@p1], but the first is not contained in the last. *)
Lemma contained_in_not_transitive :
  ~ (forall a b c : t,
        contained_in a b = true -> contained_in b c = true -> contained_in a c = true).
Proof.
  intros Htrans.
  specialize (Htrans (link A p1 B n1 false) (link A p1 B n1 true) (link B n1 A p1 false)
                eq_refl eq_refl).
  vm_compute in Htrans. discriminate.
Qed.

(** *** The all-or-none invariant *)

Lemma set_from_returns self d n self' :
  set_from self d n = (self', Return tt) ->
  self' = Build d n (_to_device self) (_to_device_node_name self) (_bidirectional self).
Proof.
  unfold set_from. destruct (illegal_device d); [intros [=] |].
  destruct (illegal_node n); intros [=]; subst. reflexivity.
Qed.

Lemma set_to_returns self d n self' :
  set_to self d n = (self', Return tt) ->
  self' = Build (_from_device self) (_from_device_node_name self) d n (_bidirectional self).
Proof.
  unfold set_to. destruct (illegal_device d); [intros [=] |].
  destruct (illegal_node n); intros [=]; subst. reflexivity.
Qed.

Lemma init_returns fd td fn tn b self :
  __init__ fd td fn tn b = Return self ->
  self = Build fd fn td tn b
  /\ ((fd = None /\ fn = None /\ td = None /\ tn = None)
      \/ (is_Some fd /\ is_Some fn /\ is_Some td /\ is_Some tn)).
Proof.
  unfold __init__.
  destruct (set_from _ fd fn) as [s1 r1] eqn:E1.
  destruct r1 as [[]|]; simpl; [| discriminate].
  apply set_from_returns in E1. subst s1.
  destruct (set_to _ td tn) as [s2 r2] eqn:E2.
  destruct r2 as [[]|]; simpl; [| discriminate].
  apply set_to_returns in E2. subst s2. simpl.
  destruct fd, td, fn, tn; simpl; intros [=]; subst; split; try reflexivity;
    first [ left; done | right; repeat split; eexists; reflexivity ].
Qed.

(** The constructor runs the four type checks of [set_from] and [set_to] in
    their order and the all-or-none check last. *)
Lemma init_cases fd td fn tn b :
  __init__ fd td fn tn b =
  if illegal_device fd then
    Raise (Exception TypeError (msg_illegal_device "from_device" (the fd)))
  else if illegal_node fn then
    Raise (Exception TypeError (msg_illegal_node "from_device_node_name" (the fn)))
  else if illegal_device td then
    Raise (Exception TypeError (msg_illegal_device "to_device" (the td)))
  else if illegal_node tn then
    Raise (Exception TypeError (msg_illegal_node "to_device_node_name" (the tn)))
  else if is_none fd && is_none td && is_none fn && is_none tn
          || negb (is_none fd) && negb (is_none td) && negb (is_none fn) && negb (is_none tn)
  then Return (Build fd fn td tn b)
  else Raise (Exception ValueError msg_all_or_none).
Proof.
  unfold __init__, set_from, set_to.
  destruct (illegal_device fd); [reflexivity |].
  destruct (illegal_node fn); [reflexivity |]. simpl.
  destruct (illegal_device td); [reflexivity |].
  destruct (illegal_node tn); [reflexivity |]. simpl.
  destruct fd, td, fn, tn; reflexivity.
Qed.

Lemma all_or_none_dec fd td fn tn b :
  all_or_none (Build fd fn td tn b) <->
  is_none fd && is_none td && is_none fn && is_none tn
  || negb (is_none fd) && negb (is_none td) && negb (is_none fn) && negb (is_none tn) = true.
Proof.
  unfold all_or_none. simpl. split.
  - intros [(-> & -> & -> & ->) | ([? ->] & [? ->] & [? ->] & [? ->])]; reflexivity.
  - destruct fd, td, fn, tn; simpl; try discriminate; intros _;
      first [ left; done | right; repeat split; eexists; reflexivity ].
Qed.

(** C9, as the code has it.  (1) A constructor call that returns yields an
    object whose four identity fields are the arguments and are all present
    or all absent.  (2), (3) [set_from] and [set_to] assign their two fields
    and leave the other two as they are, without checking them against each
    other: after a call that returns, the invariant holds exactly when the
    two new values and the two untouched fields are all present or all
    absent.  (4) What the constructor does with every input: with arguments
    that pass the four type checks of [set_from] and [set_to] it returns
    when the four are all present or all absent and raises [ValueError]
    otherwise; (5) with an argument that fails a type check it raises the
    [TypeError] of the first failing check, in the order [from_device],
    [from_device_node_name], [to_device], [to_device_node_name], before the
    all-or-none check is reached. *)
Theorem all_or_none_after_init_not_after_setters :
  (forall fd td fn tn b self,
      __init__ fd td fn tn b = Return self ->
      self = Build fd fn td tn b /\ all_or_none self)
  /\ (forall self d n self',
        set_from self d n = (self', Return tt) ->
        self' = Build d n (_to_device self) (_to_device_node_name self) (_bidirectional self)
        /\ (all_or_none self' <->
            (d = None /\ n = None /\ _to_device self = None /\ _to_device_node_name self = None)
            \/ (is_Some d /\ is_Some n
                /\ is_Some (_to_device self) /\ is_Some (_to_device_node_name self))))
  /\ (forall self d n self',
        set_to self d n = (self', Return tt) ->
        self' = Build (_from_device self) (_from_device_node_name self) d n (_bidirectional self)
        /\ (all_or_none self' <->
            (_from_device self = None /\ _from_device_node_name self = None
             /\ d = None /\ n = None)
            \/ (is_Some (_from_device self) /\ is_Some (_from_device_node_name self)
                /\ is_Some d /\ is_Some n)))
  /\ (forall fd td fn tn b,
        illegal_device fd = false -> illegal_node fn = false ->
        illegal_device td = false -> illegal_node tn = false ->
        (all_or_none (Build fd fn td tn b) ->
         __init__ fd td fn tn b = Return (Build fd fn td tn b))
        /\ (~ all_or_none (Build fd fn td tn b) ->
            __init__ fd td fn tn b = Raise (Exception ValueError msg_all_or_none)))
  /\ (forall fd td fn tn b,
        (illegal_device fd = true ->
         __init__ fd td fn tn b
         = Raise (Exception TypeError (msg_illegal_device "from_device" (the fd))))
        /\ (illegal_device fd = false -> illegal_node fn = true ->
            __init__ fd td fn tn b
            = Raise (Exception TypeError (msg_illegal_node "from_device_node_name" (the fn))))
        /\ (illegal_device fd = false -> illegal_node fn = false ->
            illegal_device td = true ->
            __init__ fd td fn tn b
            = Raise (Exception TypeError (msg_illegal_device "to_device" (the td))))
        /\ (illegal_device fd = false -> illegal_node fn = false ->
            illegal_device td = false -> illegal_node tn = true ->
            __init__ fd td fn tn b
            = Raise (Exception TypeError (msg_illegal_node "to_device_node_name" (the tn))))).
Proof.
  split; [| split; [| split; [| split]]].
  - intros fd td fn tn b self Hinit.
    apply init_returns in Hinit as [-> Hall]. split; [reflexivity | exact Hall].
  - intros self d n self' Hset. apply set_from_returns in Hset as ->.
    split; [reflexivity | reflexivity].
  - intros self d n self' Hset. apply set_to_returns in Hset as ->.
    split; [reflexivity | reflexivity].
  - intros fd td fn tn b Hfd Hfn Htd Htn. rewrite init_cases, Hfd, Hfn, Htd, Htn.
    split; intros Hall.
    + apply all_or_none_dec in Hall. by rewrite Hall.
    + destruct (_ || _) eqn:Hdec; [| reflexivity].
      exfalso. apply Hall. by apply all_or_none_dec.
  - intros fd td fn tn b. rewrite init_cases.
    split; [| split; [| split]].
    + by intros ->.
    + by intros -> ->.
    + by intros -> -> ->.
    + by intros -> -> -> ->.
Qed.

Lemma all_or_none_after_init_not_after_setters_witness :
  all_or_none (Build (Some A) (Some p1) (Some B) (Some n1) true)
  /\ ~ all_or_none (Build (Some A) (Some p1) None None true)
  /\ __init__ (Some A) (Some B) (Some p1) (Some n1) true
     = Return (Build (Some A) (Some p1) (Some B) (Some n1) true)
  /\ __init__ (Some A) None (Some p1) None true = Raise (Exception ValueError msg_all_or_none)
  /\ __init__ (Some (VClass Setup)) None None None true
     = Raise (Exception TypeError (msg_illegal_device "from_device" (VClass Setup)))
  /\ __init__ (Some A) (Some B) (Some p1) (Some (VClass Device)) true
     = Raise (Exception TypeError (msg_illegal_node "to_device_node_name" (VClass Device))).
Proof.
  destruct all_or_none_after_init_not_after_setters as (Hinit & _ & Hto & Htyped & Huntyped).
  split; [| split; [| split; [| split; [| split]]]].
  - apply (Hinit (Some A) (Some B) (Some p1) (Some n1) true). vm_compute. reflexivity.
  - destruct (Hto (Build (Some A) (Some p1) (Some B) (Some n1) true) None None
                  (Build (Some A) (Some p1) None None true)) as [_ Hiff].
    + vm_compute. reflexivity.
    + rewrite Hiff. simpl. intros [(? & _) | (_ & _ & [? ?] & _)]; discriminate.
  - apply (Htyped (Some A) (Some B) (Some p1) (Some n1) true); try reflexivity.
    right. simpl. repeat split; eexists; reflexivity.
  - apply (Htyped (Some A) None (Some p1) None true); try reflexivity.
    simpl. intros [(? & _) | (_ & _ & [? ?] & _)]; discriminate.
  - apply (Huntyped (Some (VClass Setup)) None None None true). reflexivity.
  - apply (Huntyped (Some A) (Some B) (Some p1) (Some (VClass Device)) true); reflexivity.
Defined.

(** C9 as stated fails: the object built by
    [ConnectionMetadata(DevA, DevB, "p1", "n1")] satisfies the invariant, and
    [set_from(None)] on it returns and leaves a FROM side that is absent
    next to a TO side that is present. *)
Lemma set_from_breaks_all_or_none :
  exists self self',
    __init__ (Some A) (Some B) (Some p1) (Some n1) true = Return self
    /\ set_from self None None = (self', Return tt)
    /\ ~ all_or_none self'.
Proof.
  exists (Build (Some A) (Some p1) (Some B) (Some n1) true),
         (Build None None (Some B) (Some n1) true).
  split; [vm_compute; reflexivity |]. split; [vm_compute; reflexivity |].
  intros [(_ & _ & ? & _) | ([? ?] & _)]; discriminate.
Qed.

End ConnectionMetadataFacts.

(* ===================================================================== *)
(** ** Properties of feature_controller.py *)
(* ===================================================================== *)

Module FeatureControllerFacts.
Import FeatureController Examples.

Section Facts.
Context {Connection : Type} `{ConnectionAPI Connection}.
Context {Callable : Type} `{EqDecision Callable}.
Variable getmembers_isclass : pyclass -> list (string * pyclass).
Variable _for_vdevice : pyclass -> option (list (string * @method_impl_dict Connection Callable)).
Variable get_all_instantiated_feature_objects : pyclass -> list (string * pyclass).

#[local] Abbreviation get_abs := (get_abs_inner_vdevice_classes getmembers_isclass).
#[local] Abbreviation get_inner := (get_inner_vdevice_classes getmembers_isclass).
#[local] Abbreviation local_vdevices := (local_vdevice_classes getmembers_isclass).
#[local] Abbreviation validate :=
  (validate_inner_vdevice_inheritance getmembers_isclass get_all_instantiated_feature_objects).

(** The equation of [get_abs_inner_vdevice_classes], as the source has it. *)
Lemma get_abs_unfold c :
  get_abs c =
  (filtered_classes <- get_inner c ;;
   if bool_decide (length filtered_classes = 0) then
     search_in_parent get_abs (__bases__ c) filtered_classes
   else Return filtered_classes).
Proof. destruct c; reflexivity. Qed.

Lemma get_inner_unfold c :
  get_inner c =
  (filtered_classes <- local_vdevices c ;;
   if bool_decide (length filtered_classes = 0) then
     search_in_parent get_abs (__bases__ c) filtered_classes
   else Return filtered_classes).
Proof. reflexivity. Qed.

Lemma not_subclass_not_eq b d : issubclass b d = false -> class_eq b d = false.
Proof.
  destruct b as [i n q bs]; simpl. intros Hsub.
  apply orb_false_iff in Hsub as [Hne _]. exact Hne.
Qed.

Lemma search_in_parent_skips rec (mixins : list pyclass) parent (others : list pyclass) filtered :
  Forall (fun b => issubclass b Feature = false) mixins ->
  proper_feature_parent parent = true ->
  search_in_parent rec (mixins ++ parent :: others)%list filtered = rec parent.
Proof.
  intros Hmix Hpar. induction Hmix as [| b mixins Hb _ IH]; simpl.
  - unfold proper_feature_parent in Hpar. apply andb_true_iff in Hpar as [Hsub Hne].
    apply negb_true_iff in Hne. by rewrite Hne, Hsub.
  - by rewrite (not_subclass_not_eq _ _ Hb), Hb.
Qed.

(** C10.  [get_inner_vdevice_classes] and [get_abs_inner_vdevice_classes]
    are the same function: they return the same list or raise the same
    exception for every class.  In particular, for a class that declares no
    VDevice in its body, [get_inner_vdevice_classes] returns what
    [get_abs_inner_vdevice_classes] returns for its nearest Feature parent,
    the first class in [__bases__] that is a subclass of [Feature], and not
    the empty list its docstring announces. *)
Theorem get_inner_vdevice_classes_is_absolute (c : pyclass) :
  get_inner c = get_abs c
  /\ forall (mixins : list pyclass) (parent : pyclass) (others : list pyclass),
      local_vdevices c = Return [] ->
      __bases__ c = (mixins ++ parent :: others)%list ->
      Forall (fun b => issubclass b Feature = false) mixins ->
      proper_feature_parent parent = true ->
      get_inner c = get_abs parent.
Proof.
  split.
  - rewrite get_abs_unfold, get_inner_unfold.
    destruct (local_vdevices c) as [[| v l] | e]; simpl; try reflexivity.
    destruct (search_in_parent get_abs (__bases__ c) []) as [[| v l] | e] eqn:E;
      simpl; [exact (eq_sym E) | reflexivity | reflexivity].
  - intros mixins parent others Hloc Hbases Hmix Hpar.
    rewrite get_inner_unfold, Hloc, Hbases. simpl.
    by apply search_in_parent_skips.
Qed.

(** *** validate_inner_vdevice_inheritance *)

#[local] Abbreviation check_features := check_vdevice_features.
#[local] Abbreviation check_vdevice :=
  (check_parent_vdevice get_all_instantiated_feature_objects).
#[local] Abbreviation compatible := (features_compatible get_all_instantiated_feature_objects).

(** The equation of [validate_inner_vdevice_inheritance], as the source
    has it. *)
Lemma validate_unfold c :
  validate c =
  (all_direct <- get_inner c ;;
   if negb (bool_decide (length all_direct = 0)) then
     parent <- next_feature_parent validate c (__bases__ c) None ;;
     match parent with
     | Some (next_parent, parent_validation) =>
         parent_validation ;;;
         parent_vdevices <- get_abs next_parent ;;
         for_each (check_vdevice c all_direct) parent_vdevices
     | None => Return tt
     end
   else Return tt).
Proof. destruct c; reflexivity. Qed.

Lemma next_feature_parent_spec {A} (rec : pyclass -> A) c bases found :
  next_feature_parent rec c bases found =
  match found, List.filter proper_feature_parent bases with
  | None, [] => Return None
  | None, [p] => Return (Some (p, rec p))
  | Some f, [] => Return (Some f)
  | _, _ => Raise (Exception MultiInheritanceError (msg_feature_multi_parent (__name__ c)))
  end.
Proof.
  revert found. induction bases as [| b bases IH]; intros found; simpl.
  - destruct found; reflexivity.
  - fold (proper_feature_parent b). destruct (proper_feature_parent b).
    + destruct found as [f |].
      * destruct (List.filter proper_feature_parent bases) as [| ? [| ? ?]]; reflexivity.
      * rewrite IH. destruct (List.filter proper_feature_parent bases); reflexivity.
    + apply IH.
Qed.

Lemma for_each_returns {A} (body : A -> result unit) l :
  for_each body l = Return tt <-> Forall (fun x => body x = Return tt) l.
Proof.
  induction l as [| x l IH]; simpl.
  - split; [constructor | reflexivity].
  - rewrite Forall_cons, <- IH. destruct (body x) as [[] | e]; simpl; [tauto |].
    split; [discriminate | intros [? _]; discriminate].
Qed.

Lemma for_each_first_raise {A} (body : A -> result unit) (passed : list A) x rest e :
  Forall (fun y => body y = Return tt) passed -> body x = Raise e ->
  for_each body (passed ++ x :: rest)%list = Raise e.
Proof.
  intros Hpassed Hx. induction Hpassed as [| y passed Hy _ IH]; simpl.
  - by rewrite Hx.
  - by rewrite Hy.
Qed.

Lemma check_features_returns v pv feats base :
  check_features v pv feats base = Return tt <->
  forall prop base_class, In (prop, base_class) base ->
    exists cls, Dict.get str_eq prop feats = Some cls /\ isinstance cls base_class = true.
Proof.
  induction base as [| [prop base_class] base IH]; simpl.
  - split; [intros _ ? ? [] | reflexivity].
  - destruct (Dict.get str_eq prop feats) as [cls |] eqn:Hget.
    + destruct (isinstance cls base_class) eqn:Hinst; simpl.
      * rewrite IH. split.
        -- intros Hrest prop' bc' [[= <- <-] | Hin]; eauto.
        -- intros Hall prop' bc' Hin. apply Hall. by right.
      * split; [discriminate |]. intros Hall.
        destruct (Hall prop base_class) as (cls' & Hcls & Hinst'); [by left |].
        congruence.
    + split; [discriminate |]. intros Hall.
      destruct (Hall prop base_class) as (cls' & Hcls & _); [by left |]. congruence.
Qed.

Lemma check_features_raises v pv feats base :
  check_features v pv feats base <> Return tt ->
  exists e, check_features v pv feats base = Raise e
            /\ (exc_type e = VDeviceResolvingError \/ exc_type e = FeatureOverwritingError).
Proof.
  induction base as [| [prop base_class] base IH]; simpl; [congruence |].
  destruct (Dict.get str_eq prop feats) as [cls |]; [| eauto].
  destruct (isinstance cls base_class); simpl; eauto.
Qed.

Lemma check_vdevice_returns c locals pv :
  check_vdevice c locals pv = Return tt <->
  exists v, find_by_name (__name__ pv) locals = Some v
            /\ issubclass v pv = true /\ compatible v pv.
Proof.
  unfold check_parent_vdevice, features_compatible.
  destruct (find_by_name (__name__ pv) locals) as [v |].
  - destruct (issubclass v pv) eqn:Hsub; simpl.
    + rewrite check_features_returns. split; [eauto |].
      intros (v' & [= <-] & _ & Hcompat). exact Hcompat.
    + split; [discriminate |]. intros (v' & [= <-] & ? & _). congruence.
  - split; [discriminate |]. intros (v' & ? & _). discriminate.
Qed.

Lemma find_by_name_some name locals v :
  find_by_name name locals = Some v -> In v locals /\ __name__ v = name.
Proof.
  unfold find_by_name. intros Hfind. apply find_some in Hfind as [Hin Hname].
  split; [exact Hin |]. unfold str_eq in Hname. by apply bool_decide_eq_true in Hname.
Qed.

Lemma find_by_name_unique name locals v v' :
  NoDup (map __name__ locals) ->
  find_by_name name locals = Some v -> In v' locals -> __name__ v' = name -> v' = v.
Proof.
  unfold find_by_name, str_eq. induction locals as [| x locals IH]; simpl; [done |].
  intros Hnodup Hfind Hin Hname. apply NoDup_cons in Hnodup as [Hx Hnodup].
  destruct (bool_decide (__name__ x = name)) eqn:Hdec.
  - injection Hfind as ->. destruct Hin as [-> | Hin]; [reflexivity |].
    apply bool_decide_eq_true in Hdec. exfalso. apply Hx.
    rewrite Hdec, <- Hname. apply list_elem_of_In, in_map, Hin.
  - destruct Hin as [-> | Hin]; [| by apply IH].
    apply bool_decide_eq_false in Hdec. contradiction.
Qed.


Lemma length_nonzero {A} (l : list A) : l <> [] -> bool_decide (length l = 0) = false.
Proof. destruct l; [contradiction | reflexivity]. Qed.

Lemma get_inner_of_locals c locals :
  local_vdevices c = Return locals -> locals <> [] -> get_inner c = Return locals.
Proof.
  intros Hloc Hne. rewrite get_inner_unfold, Hloc. simpl.
  by rewrite (length_nonzero _ Hne).
Qed.

(** [validate_inner_vdevice_inheritance] for a class with VDevices of its
    own, one Feature parent, a valid parent chain: the loop of lines
    327-370. *)
Lemma validate_with_parent c parent locals parent_vdevices :
  local_vdevices c = Return locals -> locals <> [] ->
  List.filter proper_feature_parent (__bases__ c) = [parent] ->
  validate parent = Return tt ->
  get_abs parent = Return parent_vdevices ->
  validate c = for_each (check_vdevice c locals) parent_vdevices.
Proof.
  intros Hloc Hne Hparent Hvalid Habs.
  rewrite validate_unfold, (get_inner_of_locals _ _ Hloc Hne). simpl.
  rewrite (length_nonzero _ Hne). simpl.
  rewrite next_feature_parent_spec, Hparent. simpl.
  rewrite Hvalid, Habs. reflexivity.
Qed.

(** C4.  Let [c] be a Feature class that declares the VDevices [locals]
    (at least one) and has the Feature parent [parent].

    (1) [validate_inner_vdevice_inheritance] returns only if the parent's
    absolute VDevices are all overridden: for each of them [c] declares a
    VDevice of the same name that is a subclass of it and carries, for
    every Feature property of the parent VDevice, a property of the same
    name with an instance of the same or a sub-class; where the local names
    are pairwise different, every same-named local VDevice is that subclass.

    (2) With [parent] the only Feature parent and valid itself, the first
    parent VDevice that is not overridden correctly decides the exception:
    [VDeviceOverwritingError] "missing overwriting" when no local VDevice
    has its name, [VDeviceOverwritingError] "should also inherit" when the
    same-named one is no subclass, [VDeviceResolvingError] or
    [FeatureOverwritingError] when a Feature property is missing or of an
    unrelated class.

    (3) These exceptions differ pairwise: the first two in the message, the
    third in the class. *)
Theorem validate_inner_vdevice_inheritance_enforces_overriding
        (c parent : pyclass) (locals : list pyclass) :
  local_vdevices c = Return locals -> locals <> [] ->
  In parent (__bases__ c) -> proper_feature_parent parent = true ->
  (validate c = Return tt ->
   exists parent_vdevices,
     get_abs parent = Return parent_vdevices
     /\ forall pv, In pv parent_vdevices ->
         exists v, In v locals /\ __name__ v = __name__ pv
                   /\ issubclass v pv = true /\ compatible v pv
                   /\ (NoDup (map __name__ locals) ->
                       forall v', In v' locals -> __name__ v' = __name__ pv ->
                                  issubclass v' pv = true))
  /\ (forall (passed : list pyclass) (pv : pyclass) (rest : list pyclass),
        List.filter proper_feature_parent (__bases__ c) = [parent] ->
        validate parent = Return tt ->
        get_abs parent = Return (passed ++ pv :: rest)%list ->
        Forall (fun pv' => check_vdevice c locals pv' = Return tt) passed ->
        match find_by_name (__name__ pv) locals with
        | None =>
            validate c = Raise (Exception VDeviceOverwritingError
                                  (msg_missing_overwriting (__qualname__ pv) (__name__ c)))
        | Some v =>
            if issubclass v pv then
              ~ compatible v pv ->
              exists e, validate c = Raise e
                        /\ (exc_type e = VDeviceResolvingError
                            \/ exc_type e = FeatureOverwritingError)
            else
              validate c = Raise (Exception VDeviceOverwritingError
                                    (msg_vdevice_should_inherit (__qualname__ v)
                                       (__qualname__ pv)))
        end)
  /\ (forall q f q1 q2 e,
        Exception VDeviceOverwritingError (msg_missing_overwriting q f)
        <> Exception VDeviceOverwritingError (msg_vdevice_should_inherit q1 q2)
        /\ (exc_type e = VDeviceResolvingError \/ exc_type e = FeatureOverwritingError ->
            exc_type e <> VDeviceOverwritingError)).
Proof.
  intros Hloc Hne Hin Hproper. split; [| split].
  - rewrite validate_unfold, (get_inner_of_locals _ _ Hloc Hne). simpl.
    rewrite (length_nonzero _ Hne). simpl.
    rewrite next_feature_parent_spec.
    assert (Hfilter : In parent (List.filter proper_feature_parent (__bases__ c)))
      by (apply filter_In; auto).
    destruct (List.filter proper_feature_parent (__bases__ c)) as [| p [| p' ps]];
      simpl; [destruct Hfilter | | discriminate].
    destruct Hfilter as [-> | []].
    destruct (validate parent) as [[] | e]; simpl; [| discriminate].
    destruct (get_abs parent) as [parent_vdevices | e]; simpl; [| discriminate].
    intros Hloop. exists parent_vdevices. split; [reflexivity |].
    apply for_each_returns in Hloop. rewrite Forall_forall in Hloop.
    intros pv Hpv. apply list_elem_of_In, Hloop, check_vdevice_returns in Hpv.
    destruct Hpv as (v & Hfind & Hsub & Hcompat).
    destruct (find_by_name_some _ _ _ Hfind) as [Hv Hname].
    exists v. split; [| split; [| split; [| split]]]; try assumption.
    intros Hnodup v' Hv' Hname'.
    by rewrite (find_by_name_unique _ _ _ _ Hnodup Hfind Hv' Hname').
  - intros passed pv rest Hparent Hvalid Habs Hpassed.
    rewrite (validate_with_parent _ _ _ _ Hloc Hne Hparent Hvalid Habs).
    destruct (find_by_name (__name__ pv) locals) as [v |] eqn:Hfind.
    + destruct (issubclass v pv) eqn:Hsub.
      * intros Hincompatible.
        destruct (check_features_raises v pv (get_all_instantiated_feature_objects v)
                    (get_all_instantiated_feature_objects pv)) as (e & He & Hkind).
        { intros Hret. apply Hincompatible.
          exact (proj1 (check_features_returns _ _ _ _) Hret). }
        exists e. split; [| exact Hkind].
        apply for_each_first_raise; [exact Hpassed |].
        unfold check_parent_vdevice. by rewrite Hfind, Hsub.
      * apply for_each_first_raise; [exact Hpassed |].
        unfold check_parent_vdevice. by rewrite Hfind, Hsub.
    + apply for_each_first_raise; [exact Hpassed |].
      unfold check_parent_vdevice. by rewrite Hfind.
  - intros q f q1 q2 e. split; [discriminate |].
    intros [-> | ->]; discriminate.
Qed.


(** *** get_method_variation: the candidate dictionary *)

#[local] Abbreviation gmv := (get_method_variation_cnn _for_vdevice).
#[local] Abbreviation candidates := (list (Callable * Connection)).

Lemma callable_eq_true (f g : Callable) : callable_eq f g = true <-> f = g.
Proof. unfold callable_eq. apply bool_decide_eq_true. Qed.

Lemma callable_eq_false (f g : Callable) : callable_eq f g = false <-> f <> g.
Proof. unfold callable_eq. apply bool_decide_eq_false. Qed.

Lemma keys_set k v (d : candidates) :
  Dict.keys (Dict.set callable_eq k v d)
  = if Dict.mem callable_eq k d then Dict.keys d else (Dict.keys d ++ [k])%list.
Proof.
  unfold Dict.mem, Dict.keys. induction d as [| [k' v'] d IH]; simpl; [reflexivity |].
  destruct (callable_eq k k') eqn:E; simpl; [reflexivity |].
  rewrite IH. by destruct (Dict.get callable_eq k d).
Qed.

Lemma mem_false_not_in k (d : candidates) :
  Dict.mem callable_eq k d = false -> k ∉ Dict.keys d.
Proof.
  unfold Dict.mem, Dict.keys. induction d as [| [k' v'] d IH]; simpl.
  - intros _ Hin. by apply not_elem_of_nil in Hin.
  - destruct (callable_eq k k') eqn:E; [discriminate |].
    intros Hget Hin. apply elem_of_cons in Hin as [-> | Hin].
    + apply callable_eq_false in E. by apply E.
    + by apply IH.
Qed.

Lemma set_keeps_nodup k v (d : candidates) :
  NoDup (Dict.keys d) -> NoDup (Dict.keys (Dict.set callable_eq k v d)).
Proof.
  intros Hnodup. rewrite keys_set.
  destruct (Dict.mem callable_eq k d) eqn:E; [exact Hnodup |].
  apply NoDup_app. split; [exact Hnodup |]. split; [| apply NoDup_singleton].
  intros x Hx Hk. apply list_elem_of_singleton in Hk as ->.
  by apply (mem_false_not_in _ _ E).
Qed.

Lemma add_matching_singles_nodup w m cnns (d d' : candidates) :
  NoDup (Dict.keys d) -> add_matching_singles w m cnns d = Return d' ->
  NoDup (Dict.keys d').
Proof.
  revert d. induction cnns as [| cnn cnns IH]; simpl; intros d Hnodup.
  - by intros [= <-].
  - destruct (cnn_contained_in cnn w true); [| by apply IH].
    destruct (Dict.get callable_eq m d) as [present |].
    + destruct (based_on present cnn) as [combined | e]; simpl; [| discriminate].
      apply IH. by apply set_keeps_nodup.
    + apply IH. by apply set_keeps_nodup.
Qed.

Lemma collect_possible_nodup v w items (d d' : candidates) :
  NoDup (Dict.keys d) -> collect_possible v w items d = Return d' ->
  NoDup (Dict.keys d').
Proof.
  revert d. induction items as [| [m impl] items IH]; simpl; intros d Hnodup.
  - by intros [= <-].
  - destruct (Dict.get class_eq v impl) as [cnns |]; [| by apply IH].
    destruct (add_matching_singles w m (concat (map get_singles cnns)) d)
      as [d1 | e] eqn:E; simpl; [| discriminate].
    apply IH. by eapply add_matching_singles_nodup.
Qed.

(** *** get_method_variation: the elimination loop *)

Lemma in_del m (d : candidates) other :
  In other (Dict.del callable_eq m d) <-> In other d /\ other.1 <> m.
Proof.
  unfold Dict.del. rewrite <- !list_elem_of_In, list_elem_of_filter.
  rewrite callable_eq_false. split; intros [? ?]; split; auto.
Qed.

Lemma del_absent m (d : candidates) : m ∉ Dict.keys d -> Dict.del callable_eq m d = d.
Proof.
  unfold Dict.del, Dict.keys. induction d as [| [k v] d IH]; simpl; [reflexivity |].
  intros Hnotin. apply not_elem_of_cons in Hnotin as [Hne Hnotin].
  rewrite filter_cons_True; [by rewrite IH |]. simpl. by apply callable_eq_false.
Qed.

Lemma del_present m cnn (d : candidates) :
  NoDup (Dict.keys d) -> In (m, cnn) d ->
  length d = S (length (Dict.del callable_eq m d))
  /\ NoDup (Dict.keys (Dict.del callable_eq m d)).
Proof.
  unfold Dict.keys. induction d as [| [k v] d IH]; simpl; [intros _ [] |].
  intros Hnodup Hin. apply NoDup_cons in Hnodup as [Hk Hnodup].
  destruct Hin as [[= -> ->] | Hin].
  - unfold Dict.del. rewrite filter_cons_False.
    + fold (Dict.del callable_eq m d). rewrite del_absent by exact Hk. by split.
    + simpl. rewrite callable_eq_false. tauto.
  - assert (Hne : m <> k).
    { intros ->. apply Hk. apply list_elem_of_In.
      change k with (fst (k, cnn)). by apply in_map. }
    destruct (IH Hnodup Hin) as [Hlen Hnd].
    unfold Dict.del in *. rewrite filter_cons_True by (simpl; by apply callable_eq_false).
    simpl. split; [by rewrite Hlen |].
    apply NoDup_cons. split; [| exact Hnd].
    intros Hk'. apply Hk. apply list_elem_of_In in Hk'. apply in_map_iff in Hk'.
    destruct Hk' as (x & Hx & Hxin). apply list_elem_of_In.
    apply in_map_iff. exists x. split; [exact Hx |].
    apply list_elem_of_In, list_elem_of_filter in Hxin as [_ Hxin].
    by apply list_elem_of_In.
Qed.

Lemma forallb_false_exists {A} (f : A -> bool) l :
  forallb f l = false -> exists x, In x l /\ f x = false.
Proof.
  induction l as [| x l IH]; simpl; [discriminate |].
  destruct (f x) eqn:E; simpl.
  - intros Hl. destruct (IH Hl) as (y & ? & ?). eauto.
  - eauto.
Qed.

Lemma first_deletable_some (d : candidates) m cnn :
  first_deletable d = Some (m, cnn) -> In (m, cnn) d /\ can_be_deleted d cnn = true.
Proof. unfold first_deletable. intros Hfind. by apply find_some in Hfind. Qed.

Lemma first_deletable_none (d : candidates) :
  first_deletable d = None -> nothing_deletable d.
Proof.
  unfold first_deletable, nothing_deletable. intros Hfind cur Hcur.
  pose proof (find_none _ _ Hfind cur Hcur) as Hno. simpl in Hno.
  apply forallb_false_exists in Hno as (other & Hother & Hcmp).
  apply orb_false_iff in Hcmp as [? ?]. eauto.
Qed.


Lemma can_be_deleted_contained (d : candidates) cnn :
  (forall a b : Connection, cnn_eq a b = true -> cnn_contained_in a b false = true) ->
  can_be_deleted d cnn = true ->
  forall other, In other d -> cnn_contained_in cnn other.2 false = true.
Proof.
  intros Heq Hdel other Hother. unfold can_be_deleted in Hdel.
  rewrite forallb_forall in Hdel. specialize (Hdel other Hother).
  apply orb_true_iff in Hdel as [Hsame | Hin]; auto.
Qed.

(** The [while] loop with as many passes allowed as there are candidates:
    it deletes dominated candidates one by one and stops with a single
    candidate or with a dictionary in which nothing can be deleted. *)
Lemma determine_outer_spec fuel (d : candidates) :
  (forall a b : Connection, cnn_eq a b = true -> cnn_contained_in a b false = true) ->
  NoDup (Dict.keys d) -> 1 < length d -> length d <= fuel ->
  eliminates d (determine_outer fuel d)
  /\ (length (determine_outer fuel d) = 1 \/ nothing_deletable (determine_outer fuel d))
  /\ 1 <= length (determine_outer fuel d).
Proof.
  intros Heq. revert d. induction fuel as [| fuel IH]; intros d Hnodup Hlen Hfuel; [lia |].
  simpl. unfold sweep. destruct (first_deletable d) as [[m cnn] |] eqn:Hfirst.
  - apply first_deletable_some in Hfirst as [Hin Hdel].
    destruct (del_present m cnn d Hnodup Hin) as [Hshorter Hnodup'].
    assert (Hstep : forall d', eliminates (Dict.del callable_eq m d) d' -> eliminates d d').
    { intros d'. apply (eliminates_step d m cnn d' Hin Hshorter).
      intros other Hother. apply in_del in Hother as [Hother _].
      by apply (can_be_deleted_contained d). }
    case_bool_decide as Hone.
    + split; [apply Hstep, eliminates_done |]. split; [by left | lia].
    + rewrite bool_decide_eq_false_2 by lia.
      destruct (IH (Dict.del callable_eq m d)) as (Helim & Hfix & Hpos);
        [exact Hnodup' | lia | lia |].
      split; [by apply Hstep |]. by split.
  - rewrite bool_decide_eq_false_2 by lia. rewrite bool_decide_eq_true_2 by reflexivity.
    split; [apply eliminates_done |]. split; [| lia].
    right. by apply first_deletable_none.
Qed.

(** More passes than candidates change nothing. *)
Lemma determine_outer_enough_fuel fuel (d : candidates) :
  NoDup (Dict.keys d) -> 1 < length d -> length d <= fuel ->
  determine_outer fuel d = determine_outer (length d) d.
Proof.
  remember (length d) as n eqn:Hn. revert fuel d Hn.
  induction n as [| n IH]; intros fuel d Hn Hnodup Hlen Hfuel; [lia |].
  destruct fuel as [| fuel]; [lia |]. simpl.
  unfold sweep. destruct (first_deletable d) as [[m cnn] |] eqn:Hfirst;
    [| repeat case_bool_decide; try reflexivity; lia].
  apply first_deletable_some in Hfirst as [Hin _].
  destruct (del_present m cnn d Hnodup Hin) as [Hshorter Hnodup'].
  case_bool_decide as Hone; [reflexivity |].
  case_bool_decide as Hsame; [reflexivity |].
  assert (Hn' : n = length (Dict.del callable_eq m d)) by lia.
  by rewrite (IH fuel _ Hn' Hnodup') by lia.
Qed.

(** The equation of [get_method_variation], as the source has it. *)
Lemma gmv_unfold c name v w ignore_no_findings :
  gmv c name v w ignore_no_findings =
  get_method_variation_body _for_vdevice (fun cur_base => gmv cur_base name v w true)
    c (__bases__ c) name v w ignore_no_findings.
Proof. destruct c; reflexivity. Qed.

(** C1.  Let the search at the class [c] find the candidates [d], more
    than one, and let [==] on connections imply [contained_in].  Then
    [get_method_variation] deletes candidates one at a time, each with a
    connection contained in the connection of every candidate that stays
    ([eliminates]), until a single candidate is left or no candidate can be
    deleted.  A single remaining candidate is returned; with more than one
    left, [UnclearMethodVariationError] "found more than one possible
    method variation" is raised. *)
Theorem more_than_one_variation_elimination
        (c : pyclass) (name : string) (v : pyclass) (w : Connection) (ignore : bool)
        (all : list (string * method_impl_dict)) (items : method_impl_dict)
        (d : candidates) :
  (forall a b : Connection, cnn_eq a b = true -> cnn_contained_in a b false = true) ->
  _for_vdevice c = Some all -> Dict.get str_eq name all = Some items ->
  collect_possible v w items [] = Return d -> 1 < length d ->
  exists d',
    eliminates d d'
    /\ (length d' = 1 \/ nothing_deletable d')
    /\ ((exists m cnn, d' = [(m, cnn)]
                       /\ get_method_variation _for_vdevice c name v (inl w) ignore
                          = Return (Some m))
        \/ (1 < length d'
            /\ get_method_variation _for_vdevice c name v (inl w) ignore
               = Raise (Exception UnclearMethodVariationError
                          (msg_found_more_than_one_variation (__name__ c) name
                             (__name__ v))))).
Proof.
  intros Heq Hall Hitems Hcollect Hlen.
  assert (Hnodup : NoDup (Dict.keys d)).
  { eapply collect_possible_nodup; [| exact Hcollect]. apply NoDup_nil_2. }
  destruct (determine_outer_spec (length d) d Heq Hnodup Hlen) as (Helim & Hfix & Hpos);
    [lia |].
  exists (determine_outer (length d) d). split; [exact Helim |]. split; [exact Hfix |].
  unfold get_method_variation. simpl. rewrite gmv_unfold.
  unfold get_method_variation_body, get_method_based_for_vdevice.
  rewrite Hall, Hitems, Hcollect. simpl.
  rewrite bool_decide_eq_false_2 by lia.
  unfold select_variation. rewrite bool_decide_eq_false_2 by lia.
  destruct (determine_outer (length d) d) as [| [m cnn] [| second rest]] eqn:Hd'.
  - simpl in Hpos. lia.
  - left. exists m, cnn. split; reflexivity.
  - right. split; [simpl; lia | reflexivity].
Qed.


Lemma try_parents_first_finding (rec : pyclass -> result (option Callable))
      (before : list pyclass) parent (after : list pyclass) m :
  Forall (fun b => proper_feature_parent b = true -> rec b = Return None) before ->
  proper_feature_parent parent = true -> rec parent = Return (Some m) ->
  try_parents rec (before ++ parent :: after)%list = Return (Some m).
Proof.
  intros Hbefore Hproper Hparent.
  induction Hbefore as [| b before Hb _ IH]; simpl.
  - fold (proper_feature_parent parent). by rewrite Hproper, Hparent.
  - fold (proper_feature_parent b). destruct (proper_feature_parent b); [| exact IH].
    by rewrite Hb.
Qed.

Lemma try_parents_first_decides (rec : pyclass -> result (option Callable))
      (before : list pyclass) parent (after : list pyclass) :
  Forall (fun b => proper_feature_parent b = true -> rec b = Return None) before ->
  proper_feature_parent parent = true -> rec parent <> Return None ->
  try_parents rec (before ++ parent :: after)%list = rec parent.
Proof.
  intros Hbefore Hproper Hparent.
  induction Hbefore as [| b before Hb _ IH]; simpl.
  - fold (proper_feature_parent parent). rewrite Hproper.
    destruct (rec parent) as [[m |] | e]; [reflexivity | contradiction | reflexivity].
  - fold (proper_feature_parent b). destruct (proper_feature_parent b); [| exact IH].
    by rewrite Hb.
Qed.

Lemma try_parents_none (rec : pyclass -> result (option Callable)) (bases : list pyclass) :
  try_parents rec bases = Return None <->
  Forall (fun b => proper_feature_parent b = true -> rec b = Return None) bases.
Proof.
  induction bases as [| b bases IH]; simpl.
  - split; [constructor | reflexivity].
  - fold (proper_feature_parent b). destruct (proper_feature_parent b) eqn:Hproper.
    + destruct (rec b) as [[m |] | e] eqn:Hrec; simpl.
      * split; [discriminate |]. intros Hall. apply Forall_cons in Hall as [Hb _].
        specialize (Hb Hproper). congruence.
      * rewrite IH. split; [intros ?; by constructor |].
        intros Hall. by apply Forall_cons in Hall as [_ ?].
      * split; [discriminate |]. intros Hall. apply Forall_cons in Hall as [Hb _].
        specialize (Hb Hproper). congruence.
    + rewrite IH. split; [intros ?; constructor; [congruence | done] |].
      intros Hall. by apply Forall_cons in Hall as [_ ?].
Qed.

(** The search with no candidate at the class, lines 184-198. *)
Lemma gmv_zero_candidates c name v (w : Connection) ignore all items :
  _for_vdevice c = Some all -> Dict.get str_eq name all = Some items ->
  collect_possible v w items [] = Return [] ->
  get_method_variation _for_vdevice c name v (inl w) ignore =
  (found <- try_parents
              (fun cur_base =>
                 get_method_variation _for_vdevice cur_base name v (inl w) true)
              (__bases__ c) ;;
   match found with
   | Some m => Return (Some m)
   | None =>
       if negb ignore then
         Raise (Exception UnclearMethodVariationError
                  (msg_found_no_variation (__name__ c) name (__name__ v)))
       else Return None
   end).
Proof.
  intros Hall Hitems Hcollect.
  unfold get_method_variation at 1. simpl. rewrite gmv_unfold.
  unfold get_method_variation_body, get_method_based_for_vdevice.
  rewrite Hall, Hitems, Hcollect. reflexivity.
Qed.

(** C3, as the code has it.  (1) When the search at the class [c] finds no
    candidate, [get_method_variation] calls itself, with
    [ignore_no_findings=True], on the Feature parent classes in the order
    of [__bases__], on every one of them until one finds a variation; with
    none found it returns [None] or raises the "found no possible method
    variation" error, as [ignore_no_findings] says.  (2) The variation
    found by the first parent that finds one is the result, whether the
    class has one Feature parent or several.
    (3) [validate_inner_vdevice_inheritance] returns at once for a class
    whose VDevice list is empty, whatever its parents are, and (4) raises
    [MultiInheritanceError] for a class with a non-empty VDevice list and
    more than one Feature parent.
    What the search of (1) ends with: (5) the first call on a Feature parent
    that does not return [None] decides, its variation or its exception is
    the result of [get_method_variation] at [c], whatever
    [ignore_no_findings] is; (6) when the call on every Feature parent
    returns [None], and only then, the search in the parents finds nothing,
    and [get_method_variation] returns [None] with [ignore_no_findings] and
    raises the "found no possible method variation" error without it;
    (7) a call on a class without method-variation data, or whose data does
    not have the method name, raises [ValueError], also with
    [ignore_no_findings=True], so that by (5) a Feature parent of [c] of
    this kind, reached before a variation is found, makes
    [get_method_variation] at [c] raise this [ValueError]. *)
Theorem zero_variations_try_every_feature_parent (c : pyclass) :
  (forall name v (w : Connection) ignore all items,
      _for_vdevice c = Some all -> Dict.get str_eq name all = Some items ->
      collect_possible v w items [] = Return [] ->
      get_method_variation _for_vdevice c name v (inl w) ignore =
      (found <- try_parents
                  (fun cur_base =>
                     get_method_variation _for_vdevice cur_base name v (inl w) true)
                  (__bases__ c) ;;
       match found with
       | Some m => Return (Some m)
       | None =>
           if negb ignore then
             Raise (Exception UnclearMethodVariationError
                      (msg_found_no_variation (__name__ c) name (__name__ v)))
           else Return None
       end))
  /\ (forall (rec : pyclass -> result (option Callable))
             (before : list pyclass) parent (after : list pyclass) m,
        Forall (fun b => proper_feature_parent b = true -> rec b = Return None) before ->
        proper_feature_parent parent = true -> rec parent = Return (Some m) ->
        try_parents rec (before ++ parent :: after)%list = Return (Some m))
  /\ (get_inner c = Return [] -> validate c = Return tt)
  /\ (forall locals,
        get_inner c = Return locals -> locals <> [] ->
        1 < length (List.filter proper_feature_parent (__bases__ c)) ->
        validate c = Raise (Exception MultiInheritanceError
                              (msg_feature_multi_parent (__name__ c))))
  /\ (forall name v (w : Connection) ignore all items
             (before : list pyclass) parent (after : list pyclass),
        _for_vdevice c = Some all -> Dict.get str_eq name all = Some items ->
        collect_possible v w items [] = Return [] ->
        __bases__ c = (before ++ parent :: after)%list ->
        Forall (fun b => proper_feature_parent b = true ->
                         get_method_variation _for_vdevice b name v (inl w) true = Return None)
               before ->
        proper_feature_parent parent = true ->
        get_method_variation _for_vdevice parent name v (inl w) true <> Return None ->
        get_method_variation _for_vdevice c name v (inl w) ignore
        = get_method_variation _for_vdevice parent name v (inl w) true)
  /\ (forall name v (w : Connection) ignore all items,
        _for_vdevice c = Some all -> Dict.get str_eq name all = Some items ->
        collect_possible v w items [] = Return [] ->
        (Forall (fun b => proper_feature_parent b = true ->
                          get_method_variation _for_vdevice b name v (inl w) true = Return None)
                (__bases__ c) <->
         try_parents (fun cur_base =>
                        get_method_variation _for_vdevice cur_base name v (inl w) true)
                     (__bases__ c) = Return None)
        /\ (Forall (fun b => proper_feature_parent b = true ->
                             get_method_variation _for_vdevice b name v (inl w) true
                             = Return None)
                   (__bases__ c) ->
            get_method_variation _for_vdevice c name v (inl w) ignore
            = if ignore then Return None
              else Raise (Exception UnclearMethodVariationError
                            (msg_found_no_variation (__name__ c) name (__name__ v)))))
  /\ (forall parent name v (w : Connection) ignore,
        (_for_vdevice parent = None ->
         get_method_variation _for_vdevice parent name v (inl w) ignore
         = Raise (Exception ValueError msg_no_method_variations))
        /\ (forall all,
              _for_vdevice parent = Some all -> Dict.get str_eq name all = None ->
              get_method_variation _for_vdevice parent name v (inl w) ignore
              = Raise (Exception ValueError (msg_method_not_found name)))).
Proof.
  split; [| split; [| split; [| split; [| split; [| split]]]]].
  - intros name v w ignore all items. apply gmv_zero_candidates.
  - apply try_parents_first_finding.
  - intros Hinner. rewrite validate_unfold, Hinner. reflexivity.
  - intros locals Hinner Hne Hparents.
    rewrite validate_unfold, Hinner. simpl. rewrite (length_nonzero _ Hne). simpl.
    rewrite next_feature_parent_spec.
    destruct (List.filter proper_feature_parent (__bases__ c)) as [| p [| p' ps]];
      simpl in Hparents; [lia | lia | reflexivity].
  - intros name v w ignore all items before parent after Hall Hitems Hcollect Hbases
           Hbefore Hproper Hparent.
    rewrite (gmv_zero_candidates c name v w ignore all items Hall Hitems Hcollect), Hbases.
    rewrite (try_parents_first_decides
               (fun cur_base => get_method_variation _for_vdevice cur_base name v (inl w) true)
               before parent after Hbefore Hproper Hparent).
    destruct (get_method_variation _for_vdevice parent name v (inl w) true)
      as [[m |] | e]; [reflexivity | contradiction | reflexivity].
  - intros name v w ignore all items Hall Hitems Hcollect. split.
    + symmetry.
      apply (try_parents_none
               (fun cur_base => get_method_variation _for_vdevice cur_base name v (inl w) true)).
    + intros Hnone.
      rewrite (gmv_zero_candidates c name v w ignore all items Hall Hitems Hcollect).
      rewrite (proj2 (try_parents_none
                        (fun cur_base =>
                           get_method_variation _for_vdevice cur_base name v (inl w) true)
                        (__bases__ c)) Hnone).
      by destruct ignore.
  - intros parent name v w ignore. split.
    + intros Hnone. unfold get_method_variation. simpl. rewrite gmv_unfold.
      unfold get_method_variation_body, get_method_based_for_vdevice. by rewrite Hnone.
    + intros all Hall Hname. unfold get_method_variation. simpl. rewrite gmv_unfold.
      unfold get_method_variation_body, get_method_based_for_vdevice.
      by rewrite Hall, Hname.
Qed.

End Facts.

(** *** The statements at the example classes *)

Lemma get_inner_vdevice_classes_is_absolute_witness :
  get_inner_vdevice_classes getmembers_isclass SetupFeatureOfRelevanceLvl3
  = get_abs_inner_vdevice_classes getmembers_isclass FeatureOfRelevanceLvl2.
Proof.
  apply (proj2 (get_inner_vdevice_classes_is_absolute getmembers_isclass
                  SetupFeatureOfRelevanceLvl3) [] FeatureOfRelevanceLvl2 []).
  - vm_compute. reflexivity.
  - reflexivity.
  - constructor.
  - vm_compute. reflexivity.
Defined.

(** The class without VDevices of its own gets the VDevices of its parent
    from [get_inner_vdevice_classes], not an empty list. *)
Example get_inner_vdevice_classes_of_lvl3 :
  get_inner_vdevice_classes getmembers_isclass SetupFeatureOfRelevanceLvl3
  = Return [Lvl2_VDeviceWithI].
Proof. vm_compute. reflexivity. Qed.

Lemma validate_inner_vdevice_inheritance_enforces_overriding_witness :
  exists parent_vdevices,
    get_abs_inner_vdevice_classes getmembers_isclass FeatureOfRelevanceLvl1
    = Return parent_vdevices
    /\ forall pv, In pv parent_vdevices ->
        exists v, In v [Complete_VDeviceWithI; Complete_VDeviceWithII]
                  /\ __name__ v = __name__ pv /\ issubclass v pv = true.
Proof.
  destruct (validate_inner_vdevice_inheritance_enforces_overriding
              getmembers_isclass get_all_instantiated_feature_objects
              FeatureComplete FeatureOfRelevanceLvl1
              [Complete_VDeviceWithI; Complete_VDeviceWithII]) as (Hreturns & _).
  - vm_compute. reflexivity.
  - discriminate.
  - left. reflexivity.
  - vm_compute. reflexivity.
  - destruct Hreturns as (parent_vdevices & Habs & Hall); [vm_compute; reflexivity |].
    exists parent_vdevices. split; [exact Habs |].
    intros pv Hpv. destruct (Hall pv Hpv) as (v & Hv & Hname & Hsub & _).
    exists v. auto.
Defined.

(** The test [test_0_overwrite_illegally_befsce]: [FeatureOfRelevanceLvl2]
    overrides only one of the two VDevices of its parent, and the exception
    carries the message the test expects. *)
Example validate_partial_override :
  validate_inner_vdevice_inheritance getmembers_isclass get_all_instantiated_feature_objects
    FeatureOfRelevanceLvl2
  = Raise (Exception VDeviceOverwritingError
             (msg_missing_overwriting ["FeatureOfRelevanceLvl1"; "VDeviceWithII"]
                "FeatureOfRelevanceLvl2")).
Proof. vm_compute. reflexivity. Qed.

Lemma example_eq_contained (a b : connection) :
  cnn_eq a b = true -> cnn_contained_in a b false = true.
Proof. simpl. intros Hab. by apply andb_true_iff in Hab as [? _]. Qed.

Lemma more_than_one_variation_elimination_witness :
  exists d',
    eliminates [(1%positive, template 1 [Serial]); (2%positive, template 2 [SerialOverUSB])] d'
    /\ (length d' = 1 \/ nothing_deletable d')
    /\ ((exists m cnn,
           d' = [(m, cnn)]
           /\ get_method_variation _for_vdevice FeatureLeft "read" SomeVDevice
                (inl (template 9 [SerialOverUSB])) false = Return (Some m))
        \/ (1 < length d'
            /\ get_method_variation _for_vdevice FeatureLeft "read" SomeVDevice
                 (inl (template 9 [SerialOverUSB])) false
               = Raise (Exception UnclearMethodVariationError
                          (msg_found_more_than_one_variation (__name__ FeatureLeft) "read"
                             (__name__ SomeVDevice))))).
Proof.
  eapply (more_than_one_variation_elimination _for_vdevice FeatureLeft "read" SomeVDevice
            (template 9 [SerialOverUSB]) false).
  - exact example_eq_contained.
  - vm_compute. reflexivity.
  - vm_compute. reflexivity.
  - vm_compute. reflexivity.
  - simpl. lia.
Defined.

(** The override over the more specific kind wins; three candidates that do
    not contain each other are ambiguous. *)
Example most_specific_variation :
  get_method_variation _for_vdevice FeatureLeft "read" SomeVDevice
    (inl (template 9 [SerialOverUSB])) false = Return (Some 2%positive).
Proof. vm_compute. reflexivity. Qed.

Example ambiguous_variation :
  get_method_variation _for_vdevice FeatureLeft "read" SomeVDevice
    (inl (template 9 [SerialOverUSB; Ethernet])) false
  = Raise (Exception UnclearMethodVariationError
             (msg_found_more_than_one_variation "FeatureLeft" "read" "SomeVDevice")).
Proof. vm_compute. reflexivity. Qed.

Lemma zero_variations_try_every_feature_parent_witness :
  get_method_variation _for_vdevice FeatureBoth "read" SomeVDevice
    (inl (template 9 [Usb])) false = Return (Some 4%positive)
  /\ validate_inner_vdevice_inheritance getmembers_isclass get_all_instantiated_feature_objects
       FeatureBothWithVDevice
     = Raise (Exception MultiInheritanceError
                (msg_feature_multi_parent "FeatureBothWithVDevice"))
  /\ get_method_variation _for_vdevice_with_child FeatureRightChild "write" SomeVDevice
       (inl (template 9 [Usb])) true
     = Raise (Exception ValueError (msg_method_not_found "write"))
  /\ get_method_variation _for_vdevice_with_child FeatureRightChild "read" SomeVDevice
       (inl (template 9 [Serial])) false
     = Raise (Exception UnclearMethodVariationError
                (msg_found_no_variation "FeatureRightChild" "read" "SomeVDevice")).
Proof.
  split; [| split; [| split]].
  - destruct (zero_variations_try_every_feature_parent getmembers_isclass _for_vdevice
                get_all_instantiated_feature_objects FeatureBoth) as (Hsearch & Hfirst & _).
    rewrite (Hsearch "read" SomeVDevice (template 9 [Usb]) false
               [("read", [])] []) by (vm_compute; reflexivity).
    rewrite (Hfirst _ [FeatureLeft] FeatureRight [] 4%positive); [reflexivity | | |].
    + constructor; [| constructor]. intros _. vm_compute. reflexivity.
    + vm_compute. reflexivity.
    + vm_compute. reflexivity.
  - destruct (zero_variations_try_every_feature_parent getmembers_isclass
                _for_vdevice get_all_instantiated_feature_objects
                FeatureBothWithVDevice) as (_ & _ & _ & Hmulti & _).
    apply (Hmulti [Both_VDevice]).
    + vm_compute. reflexivity.
    + discriminate.
    + vm_compute. lia.
  - destruct (zero_variations_try_every_feature_parent getmembers_isclass
                _for_vdevice_with_child get_all_instantiated_feature_objects
                FeatureRightChild) as (_ & _ & _ & _ & Hdecides & _ & Hvalue).
    rewrite (Hdecides "write" SomeVDevice (template 9 [Usb]) true
               [("read", []); ("write", [(5%positive, [(SomeVDevice, [template 5 [Serial]])])])]
               [(5%positive, [(SomeVDevice, [template 5 [Serial]])])]
               [] FeatureRight []).
    + apply (proj2 (Hvalue FeatureRight "write" SomeVDevice (template 9 [Usb]) true)
               [("read", [(4%positive, [(SomeVDevice, [template 4 [Usb]])])])]);
        reflexivity.
    + reflexivity.
    + reflexivity.
    + vm_compute. reflexivity.
    + reflexivity.
    + constructor.
    + reflexivity.
    + vm_compute. discriminate.
  - destruct (zero_variations_try_every_feature_parent getmembers_isclass
                _for_vdevice_with_child get_all_instantiated_feature_objects
                FeatureRightChild) as (_ & _ & _ & _ & _ & Hnone & _).
    apply (proj2 (Hnone "read" SomeVDevice (template 9 [Serial]) false
                    [("read", []); ("write", [(5%positive, [(SomeVDevice, [template 5 [Serial]])])])]
                    [] eq_refl eq_refl eq_refl)).
    constructor; [| constructor]. intros _. vm_compute. reflexivity.
Defined.

(** C3 as stated fails at [FeatureBoth], a class with the two Feature
    parents [FeatureLeft] and [FeatureRight]: [get_method_variation] finds
    nothing at the class and nothing in [FeatureLeft], and returns the
    variation of [FeatureRight]; [validate_inner_vdevice_inheritance]
    returns.  Neither raises a multi-inheritance error. *)
Lemma two_feature_parents_not_rejected :
  List.filter proper_feature_parent (__bases__ FeatureBoth) = [FeatureLeft; FeatureRight]
  /\ get_method_variation _for_vdevice FeatureBoth "read" SomeVDevice
       (inl (template 9 [Usb])) false = Return (Some 4%positive)
  /\ validate_inner_vdevice_inheritance getmembers_isclass get_all_instantiated_feature_objects
       FeatureBoth = Return tt.
Proof. split; [| split]; vm_compute; reflexivity. Qed.

End FeatureControllerFacts.

(* ===================================================================== *)
(** ** Properties of normal_scenario_setup_controller.py *)
(* ===================================================================== *)

Module NormalScenarioSetupControllerFacts.
Import NormalScenarioSetupController Examples.

Section Facts.
Context {Connection : Type} `{ConnectionAPI Connection}.
Variable getmembers_isclass : pyclass -> list (string * pyclass).
Variable connections : pyclass -> list (string * list Connection).
Variable absolute_connections : pyclass -> list (pyclass * list Connection).
Variable _related_type : pyclass.

#[local] Abbreviation inner_devices := (get_all_inner_device_classes getmembers_isclass).
#[local] Abbreviation abs_devices :=
  (get_all_abs_inner_device_classes getmembers_isclass _related_type).
#[local] Abbreviation of_related_type := (fun b => issubclass b _related_type).

(** The equation of [get_all_abs_inner_device_classes], as the source has
    it. *)
Lemma abs_devices_unfold c :
  abs_devices c =
  (cls_devices <- inner_devices c ;;
   if bool_decide (length cls_devices = 0) then
     base_class <- find_base_class _related_type abs_devices c (__bases__ c) None ;;
     match base_class with
     | Some (base_class, parent_devices) =>
         if class_eq base_class _related_type then Return [] else parent_devices
     | None => Raise (Exception TypeError msg_get_for_illegal_type)
     end
   else Return cls_devices).
Proof. destruct c; reflexivity. Qed.

Lemma find_base_class_spec {A} (rec : pyclass -> A) c bases found :
  find_base_class _related_type rec c bases found =
  match found, List.filter of_related_type bases with
  | None, [] => Return None
  | None, [p] => Return (Some (p, rec p))
  | Some f, [] => Return (Some f)
  | _, _ => Raise (Exception MultiInheritanceError (msg_multiple_parent_classes (__name__ c)))
  end.
Proof.
  revert found. induction bases as [| b bases IH]; intros found; simpl.
  - destruct found; reflexivity.
  - destruct (issubclass b _related_type).
    + destruct found as [f |].
      * destruct (List.filter of_related_type bases) as [| ? [| ? ?]]; reflexivity.
      * rewrite IH. destruct (List.filter of_related_type bases); reflexivity.
    + apply IH.
Qed.

(** *** De-duplication *)

Lemma cnn_in_app x (l l' : list Connection) :
  cnn_in x (l ++ l') = cnn_in x l || cnn_in x l'.
Proof. unfold cnn_in. apply existsb_app. Qed.

Lemma deduplicated_nil : deduplicated (@nil Connection).
Proof. intros before x after Heq. by destruct before. Qed.

Lemma deduplicated_snoc (l : list Connection) x :
  deduplicated l -> cnn_in x l = false -> deduplicated (l ++ [x]).
Proof.
  intros Hl Hx before y after. destruct after as [| z after _] using rev_ind.
  - intros Heq. apply app_inj_tail in Heq as [-> ->]. exact Hx.
  - intros Heq. rewrite app_comm_cons, app_assoc in Heq.
    apply app_inj_tail in Heq as [-> _]. by apply (Hl before y after).
Qed.

Lemma foldl_append_if_new_spec (src acc : list Connection) :
  deduplicated acc ->
  deduplicated (foldl append_if_new acc src)
  /\ (exists extra, foldl append_if_new acc src = (acc ++ extra)%list
                    /\ forall x, In x extra -> In x src)
  /\ (forall x, In x src ->
                In x (foldl append_if_new acc src)
                \/ cnn_in x (foldl append_if_new acc src) = true).
Proof.
  revert acc. induction src as [| a src IH]; intros acc Hacc; simpl.
  - split; [exact Hacc |]. split; [| intros x []].
    exists []. split; [by rewrite app_nil_r | intros x []].
  - unfold append_if_new at 2 4 6 8. destruct (cnn_in a acc) eqn:Ha; simpl.
    + destruct (IH acc Hacc) as (Hdedup & (extra & Hextra & Hsrc) & Hcover).
      split; [exact Hdedup |]. split.
      * exists extra. split; [exact Hextra | intros x Hx; right; by apply Hsrc].
      * intros x [<- | Hx]; [| by apply Hcover].
        right. by rewrite Hextra, cnn_in_app, Ha.
    + destruct (IH (acc ++ [a])%list (deduplicated_snoc _ _ Hacc Ha))
        as (Hdedup & (extra & Hextra & Hsrc) & Hcover).
      split; [exact Hdedup |]. split.
      * exists (a :: extra). split; [by rewrite Hextra, <- app_assoc |].
        intros x [<- | Hx]; [by left | right; by apply Hsrc].
      * intros x [<- | Hx]; [| by apply Hcover].
        left. rewrite Hextra. apply in_or_app. left. apply in_or_app. right. by left.
Qed.


(** The connections that the loops of [get_all_abs_connections] visit. *)
Lemma in_visited (devices : list pyclass) (cnn : Connection) :
  In cnn (concat (map (fun cur_device => concat (map snd (absolute_connections cur_device)))
                    devices))
  <-> exists device to_device cnns,
      In device devices /\ In (to_device, cnns) (absolute_connections device)
      /\ In cnn cnns.
Proof.
  rewrite in_concat. split.
  - intros (l & Hl & Hcnn). apply in_map_iff in Hl as (device & <- & Hdevice).
    apply in_concat in Hcnn as (cnns & Hcnns & Hcnn).
    apply in_map_iff in Hcnns as ([to_device cnns'] & <- & Hitem).
    exists device, to_device, cnns'. auto.
  - intros (device & to_device & cnns & Hdevice & Hitem & Hcnn).
    exists (concat (map snd (absolute_connections device))). split.
    + apply in_map_iff. eauto.
    + apply in_concat. exists cnns. split; [| exact Hcnn].
      apply in_map_iff. exists (to_device, cnns). auto.
Qed.

(** C8, as the code has it.  (1), (2): the absolute Device classes of a
    class are its own inner Device classes if it declares any, and
    otherwise those of its parent class of the related type.
    (3) [get_all_abs_connections] returns the [absolute_connections] of
    these Device classes de-duplicated: no element of the result is [in]
    the part before it, every element is a connection of one of the
    devices, and every connection of a device is an element or is [in] the
    result.
    (4) [get_all_connections] returns the [connections] of the Device
    classes declared in the class itself, in order and with repetitions;
    (5) for a class without inner Device classes it returns the empty
    list, whatever the parent class declares. *)
Theorem abs_connections_walk_up_plain_connections_do_not (c : pyclass) :
  (forall devices,
      inner_devices c = Return devices -> devices <> [] -> abs_devices c = Return devices)
  /\ (forall parent,
        inner_devices c = Return [] ->
        List.filter of_related_type (__bases__ c) = [parent] ->
        class_eq parent _related_type = false ->
        abs_devices c = abs_devices parent)
  /\ (forall devices,
        abs_devices c = Return devices ->
        exists all_connections,
          get_all_abs_connections getmembers_isclass absolute_connections _related_type c
          = Return all_connections
          /\ deduplicated all_connections
          /\ (forall cnn, In cnn all_connections ->
                exists device to_device cnns,
                  In device devices /\ In (to_device, cnns) (absolute_connections device)
                  /\ In cnn cnns)
          /\ (forall device to_device cnns cnn,
                In device devices -> In (to_device, cnns) (absolute_connections device) ->
                In cnn cnns ->
                In cnn all_connections \/ cnn_in cnn all_connections = true))
  /\ (forall devices,
        inner_devices c = Return devices ->
        get_all_connections getmembers_isclass connections c
        = Return (concat (map (fun device => concat (map snd (connections device)))
                            devices)))
  /\ (inner_devices c = Return [] ->
      get_all_connections getmembers_isclass connections c = Return []).
Proof.
  split; [| split; [| split; [| split]]].
  - intros devices Hinner Hne. rewrite abs_devices_unfold, Hinner. simpl.
    by destruct devices.
  - intros parent Hinner Hparent Hnot_root.
    rewrite abs_devices_unfold, Hinner. simpl.
    rewrite find_base_class_spec, Hparent. simpl. by rewrite Hnot_root.
  - intros devices Habs. unfold get_all_abs_connections. rewrite Habs. simpl.
    eexists. split; [reflexivity |].
    destruct (foldl_append_if_new_spec
                (concat (map (fun cur_device =>
                                concat (map snd (absolute_connections cur_device)))
                           devices)) [] deduplicated_nil)
      as (Hdedup & (extra & Hextra & Hsrc) & Hcover).
    split; [exact Hdedup |]. split.
    + intros cnn Hcnn. apply in_visited, Hsrc. by rewrite Hextra in Hcnn.
    + intros device to_device cnns cnn Hdevice Hitem Hcnn.
      apply Hcover, in_visited. eauto 6.
  - intros devices Hinner. unfold get_all_connections. by rewrite Hinner.
  - intros Hinner. unfold get_all_connections. by rewrite Hinner.
Qed.

(** *** validate_inheritance *)

#[local] Abbreviation validate := (validate_inheritance getmembers_isclass _related_type).
#[local] Abbreviation check_device := (check_item_device _related_type).

(** The [if]/[elif] chain of lines 186-203, by the two parents found for
    the device: it raises when exactly one of them is missing, and does
    nothing when both exist, the same or not. *)
Lemma check_item_device_cases (abs_parent_devices : list pyclass) (device : pyclass)
      (by_inheritance : option pyclass) :
  relevant_parent_device_according_inheritance _related_type device abs_parent_devices None
  = Return by_inheritance ->
  check_device abs_parent_devices device =
  match relevant_parent_according_naming device abs_parent_devices, by_inheritance with
  | None, Some inherited =>
      Raise (Exception DeviceOverwritingError
               (msg_device_should_have_same_name (__qualname__ device)
                  (__qualname__ inherited)))
  | Some named, None =>
      Raise (Exception DeviceOverwritingError
               (msg_device_should_inherit (__qualname__ device) (__qualname__ named)))
  | _, _ => Return tt
  end.
Proof.
  intros Hinh. unfold check_item_device. rewrite Hinh. simpl.
  destruct (relevant_parent_according_naming device abs_parent_devices) as [named |],
    by_inheritance as [inherited |]; simpl; try reflexivity.
  destruct (class_eq named inherited); reflexivity.
Qed.


(** *** get_absolute_single_connections *)

#[local] Abbreviation add := (@add_connection Connection _).
#[local] Abbreviation in_order := (connections_in_order absolute_connections).

Lemma lookup4_default (t : @table Connection) a b c d :
  lookup4 t (a, b, c, d)
  = default ∅ (default ∅ (default ∅ (t !! a) !! b) !! c) !! d.
Proof.
  unfold lookup4.
  destruct (t !! a) as [l1 |]; simpl; [| by rewrite !lookup_empty].
  destruct (l1 !! b) as [l2 |]; simpl; [| by rewrite !lookup_empty].
  destruct (l2 !! c) as [l3 |]; simpl; [reflexivity | by rewrite lookup_empty].
Qed.

Lemma lookup4_empty k : lookup4 (∅ : @table Connection) k = None.
Proof. by destruct k as [[[a b] c] d]. Qed.

Lemma add_connection_fresh c fd td (t : @table Connection) cnn :
  lookup4 t (keys_of (fd, td, cnn)) = None ->
  exists t', add c fd td t cnn = Return t'
             /\ lookup4 t' (keys_of (fd, td, cnn)) = Some (get_singles cnn)
             /\ forall k, k <> keys_of (fd, td, cnn) -> lookup4 t' k = lookup4 t k.
Proof.
  unfold add_connection, keys_of.
  destruct (nodes_seen_from fd cnn) as [fn tn]. rewrite lookup4_default.
  intros Hfresh. rewrite Hfresh. eexists. split; [reflexivity |]. split.
  - rewrite lookup4_default. unfold table in *.
    repeat (rewrite lookup_insert_eq; simpl). reflexivity.
  - intros [[[a b] c'] d] Hne. rewrite !lookup4_default. unfold table in *.
    destruct (decide (cid fd = a)) as [<- |]; [| by rewrite lookup_insert_ne].
    rewrite lookup_insert_eq. simpl.
    destruct (decide (fn = b)) as [<- |]; [| by rewrite lookup_insert_ne].
    rewrite lookup_insert_eq. simpl.
    destruct (decide (cid td = c')) as [<- |]; [| by rewrite lookup_insert_ne].
    rewrite lookup_insert_eq. simpl.
    destruct (decide (tn = d)) as [<- |]; [congruence | by rewrite lookup_insert_ne].
Qed.

Lemma add_connection_taken c fd td (t : @table Connection) cnn singles :
  lookup4 t (keys_of (fd, td, cnn)) = Some singles ->
  add c fd td t cnn
  = Raise (Exception ValueError
             (msg_multiple_definitions (__qualname__ fd) (nodes_seen_from fd cnn).1
                (__qualname__ td) (nodes_seen_from fd cnn).2 (__name__ c))).
Proof.
  unfold add_connection, keys_of.
  destruct (nodes_seen_from fd cnn) as [fn tn]. rewrite lookup4_default.
  intros Htaken. by rewrite Htaken.
Qed.

#[local] Abbreviation body c :=
  (fun (t : @table Connection) '(cur_from_device, cur_to_device, cur_cnn) =>
     add c cur_from_device cur_to_device t cur_cnn).

Lemma for_fold_app {A S} (f : S -> A -> result S) (l1 l2 : list A) s :
  for_fold f (l1 ++ l2) s = (s' <- for_fold f l1 s ;; for_fold f l2 s').
Proof.
  revert s. induction l1 as [| x l1 IH]; intros s; simpl; [reflexivity |].
  destruct (f s x); simpl; [apply IH | reflexivity].
Qed.

(** The loops over connections with pairwise different keys fill the
    table. *)
Lemma for_fold_fills c (events : list (pyclass * pyclass * Connection)) t :
  NoDup (map keys_of events) ->
  (forall e, In e events -> lookup4 t (keys_of e) = None) ->
  exists t', for_fold (body c) events t = Return t'
             /\ forall k singles,
                lookup4 t' k = Some singles
                <-> lookup4 t k = Some singles
                    \/ exists e, In e events /\ keys_of e = k /\ singles = get_singles e.2.
Proof.
  revert t. induction events as [| [[fd td] cnn] events IH]; intros t Hnodup Hfresh; simpl.
  - exists t. split; [reflexivity |]. intros k singles. split; [by left |].
    intros [? | (e & [] & _)]; assumption.
  - apply NoDup_cons in Hnodup as [Hnew Hnodup].
    destruct (add_connection_fresh c fd td t cnn) as (t1 & -> & Hat & Hother).
    { apply Hfresh. by left. }
    simpl. destruct (IH t1 Hnodup) as (t' & -> & Hlookup).
    { intros e He. rewrite Hother; [apply Hfresh; by right |].
      intros Hsame. apply Hnew. rewrite <- Hsame. apply list_elem_of_In. by apply in_map. }
    exists t'. split; [reflexivity |]. intros k singles. rewrite Hlookup. split.
    + intros [Ht1 | (e & He & Hk & Hs)]; [| right; exists e; auto].
      destruct (decide (k = keys_of (fd, td, cnn))) as [-> | Hne].
      * right. exists (fd, td, cnn). rewrite Hat in Ht1. injection Ht1 as <-. auto.
      * left. by rewrite <- Hother.
    + intros [Ht | (e & [<- | He] & Hk & Hs)].
      * left. rewrite Hother; [exact Ht |].
        intros ->. rewrite Hfresh in Ht by (by left). discriminate.
      * left. subst. exact Hat.
      * right. exists e. auto.
Qed.

(** The first connection whose keys are taken stops the loops. *)
Lemma for_fold_duplicate c (before : list (pyclass * pyclass * Connection))
      fd td cnn (after : list (pyclass * pyclass * Connection)) :
  NoDup (map keys_of before) ->
  In (keys_of (fd, td, cnn)) (map keys_of before) ->
  for_fold (body c) (before ++ (fd, td, cnn) :: after) ∅
  = Raise (Exception ValueError
             (msg_multiple_definitions (__qualname__ fd) (nodes_seen_from fd cnn).1
                (__qualname__ td) (nodes_seen_from fd cnn).2 (__name__ c))).
Proof.
  intros Hnodup Hdup. rewrite for_fold_app.
  destruct (for_fold_fills c before ∅ Hnodup) as (t & -> & Hlookup).
  { intros e _. apply lookup4_empty. }
  simpl. apply in_map_iff in Hdup as (e & Hkeys & He).
  rewrite (add_connection_taken c fd td t cnn (get_singles e.2)); [reflexivity |].
  apply Hlookup. right. exists e. auto.
Qed.

(** C7.  Let [all_devices] be the absolute Device classes of [c] and
    [in_order all_devices] their absolute connections in the order of the
    loops, each with the device it is listed at and the device it is listed
    for.  (1) If the four keys of these connections are pairwise different,
    [get_absolute_single_connections] returns a table in which
    [result[dev1][node1][dev2][node2]] exists exactly for the keys of these
    connections and holds [get_singles()] of the connection.  (2) The first
    connection whose four keys are those of an earlier one makes the method
    raise [ValueError] "found multiple definitions" for these keys. *)
Theorem absolute_single_connections_table_or_error (c : pyclass) (all_devices : list pyclass) :
  abs_devices c = Return all_devices ->
  (NoDup (map keys_of (in_order all_devices)) ->
   exists t,
     get_absolute_single_connections getmembers_isclass absolute_connections _related_type c
     = Return t
     /\ forall k singles,
        lookup4 t k = Some singles
        <-> exists e, In e (in_order all_devices) /\ keys_of e = k
                      /\ singles = get_singles e.2)
  /\ (forall (before : list (pyclass * pyclass * Connection)) fd td cnn
             (after : list (pyclass * pyclass * Connection)),
        in_order all_devices = (before ++ (fd, td, cnn) :: after)%list ->
        NoDup (map keys_of before) ->
        In (keys_of (fd, td, cnn)) (map keys_of before) ->
        get_absolute_single_connections getmembers_isclass absolute_connections
          _related_type c
        = Raise (Exception ValueError
                   (msg_multiple_definitions (__qualname__ fd) (nodes_seen_from fd cnn).1
                      (__qualname__ td) (nodes_seen_from fd cnn).2 (__name__ c)))).
Proof.
  intros Habs. unfold get_absolute_single_connections. rewrite Habs. simpl. split.
  - intros Hnodup.
    destruct (for_fold_fills c (in_order all_devices) ∅ Hnodup) as (t & Hfold & Hlookup).
    { intros e _. apply lookup4_empty. }
    exists t. split; [exact Hfold |]. intros k singles. rewrite Hlookup. split.
    + intros [Hempty | He]; [| exact He].
      by rewrite lookup4_empty in Hempty.
    + intros He. by right.
  - intros before fd td cnn after -> Hnodup Hdup. by apply for_fold_duplicate.
Qed.

(** The connections the loops visit: those listed at an absolute Device
    class, for some device. *)
Lemma in_order_iff (all_devices : list pyclass) fd td (cnn : Connection) :
  In (fd, td, cnn) (in_order all_devices)
  <-> In fd all_devices
      /\ exists cnns, In (td, cnns) (absolute_connections fd) /\ In cnn cnns.
Proof.
  unfold connections_in_order. rewrite in_concat. split.
  - intros (l & Hl & He). apply in_map_iff in Hl as (dev & <- & Hdev).
    apply in_concat in He as (l' & Hl' & He).
    apply in_map_iff in Hl' as ([td' cnns] & <- & Hitem).
    apply in_map_iff in He as (cnn' & [= <- <- <-] & Hcnn). eauto.
  - intros (Hdev & cnns & Hitem & Hcnn).
    eexists. split; [apply in_map_iff; eauto |].
    apply in_concat. eexists. split; [apply in_map_iff; exists (td, cnns); eauto |].
    apply in_map_iff. eauto.
Qed.

End Facts.

(** *** The statements at the example setups *)

(** C5 fails on the code at [SetupSwapped]: its [SetupDevice1] reuses the
    name of the parent's [SetupDevice1] without being a subclass of it, and is
    a subclass of the parent's [SetupDevice2] without having its name; both
    parents exist and differ, a case that the [if]/[elif] chain of lines
    186-203 lets pass, and [validate_inheritance] returns. *)
Theorem swapped_devices_pass_validate_inheritance :
  get_all_inner_device_classes setup_members SetupSwapped
  = Return [Swapped_SetupDevice1; Swapped_SetupDevice2]
  /\ get_all_abs_inner_device_classes setup_members Setup SetupAParent
     = Return [Parent_SetupDevice1; Parent_SetupDevice2]
  /\ __name__ Swapped_SetupDevice1 = __name__ Parent_SetupDevice1
  /\ issubclass Swapped_SetupDevice1 Parent_SetupDevice1 = false
  /\ issubclass Swapped_SetupDevice1 Parent_SetupDevice2 = true
  /\ __name__ Swapped_SetupDevice1 <> __name__ Parent_SetupDevice2
  /\ validate_inheritance setup_members Setup SetupSwapped = Return tt.
Proof.
  split; [vm_compute; reflexivity |]. split; [vm_compute; reflexivity |].
  split; [reflexivity |]. split; [vm_compute; reflexivity |].
  split; [vm_compute; reflexivity |]. split; [discriminate |].
  vm_compute. reflexivity.
Qed.

(** Where only one of the two parents exists, the two messages are raised:
    the test [test_0_setup_inheritance_missing_device_inheritance], and a
    child that renames an inherited device. *)
Example validate_inheritance_same_name_not_inherited :
  validate_inheritance setup_members Setup SetupAChild
  = Raise (Exception DeviceOverwritingError
             (msg_device_should_inherit ["SetupAChild"; "SetupDevice2"]
                ["SetupAParent"; "SetupDevice2"])).
Proof. vm_compute. reflexivity. Qed.

Example validate_inheritance_inherited_not_same_name :
  validate_inheritance setup_members Setup SetupRenamed
  = Raise (Exception DeviceOverwritingError
             (msg_device_should_have_same_name ["SetupRenamed"; "OtherDevice"]
                ["SetupAParent"; "SetupDevice1"])).
Proof. vm_compute. reflexivity. Qed.

Lemma abs_connections_walk_up_plain_connections_do_not_witness :
  get_all_abs_inner_device_classes setup_members Setup SetupPlainChild
  = get_all_abs_inner_device_classes setup_members Setup SetupAParent
  /\ exists all_connections,
      get_all_abs_connections setup_members absolute_connections Setup SetupPlainChild
      = Return all_connections
      /\ deduplicated all_connections.
Proof.
  destruct (abs_connections_walk_up_plain_connections_do_not
              setup_members connections absolute_connections Setup SetupPlainChild)
    as (_ & Hup & Habs & _).
  split.
  - apply (Hup SetupAParent); vm_compute; reflexivity.
  - destruct (Habs [Parent_SetupDevice1; Parent_SetupDevice2])
      as (all_connections & Hall & Hdedup & _); [vm_compute; reflexivity |].
    exists all_connections. split; assumption.
Defined.

(** C8 as stated fails for [get_all_connections]: at [SetupPlainChild],
    which declares no device, it returns the empty list although the parent's
    devices have a connection, which [get_all_abs_connections] returns; and at
    the parent it returns the connection twice, once per device. *)
Lemma get_all_connections_stays_at_the_class :
  get_all_inner_device_classes setup_members SetupPlainChild = Return []
  /\ get_all_abs_inner_device_classes setup_members Setup SetupPlainChild
     = Return [Parent_SetupDevice1; Parent_SetupDevice2]
  /\ get_all_abs_connections setup_members absolute_connections Setup SetupPlainChild
     = Return [cnn_1_2]
  /\ get_all_connections setup_members connections SetupPlainChild = Return []
  /\ get_all_connections setup_members connections SetupAParent
     = Return [cnn_1_2; cnn_1_2].
Proof. repeat (split; [vm_compute; reflexivity |]). vm_compute. reflexivity. Qed.

Lemma absolute_single_connections_table_or_error_witness :
  (exists t,
      get_absolute_single_connections setup_members absolute_connections Setup
        SetupPlainChild = Return t
      /\ lookup4 t (311%positive, Some "p1", 312%positive, Some "n1")
         = Some (get_singles cnn_1_2)
      /\ lookup4 t (312%positive, Some "n1", 311%positive, Some "p1")
         = Some (get_singles cnn_1_2))
  /\ get_absolute_single_connections setup_members absolute_connections Setup SetupX
     = Raise (Exception ValueError
                (msg_multiple_definitions ["SetupX"; "DevA"] (Some "p1")
                   ["SetupX"; "DevB"] (Some "n1") "SetupX")).
Proof.
  split.
  - destruct (absolute_single_connections_table_or_error
                setup_members absolute_connections Setup SetupPlainChild
                [Parent_SetupDevice1; Parent_SetupDevice2]) as (Htable & _);
      [vm_compute; reflexivity |].
    destruct Htable as (t & Hreturn & Hlookup).
    { vm_compute. apply NoDup_cons. split; [| apply NoDup_singleton].
      intros Hin. apply list_elem_of_singleton in Hin. discriminate. }
    exists t. split; [exact Hreturn |]. split; apply Hlookup.
    + exists (Parent_SetupDevice1, Parent_SetupDevice2, cnn_1_2).
      split; [left; reflexivity | split; reflexivity].
    + exists (Parent_SetupDevice2, Parent_SetupDevice1, cnn_1_2).
      split; [right; left; reflexivity | split; reflexivity].
  - destruct (absolute_single_connections_table_or_error
                setup_members absolute_connections Setup SetupX [DevA; DevB])
      as (_ & Hduplicate); [vm_compute; reflexivity |].
    apply (Hduplicate [(DevA, DevB, cnn_a_b)] DevA DevB cnn_a_b' []).
    + reflexivity.
    + apply NoDup_singleton.
    + left. reflexivity.
Defined.

End NormalScenarioSetupControllerFacts.

(* ===================================================================== *)
(** ** Further properties of connection_metadata.py *)
(* ===================================================================== *)

Module ConnectionMetadataMore.
Import ConnectionMetadata ConnectionMetadataQueries ConnectionMetadataFacts Examples.

Lemma opt_eq_congr s x y : opt_eq x y = true -> opt_eq s x = opt_eq s y.
Proof.
  intros Hxy. destruct (opt_eq s x) eqn:Hsx.
  - symmetry. eauto using opt_eq_trans.
  - destruct (opt_eq s y) eqn:Hsy; [| reflexivity].
    rewrite opt_eq_sym in Hxy. by rewrite (opt_eq_trans _ _ _ Hsy Hxy) in Hsx.
Qed.

Lemma check_same_sym a b : check_same a b = check_same b a.
Proof.
  unfold check_same.
  by rewrite (opt_eq_sym (from_device a)), (opt_eq_sym (from_node_name a)),
    (opt_eq_sym (to_device a)), (opt_eq_sym (to_node_name a)).
Qed.

Lemma check_twisted_sym a b : check_twisted a b = check_twisted b a.
Proof.
  unfold check_twisted.
  rewrite (opt_eq_sym (from_device a)), (opt_eq_sym (from_node_name a)),
    (opt_eq_sym (to_device a)), (opt_eq_sym (to_node_name a)).
  destruct (opt_eq (to_device b) (from_device a)), (opt_eq (to_node_name b) (from_node_name a)),
    (opt_eq (from_device b) (to_device a)), (opt_eq (from_node_name b) (to_node_name a));
    reflexivity.
Qed.

(** X1.  [equal_with] is an equivalence relation on connection metadata. *)
Theorem equal_with_equivalence :
  (forall a, equal_with a a = true)
  /\ (forall a b, equal_with a b = equal_with b a)
  /\ (forall a b c, equal_with a b = true -> equal_with b c = true -> equal_with a c = true).
Proof.
  split; [| split].
  - intros a. rewrite equal_with_spec, check_same_refl. by destruct (bidirectional a).
  - intros a b. rewrite !equal_with_spec, check_same_sym, check_twisted_sym.
    destruct (bidirectional a), (bidirectional b); reflexivity.
  - intros a b c. rewrite !equal_with_spec. intros Hab Hbc.
    apply andb_true_iff in Hab as [Dab Hab]. apply andb_true_iff in Hbc as [Dbc Hbc].
    apply eqb_prop in Dab. apply eqb_prop in Dbc.
    apply andb_true_iff. split; [rewrite Dab, Dbc; apply eqb_reflx |].
    rewrite <- Dab in Hbc. clear Dab Dbc.
    apply orb_true_iff in Hab. apply orb_true_iff in Hbc. apply orb_true_iff.
    destruct Hab as [Sab | Tab], Hbc as [Sbc | Tbc].
    + left. eauto using same_same.
    + apply andb_true_iff in Tbc as [-> Tbc]. right. eauto using same_twisted.
    + apply andb_true_iff in Tab as [-> Tab]. right. eauto using twisted_same.
    + apply andb_true_iff in Tab as [_ Tab]. apply andb_true_iff in Tbc as [_ Tbc].
      left. eauto using twisted_twisted.
Qed.

Lemma equal_with_equivalence_witness :
  equal_with (link A p1 B n1 true) (link A p1 B n1 true) = true.
Proof.
  destruct equal_with_equivalence as (_ & _ & Htrans).
  apply (Htrans _ (link B n1 A p1 true)); vm_compute; reflexivity.
Defined.

(** X2.  [contained_in] is reflexive and symmetric, and it holds in both
    directions between metadata that are [equal_with] each other. *)
Theorem contained_in_reflexive_symmetric :
  (forall a, contained_in a a = true)
  /\ (forall a b, contained_in a b = contained_in b a)
  /\ (forall a b, equal_with a b = true ->
                  contained_in a b = true /\ contained_in b a = true).
Proof.
  assert (Hsym : forall a b, contained_in a b = contained_in b a).
  { intros a b. rewrite !contained_in_spec, check_same_sym, check_twisted_sym.
    by rewrite (orb_comm (bidirectional a)). }
  split; [| split; [exact Hsym |]].
  - intros a. by rewrite contained_in_spec, check_same_refl.
  - intros a b Heq. rewrite <- (Hsym a b). rewrite equal_with_spec in Heq.
    rewrite contained_in_spec.
    apply andb_true_iff in Heq as [_ Heq]. apply orb_true_iff in Heq as [-> | Heq];
      [by split |].
    apply andb_true_iff in Heq as [-> ->]. simpl. rewrite orb_true_r. by split.
Qed.

Lemma contained_in_reflexive_symmetric_witness :
  contained_in (link A p1 B n1 true) (link B n1 A p1 true) = true.
Proof.
  destruct contained_in_reflexive_symmetric as (_ & _ & Heq).
  apply (Heq (link A p1 B n1 true) (link B n1 A p1 true)). vm_compute. reflexivity.
Defined.

(** *** get_conn_partner_of and has_connection_from_to *)

#[local] Arguments opt_eq : simpl never.

Lemma in_pair_cases x a b :
  in_pair x a b = true -> opt_eq x a = false -> opt_eq x b = true.
Proof. unfold in_pair. intros Hin Hne. by rewrite Hne in Hin. Qed.

(** X3.  Asking for the partner of the partner leads back: when
    [get_conn_partner_of] returns the device [partner] (with the node
    [node']) for [device] (with [node]), it returns, for [partner] and
    [node'], a pair that is [==] to [device] and [node]; the same holds
    when no node is given. *)
Theorem get_conn_partner_of_round_trip (self : t) (device partner : pyclass) :
  (forall node node',
      get_conn_partner_of self device (Some node) = Partner (Some (VClass partner)) (Some node') ->
      exists d n, get_conn_partner_of self partner (Some node') = Partner d n
                  /\ opt_eq d (Some (VClass device)) = true
                  /\ opt_eq n (Some node) = true)
  /\ (forall node',
        get_conn_partner_of self device None = Partner (Some (VClass partner)) node' ->
        exists d n, get_conn_partner_of self partner None = Partner d n
                    /\ opt_eq d (Some (VClass device)) = true).
Proof.
  destruct self as [fd fn td tn b].
  unfold get_conn_partner_of, from_device, to_device, from_node_name, to_node_name.
  simpl. split.
  - intros node node'.
    destruct (in_pair (Some (VClass device)) fd td) eqn:Hdev; simpl; [| discriminate].
    destruct (in_pair (Some node) fn tn) eqn:Hnode; simpl; [| discriminate].
    destruct (opt_eq (Some (VClass device)) fd && opt_eq (Some node) fn) eqn:Hfrom.
    + intros [= -> ->]. apply andb_true_iff in Hfrom as [Hd Hn].
      unfold in_pair. rewrite !opt_eq_refl, !orb_true_r. simpl.
      destruct (opt_eq (Some (VClass partner)) fd && opt_eq (Some node') fn) eqn:Hloop.
      * apply andb_true_iff in Hloop as [Hd' Hn'].
        exists (Some (VClass partner)), (Some node'). split; [reflexivity |].
        rewrite opt_eq_sym in Hd, Hn. split; eauto using opt_eq_trans.
      * exists fd, fn. split; [reflexivity |]. by rewrite (opt_eq_sym fd), (opt_eq_sym fn).
    + destruct (opt_eq (Some (VClass device)) td && opt_eq (Some node) tn) eqn:Hto;
        [| discriminate].
      intros [= -> ->]. apply andb_true_iff in Hto as [Hd Hn].
      unfold in_pair. rewrite !opt_eq_refl. simpl.
      exists td, tn. split; [reflexivity |]. by rewrite (opt_eq_sym td), (opt_eq_sym tn).
  - intros node'.
    destruct (in_pair (Some (VClass device)) fd td) eqn:Hdev; simpl; [| discriminate].
    destruct (opt_eq fd td) eqn:Hinner; [discriminate |].
    destruct (opt_eq (Some (VClass device)) fd) eqn:Hfrom.
    + intros [= -> ->]. unfold in_pair. rewrite !opt_eq_refl, orb_true_r. simpl.
      rewrite opt_eq_sym in Hinner. rewrite Hinner.
      exists fd, fn. split; [reflexivity |]. by rewrite opt_eq_sym.
    + intros [= -> ->]. unfold in_pair. rewrite !opt_eq_refl. simpl.
      exists td, tn. split; [reflexivity |]. rewrite opt_eq_sym.
      by apply (in_pair_cases _ (Some (VClass partner)) td).
Qed.

Lemma get_conn_partner_of_round_trip_witness :
  exists d n, get_conn_partner_of (link A p1 B n1 true) DevB (Some n1) = Partner d n
              /\ opt_eq d (Some A) = true /\ opt_eq n (Some p1) = true.
Proof.
  apply (proj1 (get_conn_partner_of_round_trip (link A p1 B n1 true) DevA DevB) p1 n1).
  vm_compute. reflexivity.
Defined.

(** X4.  [has_connection_from_to] gives the same answers for metadata that are
    [equal_with] each other, and for a bidirectional connection the answer
    does not depend on the order of the two devices. *)
Theorem has_connection_from_to_respects_equal_with :
  (forall a b start_device end_device,
      equal_with a b = true ->
      has_connection_from_to a start_device end_device
      = has_connection_from_to b start_device end_device)
  /\ (forall a start_device end_device,
        bidirectional a = true ->
        has_connection_from_to a (Some start_device) (Some end_device)
        = has_connection_from_to a (Some end_device) (Some start_device)).
Proof.
  split.
  - intros a b s e. rewrite equal_with_spec. intros Heq.
    apply andb_true_iff in Heq as [Hdir Heq]. apply eqb_prop in Hdir.
    unfold has_connection_from_to, in_pair. rewrite <- Hdir.
    apply orb_true_iff in Heq as [Hsame | Htwisted].
    + unfold check_same in Hsame.
      apply andb_true_iff in Hsame as [Hsame _].
      apply andb_true_iff in Hsame as [Hsame Hto].
      apply andb_true_iff in Hsame as [Hfrom _].
      rewrite !(opt_eq_congr _ _ _ Hfrom), !(opt_eq_congr _ _ _ Hto). reflexivity.
    + apply andb_true_iff in Htwisted as [-> Htwisted]. unfold check_twisted in Htwisted.
      apply andb_true_iff in Htwisted as [Htwisted _].
      apply andb_true_iff in Htwisted as [Htwisted Hto].
      apply andb_true_iff in Htwisted as [Hfrom _].
      rewrite !(opt_eq_congr _ _ _ Hfrom), !(opt_eq_congr _ _ _ Hto).
      destruct e; apply orb_comm.
  - intros a s e Hbidi. unfold has_connection_from_to. rewrite Hbidi.
    rewrite orb_comm.
    by rewrite (andb_comm (opt_eq (Some e) (from_device a))),
      (andb_comm (opt_eq (Some e) (to_device a))).
Qed.

Lemma has_connection_from_to_respects_equal_with_witness :
  has_connection_from_to (link A p1 B n1 true) (Some B) (Some A)
  = has_connection_from_to (link B n1 A p1 true) (Some B) (Some A).
Proof.
  apply (proj1 has_connection_from_to_respects_equal_with). vm_compute. reflexivity.
Defined.

End ConnectionMetadataMore.

(* ===================================================================== *)
(** ** Properties of the controller registry *)
(* ===================================================================== *)

Module FeatureControllerRegistryFacts.
Import FeatureController FeatureControllerRegistry FeatureHierarchy FeatureControllerFacts.
Import Examples.

Section Registry.
Context {Connection : Type} {Callable : Type}.

#[local] Abbreviation reg := (@registry Connection Callable).

Lemma registry_ok_insert (_items : reg) c item :
  registry_ok _items -> cid (_related_cls item) = cid c ->
  proper_feature_parent (_related_cls item) = true ->
  registry_ok (<[cid c := item]> _items).
Proof.
  intros Hok Hcid Hproper k item' Hlookup. unfold registry in *.
  destruct (decide (cid c = k)) as [<- | Hne].
  - rewrite lookup_insert_eq in Hlookup. injection Hlookup as <-. by split.
  - rewrite lookup_insert_ne in Hlookup by done. by apply Hok.
Qed.

(** X5.  [get_for] memoizes.  On a registry that holds only controllers of
    Feature subclasses, a call that returns a controller leaves such a
    registry, holds this controller for the class, leaves the entries of
    all other classes as they were, and a second call returns the same
    controller without changing anything; a call that raises leaves the
    registry as it was, which happens exactly for an argument that is not
    registered and is not a subclass of [Feature] other than [Feature]. *)
Theorem get_for_memoizes (_items : reg) (related_cls : pyvalue) :
  registry_ok _items ->
  match get_for _items related_cls with
  | (items', Created item) =>
      registry_ok items'
      /\ (exists c, related_cls = VClass c /\ items' !! cid c = Some item
                    /\ forall k, k <> cid c -> items' !! k = _items !! k)
      /\ get_for items' related_cls = (items', Created item)
  | (items', InitError e) =>
      items' = _items
      /\ items_get _items related_cls = None
      /\ e <> RuntimeError_manual_instantiation
      /\ forall c, related_cls = VClass c -> proper_feature_parent c = false
  end.
Proof.
  intros Hok. unfold get_for, registry in *.
  destruct (items_get _items related_cls) as [item |] eqn:Hget.
  - split; [exact Hok |]. split; [| by rewrite Hget].
    destruct related_cls as [c | |]; try discriminate. exists c. by split.
  - destruct related_cls as [c | s | o]; unfold __init__; simpl;
      [| by repeat (split; [done |]) ..].
    unfold proper_feature_parent in *.
    destruct (issubclass c Feature) eqn:Hsub; simpl;
      [| repeat (split; [done |]); by intros ? [= <-]; rewrite Hsub].
    destruct (class_eq c Feature) eqn:Hroot; simpl;
      [repeat (split; [done |]); by intros ? [= <-]; rewrite Hsub, Hroot |].
    split; [| split].
    + apply registry_ok_insert; [exact Hok | reflexivity |].
      unfold proper_feature_parent. simpl. by rewrite Hsub, Hroot.
    + exists c. unfold registry. split; [reflexivity |]. split; [apply lookup_insert_eq |].
      intros k Hk. by apply lookup_insert_ne.
    + unfold items_get, registry. by rewrite lookup_insert_eq.
Qed.

(** X6.  [get_class_based_for_vdevice] returns [None] exactly when nothing is
    set; otherwise the same VDevices in the same order, and no class derived
    from [Connection] is left in the lists: each is replaced by an instance.
    Converting the returned table again changes nothing. *)
Theorem get_class_based_for_vdevice_instantiates (instantiate : pyclass -> Connection)
        (self : controller) :
  (get_class_based_for_vdevice instantiate self = None <-> _cls_for_vdevice self = None)
  /\ (forall data out,
        _cls_for_vdevice self = Some data ->
        get_class_based_for_vdevice instantiate self = Some out ->
        map fst out = map fst data
        /\ (forall vdevice l cls,
              In (vdevice, l) out -> In (inr cls) l -> issubclass cls Connection_class = false)
        /\ @get_class_based_for_vdevice Connection Callable instantiate
             (set_class_based_for_vdevice self (Some out)) = Some out).
Proof.
  unfold get_class_based_for_vdevice. split.
  - destruct (_cls_for_vdevice self); split; intros; try discriminate; reflexivity.
  - intros data out -> [= <-]. split; [| split].
    + rewrite map_map. reflexivity.
    + intros vdevice l cls Hin Hcls. apply in_map_iff in Hin as ([vd l0] & [= <- <-] & _).
      apply in_map_iff in Hcls as (x & Hx & _). destruct x as [cnn | cls']; [discriminate |].
      destruct (issubclass cls' Connection_class) eqn:Hsub; [discriminate |].
      by injection Hx as <-.
    + simpl. f_equal. rewrite map_map. apply map_ext. intros [vd l]. simpl. f_equal.
      rewrite map_map. apply map_ext. intros [cnn | cls]; [reflexivity |].
      destruct (issubclass cls Connection_class) eqn:Hsub; [reflexivity |]. by rewrite Hsub.
Qed.

End Registry.

#[local] Abbreviation example_registry := (@registry connection positive).
#[local] Abbreviation example_controller := (@controller connection positive).

Lemma get_for_memoizes_witness :
  get_for (<[cid FeatureLeft := Controller FeatureLeft None None]> (∅ : example_registry))
    (VClass FeatureLeft)
  = (<[cid FeatureLeft := Controller FeatureLeft None None]> ∅,
     Created (Controller FeatureLeft None None)).
Proof.
  pose proof (get_for_memoizes (∅ : example_registry) (VClass FeatureLeft)) as Hmemo.
  assert (Hok : registry_ok (∅ : example_registry)) by (intros k item Hk; discriminate Hk).
  specialize (Hmemo Hok). simpl in Hmemo. apply Hmemo.
Defined.

Lemma get_class_based_for_vdevice_instantiates_witness :
  get_class_based_for_vdevice (fun _ => template 1 [])
    (set_class_based_for_vdevice
       (Controller FeatureLeft (Some [(SomeVDevice, [inr Connection_class])]) None
        : example_controller)
       (Some [(SomeVDevice, [inl (template 1 [])])]))
  = Some [(SomeVDevice, [inl (template 1 [])])].
Proof.
  destruct (get_class_based_for_vdevice_instantiates (fun _ => template 1 [])
              (Controller FeatureLeft (Some [(SomeVDevice, [inr Connection_class])]) None
               : example_controller))
    as [_ Hsome].
  destruct (Hsome [(SomeVDevice, [inr Connection_class])]
              [(SomeVDevice, [inl (template 1 [])])]) as (_ & _ & Hagain);
    [reflexivity | reflexivity |].
  exact Hagain.
Defined.

End FeatureControllerRegistryFacts.

(* ===================================================================== *)
(** ** Further properties of feature_controller.py *)
(* ===================================================================== *)

Module FeatureControllerMore.
Import FeatureController FeatureHierarchy FeatureControllerFacts Examples.

(** Induction over a class hierarchy: a property that holds for a class
    whenever it holds for its bases holds for every class. *)
Lemma pyclass_bases_ind (P : pyclass -> Prop) :
  (forall c, (forall b, In b (__bases__ c) -> P b) -> P c) -> forall c, P c.
Proof.
  intros Hstep. fix rec 1. intros [i n q bs]. apply Hstep. simpl.
  induction bs as [| b bs IH]; intros x Hx; [destruct Hx |].
  destruct Hx as [<- | Hx]; [apply rec | by apply IH].
Qed.

Section More.
Context {Connection : Type} `{ConnectionAPI Connection}.
Context {Callable : Type} `{EqDecision Callable}.
Variable getmembers_isclass : pyclass -> list (string * pyclass).
Variable _for_vdevice : pyclass -> option (list (string * @method_impl_dict Connection Callable)).
Variable get_all_instantiated_feature_objects : pyclass -> list (string * pyclass).

#[local] Abbreviation gmv := (get_method_variation_cnn _for_vdevice).
#[local] Abbreviation candidates := (list (Callable * Connection)).
#[local] Abbreviation registered := (registered_match _for_vdevice).

(** *** What get_method_variation returns *)

Lemma try_parents_returns (rec : pyclass -> result (option Callable)) bases m :
  try_parents rec bases = Return (Some m) ->
  exists b, In b bases /\ proper_feature_parent b = true /\ rec b = Return (Some m).
Proof.
  induction bases as [| b bases IH]; simpl; [discriminate |].
  fold (proper_feature_parent b). destruct (proper_feature_parent b) eqn:Hproper.
  - destruct (rec b) as [[m' |] | e] eqn:Hrec; simpl.
    + intros [= ->]. exists b. auto.
    + intros Hrest. destruct (IH Hrest) as (b' & ? & ? & ?). exists b'. auto.
    + discriminate.
  - intros Hrest. destruct (IH Hrest) as (b' & ? & ? & ?). exists b'. auto.
Qed.

Lemma sweep_subset (d : candidates) x : In x (sweep d) -> In x d.
Proof.
  unfold sweep. destruct (first_deletable d) as [[m cnn] |]; [| done].
  intros Hx. by apply in_del in Hx as [Hx _].
Qed.

Lemma determine_outer_subset fuel (d : candidates) x :
  In x (determine_outer fuel d) -> In x d.
Proof.
  revert d. induction fuel as [| fuel IH]; intros d; simpl; [done |].
  repeat case_bool_decide; intros Hx; try by apply sweep_subset.
  by apply sweep_subset, IH.
Qed.

Lemma select_variation_returns c name v (d : candidates) m :
  select_variation c name v d = Return (Some m) -> In m (Dict.keys d).
Proof.
  unfold select_variation. case_bool_decide.
  - destruct d as [| [k cnn] d]; simpl; [discriminate |]. intros [= ->]. by left.
  - case_bool_decide; [discriminate |].
    destruct (determine_outer (length d) d) as [| [k cnn] d'] eqn:Hd'; simpl; [discriminate |].
    intros [= ->]. apply (in_map fst _ (m, cnn)).
    apply (determine_outer_subset (length d)). rewrite Hd'. by left.
Qed.

Lemma in_keys_set k (v : Connection) (d : candidates) x :
  In x (Dict.keys (Dict.set callable_eq k v d)) -> In x (Dict.keys d) \/ x = k.
Proof.
  rewrite keys_set. destruct (Dict.mem callable_eq k d); [by left |].
  intros Hx. apply in_app_or in Hx as [Hx | [<- | []]]; auto.
Qed.

Lemma add_matching_singles_keys w m cnns (d d' : candidates) k :
  add_matching_singles w m cnns d = Return d' -> In k (Dict.keys d') ->
  In k (Dict.keys d)
  \/ (k = m /\ exists single, In single cnns /\ cnn_contained_in single w true = true).
Proof.
  revert d. induction cnns as [| cnn cnns IH]; simpl; intros d.
  - intros [= <-]. by left.
  - assert (Hrest : forall d1,
               (forall x, In x (Dict.keys d1) -> In x (Dict.keys d) \/ x = m) ->
               cnn_contained_in cnn w true = true ->
               add_matching_singles w m cnns d1 = Return d' -> In k (Dict.keys d') ->
               In k (Dict.keys d)
               \/ (k = m /\ exists single,
                      (cnn = single \/ In single cnns)
                      /\ cnn_contained_in single w true = true)).
    { intros d1 Hd1 Hcnn Hadd Hk. destruct (IH d1 Hadd Hk) as [Hk1 | (-> & s & Hs & Hc)].
      - destruct (Hd1 k Hk1) as [? | ->]; [by left |]. right. eauto.
      - right. eauto. }
    destruct (cnn_contained_in cnn w true) eqn:Hcnn.
    + destruct (Dict.get callable_eq m d) as [present |].
      * destruct (based_on present cnn) as [combined | e]; simpl; [| discriminate].
        apply Hrest; [apply in_keys_set | reflexivity].
      * apply Hrest; [apply in_keys_set | reflexivity].
    + intros Hadd Hk. destruct (IH d Hadd Hk) as [? | (-> & s & Hs & Hc)]; [by left |].
      right. eauto.
Qed.

Lemma collect_possible_keys v w (items : method_impl_dict) (d d' : candidates) k :
  collect_possible v w items d = Return d' -> In k (Dict.keys d') ->
  In k (Dict.keys d)
  \/ exists impl cnns single,
      In (k, impl) items /\ Dict.get class_eq v impl = Some cnns
      /\ In single (concat (map get_singles cnns))
      /\ cnn_contained_in single w true = true.
Proof.
  revert d. induction items as [| [m impl] items IH]; simpl; intros d.
  - intros [= <-]. by left.
  - destruct (Dict.get class_eq v impl) as [cnns |] eqn:Himpl.
    + destruct (add_matching_singles w m (concat (map get_singles cnns)) d)
        as [d1 | e] eqn:Hadd; simpl; [| discriminate].
      intros Hcollect Hk.
      destruct (IH d1 Hcollect Hk) as [Hk1 | (impl' & cnns' & s & Hin & ? & ? & ?)].
      * destruct (add_matching_singles_keys _ _ _ _ _ _ Hadd Hk1)
          as [? | (-> & s & Hs & Hc)]; [by left |].
        right. exists impl, cnns, s. auto.
      * right. exists impl', cnns', s. auto.
    + intros Hcollect Hk.
      destruct (IH d Hcollect Hk) as [? | (impl' & cnns' & s & Hin & ? & ? & ?)]; [by left |].
      right. exists impl', cnns', s. auto.
Qed.

(** X7.  Whatever [get_method_variation] returns is registered: the returned
    implementation is registered, at the class itself or at a class reached
    through Feature bases, for the method name and the VDevice, with a
    connection of which a single is contained in [with_connection]. *)
Theorem get_method_variation_returns_registered (name : string) (v : pyclass)
        (w : Connection) (c : pyclass) :
  forall ignore m,
    get_method_variation _for_vdevice c name v (inl w) ignore = Return (Some m) ->
    exists a, feature_ancestor c a /\ registered a name v w m.
Proof.
  induction c as [c IH] using pyclass_bases_ind. intros ignore m.
  unfold get_method_variation. simpl. rewrite gmv_unfold.
  unfold get_method_variation_body, get_method_based_for_vdevice.
  destruct (_for_vdevice c) as [all |] eqn:Hall; [| discriminate].
  destruct (Dict.get str_eq name all) as [items |] eqn:Hitems; [| discriminate].
  destruct (collect_possible v w items []) as [d | e] eqn:Hcollect; simpl; [| discriminate].
  case_bool_decide as Hempty.
  - destruct (try_parents _ (__bases__ c)) as [[m' |] | e] eqn:Hparents; simpl.
    + intros [= ->]. apply try_parents_returns in Hparents as (b & Hb & Hproper & Hrec).
      destruct (IH b Hb true m) as (a & Hanc & Hreg); [exact Hrec |].
      exists a. split; [| exact Hreg].
      apply (feature_ancestor_base c b a Hb); [| exact Hanc].
      unfold proper_feature_parent in Hproper. by apply andb_true_iff in Hproper as [? _].
    + by destruct (negb ignore).
    + discriminate.
  - intros Hselect. apply select_variation_returns in Hselect.
    destruct (collect_possible_keys _ _ _ _ _ _ Hcollect Hselect)
      as [[] | (impl & cnns & single & ? & ? & ? & ?)].
    exists c. split; [constructor |]. exists all, items, impl, cnns, single.
    repeat (split; [done |]). done.
Qed.

(** X8.  Two candidates.  When the search at a class finds exactly the
    implementations [m1] (first) and [m2], and [==] on connections is
    reflexive: if the connection of [m1] is [==] to or contained in that of
    [m2], [m2] is returned, whether or not the converse holds too; otherwise,
    if the connection of [m2] is [==] to or contained in that of [m1], [m1] is
    returned; otherwise the lookup is ambiguous. *)
Theorem two_candidates (c : pyclass) (name : string) (v : pyclass) (w : Connection)
        (ignore : bool) (all : list (string * method_impl_dict)) (items : method_impl_dict)
        (m1 m2 : Callable) (c1 c2 : Connection) :
  (forall a : Connection, cnn_eq a a = true) ->
  _for_vdevice c = Some all -> Dict.get str_eq name all = Some items ->
  collect_possible v w items [] = Return [(m1, c1); (m2, c2)] ->
  get_method_variation _for_vdevice c name v (inl w) ignore =
  if cnn_eq c1 c2 || cnn_contained_in c1 c2 false then Return (Some m2)
  else if cnn_eq c2 c1 || cnn_contained_in c2 c1 false then Return (Some m1)
  else Raise (Exception UnclearMethodVariationError
                (msg_found_more_than_one_variation (__name__ c) name (__name__ v))).
Proof.
  intros Hrefl Hall Hitems Hcollect.
  assert (Hne : m1 <> m2).
  { pose proof (collect_possible_nodup v w items [] _ (NoDup_nil_2) Hcollect) as Hnodup.
    simpl in Hnodup. apply NoDup_cons in Hnodup as [Hnotin _].
    intros ->. apply Hnotin. by left. }
  unfold get_method_variation. simpl. rewrite gmv_unfold.
  unfold get_method_variation_body, get_method_based_for_vdevice.
  rewrite Hall, Hitems, Hcollect. simpl.
  unfold select_variation. simpl. unfold sweep, first_deletable, can_be_deleted. simpl.
  rewrite !Hrefl. simpl. rewrite !andb_true_r.
  assert (H12 : callable_eq m1 m2 = false) by by apply callable_eq_false.
  assert (H21 : callable_eq m2 m1 = false) by (apply callable_eq_false; congruence).
  assert (H11 : callable_eq m1 m1 = true) by by apply callable_eq_true.
  assert (H22 : callable_eq m2 m2 = true) by by apply callable_eq_true.
  destruct (cnn_eq c1 c2 || cnn_contained_in c1 c2 false); simpl.
  - unfold Dict.del. rewrite filter_cons_False by (simpl; rewrite H11; discriminate).
    rewrite filter_cons_True by (simpl; exact H12). reflexivity.
  - destruct (cnn_eq c2 c1 || cnn_contained_in c2 c1 false); simpl; [| reflexivity].
    unfold Dict.del. rewrite filter_cons_True by (simpl; exact H21).
    rewrite filter_cons_False by (simpl; rewrite H22; discriminate). reflexivity.
Qed.


(** *** The VDevice classes and their validation along the hierarchy *)

#[local] Abbreviation get_abs := (get_abs_inner_vdevice_classes getmembers_isclass).
#[local] Abbreviation get_inner := (get_inner_vdevice_classes getmembers_isclass).
#[local] Abbreviation local_vdevices := (local_vdevice_classes getmembers_isclass).
#[local] Abbreviation validate :=
  (validate_inner_vdevice_inheritance getmembers_isclass get_all_instantiated_feature_objects).
#[local] Abbreviation compatible := (features_compatible get_all_instantiated_feature_objects).

(** X9.  The validity of a class that declares VDevices, by its Feature
    parents: without one the class is valid; with exactly one it is valid
    exactly when the parent is valid, the parent's absolute VDevices can be
    determined, and each of them is overridden by the first VDevice of the
    class with its name, a subclass of it with compatible Feature
    properties. *)
Theorem validate_inner_vdevice_inheritance_by_parent (c : pyclass) (locals : list pyclass) :
  local_vdevices c = Return locals -> locals <> [] ->
  (List.filter proper_feature_parent (__bases__ c) = [] -> validate c = Return tt)
  /\ (forall parent,
        List.filter proper_feature_parent (__bases__ c) = [parent] ->
        (validate c = Return tt <->
         validate parent = Return tt
         /\ exists parent_vdevices,
             get_abs parent = Return parent_vdevices
             /\ forall pv, In pv parent_vdevices ->
                 exists v, find_by_name (__name__ pv) locals = Some v
                           /\ issubclass v pv = true /\ compatible v pv)).
Proof.
  intros Hloc Hne.
  assert (Hunfold :
            validate c =
            (parent <- next_feature_parent validate c (__bases__ c) None ;;
             match parent with
             | Some (next_parent, parent_validation) =>
                 parent_validation ;;;
                 parent_vdevices <- get_abs next_parent ;;
                 for_each (check_parent_vdevice get_all_instantiated_feature_objects c locals)
                   parent_vdevices
             | None => Return tt
             end)).
  { rewrite validate_unfold, (get_inner_of_locals _ _ _ Hloc Hne). simpl.
    by rewrite (length_nonzero _ Hne). }
  rewrite Hunfold, next_feature_parent_spec. split.
  - intros ->. reflexivity.
  - intros parent ->. simpl.
    destruct (validate parent) as [[] | e]; simpl; [| split; [discriminate | by intros [? _]]].
    destruct (get_abs parent) as [parent_vdevices | e]; simpl.
    + rewrite for_each_returns, Forall_forall. split.
      * intros Hall. split; [reflexivity |]. exists parent_vdevices. split; [reflexivity |].
        intros pv Hpv. apply (proj1 (check_vdevice_returns _ c locals pv)).
        apply Hall. by apply list_elem_of_In.
      * intros (_ & pvs & [= <-] & Hall) pv Hpv.
        apply (proj2 (check_vdevice_returns _ c locals pv)).
        apply Hall. by apply list_elem_of_In.
    + split; [discriminate | by intros (_ & ? & ? & _)].
Qed.

Lemma filter_vdevice_classes_in c (members : list (string * pyclass)) l v :
  filter_vdevice_classes c members = Return l -> In v l ->
  (exists n, In (n, v) members) /\ issubclass v VDevice = true
  /\ exists x, last_two (__qualname__ v) = Some (__name__ c, x).
Proof.
  revert l. induction members as [| [n cls] members IH]; simpl; intros l.
  - intros [= <-] [].
  - assert (Hrest : forall l', filter_vdevice_classes c members = Return l' -> In v l' ->
                               (exists n', (n, cls) = (n', v) \/ In (n', v) members)
                               /\ issubclass v VDevice = true
                               /\ exists x, last_two (__qualname__ v) = Some (__name__ c, x)).
    { intros l' Hl' Hv. destruct (IH l' Hl' Hv) as ((n' & ?) & ? & ?). eauto 6. }
    destruct (issubclass cls VDevice) eqn:Hsub; simpl; [| apply Hrest].
    destruct (last_two (__qualname__ cls)) as [[outer x] |] eqn:Hq; [| discriminate].
    destruct (str_eq outer (__name__ c)) eqn:Hname; simpl; [| apply Hrest].
    destruct (filter_vdevice_classes c members) as [l' | e]; simpl; [| discriminate].
    intros [= <-] [<- | Hv]; [| by apply (Hrest l')].
    apply bool_decide_eq_true in Hname as ->. eauto 6.
Qed.

Lemma search_in_parent_returns (rec : pyclass -> result (list pyclass)) bases l :
  search_in_parent rec bases [] = Return l -> l <> [] ->
  exists b, In b bases /\ issubclass b Feature = true /\ rec b = Return l.
Proof.
  induction bases as [| b bases IH]; simpl.
  - intros [= <-] Hne. contradiction.
  - destruct (class_eq b Feature); [intros [= <-] Hne; contradiction |].
    destruct (issubclass b Feature) eqn:Hsub.
    + intros Hrec _. exists b. auto.
    + intros Hrest Hne. destruct (IH Hrest Hne) as (b' & ? & ? & ?). exists b'. auto.
Qed.

(** X10.  Where the absolute VDevice classes come from: a non-empty result of
    [get_abs_inner_vdevice_classes] is the list of VDevice classes declared in
    the body of the class itself or of a class reached through Feature bases;
    every element is a subclass of [VDevice] whose qualified name ends in the
    name of that class and one further component. *)
Theorem get_abs_inner_vdevice_classes_provenance (c : pyclass) :
  forall l,
    get_abs c = Return l -> l <> [] ->
    exists a, feature_ancestor c a
              /\ local_vdevices a = Return l
              /\ forall v, In v l ->
                           issubclass v VDevice = true
                           /\ exists x, last_two (__qualname__ v) = Some (__name__ a, x).
Proof.
  induction c as [c IH] using pyclass_bases_ind. intros l.
  rewrite get_abs_unfold, get_inner_unfold.
  destruct (local_vdevices c) as [[| v0 l0] | e] eqn:Hloc; simpl; [| | discriminate].
  - destruct (search_in_parent get_abs (__bases__ c) []) as [[| v1 l1] | e] eqn:Hsearch;
      simpl; [| | discriminate].
    + rewrite Hsearch. intros [= <-] Hne. contradiction.
    + intros [= <-] Hne. apply search_in_parent_returns in Hsearch as (b & Hb & Hsub & Hrec);
        [| done].
      destruct (IH b Hb _ Hrec Hne) as (a & Hanc & Hlocal & Hall).
      exists a. split; [| by split]. by apply (feature_ancestor_base c b a).
  - intros [= <-] _. exists c. split; [constructor |]. split; [exact Hloc |].
    intros v Hv. destruct (filter_vdevice_classes_in _ _ _ _ Hloc Hv) as (_ & ? & ?). auto.
Qed.

End More.
(** *** The statements at the example classes *)

Lemma get_method_variation_returns_registered_witness :
  exists a, feature_ancestor FeatureBoth a
            /\ registered_match _for_vdevice a "read" SomeVDevice (template 9 [Usb]) 4%positive.
Proof.
  apply (get_method_variation_returns_registered _for_vdevice "read" SomeVDevice
           (template 9 [Usb]) FeatureBoth false 4%positive).
  vm_compute. reflexivity.
Defined.

Lemma example_eq_refl (a : connection) : cnn_eq a a = true.
Proof.
  simpl. rewrite andb_diag. unfold kinds_contained_in. apply forallb_forall.
  intros k Hk. apply existsb_exists. exists k. split; [exact Hk | by destruct k].
Qed.

Lemma two_candidates_witness :
  get_method_variation _for_vdevice FeatureLeft "read" SomeVDevice
    (inl (template 9 [SerialOverUSB])) false
  = Return (Some 2%positive).
Proof.
  rewrite (two_candidates _for_vdevice FeatureLeft "read" SomeVDevice
             (template 9 [SerialOverUSB]) false
             [("read", [(1, [(SomeVDevice, [template 1 [Serial]])]);
                        (2, [(SomeVDevice, [template 2 [SerialOverUSB]])]);
                        (3, [(SomeVDevice, [template 3 [Ethernet]])])]%positive)]
             [(1, [(SomeVDevice, [template 1 [Serial]])]);
              (2, [(SomeVDevice, [template 2 [SerialOverUSB]])]);
              (3, [(SomeVDevice, [template 3 [Ethernet]])])]%positive
             1%positive 2%positive (template 1 [Serial]) (template 2 [SerialOverUSB])).
  - reflexivity.
  - exact example_eq_refl.
  - reflexivity.
  - reflexivity.
  - vm_compute. reflexivity.
Defined.

Lemma validate_inner_vdevice_inheritance_by_parent_witness :
  validate_inner_vdevice_inheritance getmembers_isclass get_all_instantiated_feature_objects
    FeatureOfRelevanceLvl1 = Return tt
  /\ exists parent_vdevices,
      get_abs_inner_vdevice_classes getmembers_isclass FeatureOfRelevanceLvl1
      = Return parent_vdevices
      /\ forall pv, In pv parent_vdevices ->
          exists v, find_by_name (__name__ pv) [Complete_VDeviceWithI; Complete_VDeviceWithII]
                    = Some v
                    /\ issubclass v pv = true
                    /\ features_compatible get_all_instantiated_feature_objects v pv.
Proof.
  destruct (validate_inner_vdevice_inheritance_by_parent getmembers_isclass
              get_all_instantiated_feature_objects FeatureComplete
              [Complete_VDeviceWithI; Complete_VDeviceWithII]) as [_ Hparent].
  - vm_compute. reflexivity.
  - discriminate.
  - apply (proj1 (Hparent FeatureOfRelevanceLvl1 eq_refl)). vm_compute. reflexivity.
Defined.

Lemma get_abs_inner_vdevice_classes_provenance_witness :
  exists a, feature_ancestor SetupFeatureOfRelevanceLvl3 a
            /\ local_vdevice_classes getmembers_isclass a = Return [Lvl2_VDeviceWithI]
            /\ forall v, In v [Lvl2_VDeviceWithI] ->
                         issubclass v VDevice = true
                         /\ exists x, last_two (__qualname__ v) = Some (__name__ a, x).
Proof.
  apply (get_abs_inner_vdevice_classes_provenance getmembers_isclass
           SetupFeatureOfRelevanceLvl3 [Lvl2_VDeviceWithI]).
  - vm_compute. reflexivity.
  - discriminate.
Defined.

End FeatureControllerMore.

(* ===================================================================== *)
(** ** Further properties of normal_scenario_setup_controller.py *)
(* ===================================================================== *)

Module NormalScenarioSetupControllerMore.
Import NormalScenarioSetupController VDeviceFeatureExistence ScenarioSetupHierarchy.
Import NormalScenarioSetupControllerFacts Examples.

Section More.
Context {Connection : Type} `{ConnectionAPI Connection}.
Variable getmembers_isclass : pyclass -> list (string * pyclass).
Variable absolute_connections : pyclass -> list (pyclass * list Connection).
Variable _related_type : pyclass.

#[local] Abbreviation inner_devices := (get_all_inner_device_classes getmembers_isclass).
#[local] Abbreviation abs_devices :=
  (get_all_abs_inner_device_classes getmembers_isclass _related_type).
#[local] Abbreviation validate := (validate_inheritance getmembers_isclass _related_type).
#[local] Abbreviation check_device := (check_item_device _related_type).
#[local] Abbreviation by_naming := relevant_parent_according_naming.

(** *** validate_inheritance *)

(** The equation of [validate_inheritance], as the source has it. *)
Lemma validate_inheritance_unfold c :
  validate c =
  (parent <- find_parent_scenario_or_setup validate c (__bases__ c) None ;;
   match parent with
   | None => Raise (Exception TypeError msg_get_for_illegal_type)
   | Some (parent_scenario_or_setup, parent_validation) =>
       if class_eq parent_scenario_or_setup Scenario || class_eq parent_scenario_or_setup Setup
       then Return tt
       else
         devices <- inner_devices c ;;
         abs_parent_devices <- abs_devices parent_scenario_or_setup ;;
         if bool_decide (length devices = 0) then Return tt
         else
           for_each (check_device abs_parent_devices) devices ;;;
           for_each (check_parent_implemented c devices) abs_parent_devices ;;;
           parent_validation
   end).
Proof. destruct c; reflexivity. Qed.

Lemma find_parent_scenario_or_setup_spec {A} (rec : pyclass -> A) c bases found :
  find_parent_scenario_or_setup rec c bases found =
  match found, List.filter is_scenario_or_setup bases with
  | None, [] => Return None
  | None, [p] => Return (Some (p, rec p))
  | Some f, [] => Return (Some f)
  | _, _ => Raise (Exception MultiInheritanceError
                     (msg_multi_scenario_setup_parent (__name__ c)))
  end.
Proof.
  revert found. induction bases as [| b bases IH]; intros found; simpl.
  - destruct found; reflexivity.
  - fold (is_scenario_or_setup b). destruct (is_scenario_or_setup b).
    + destruct found as [f |].
      * destruct (List.filter is_scenario_or_setup bases) as [| ? [| ? ?]]; reflexivity.
      * rewrite IH. destruct (List.filter is_scenario_or_setup bases); reflexivity.
    + apply IH.
Qed.

Lemma by_inheritance_spec device (parents : list pyclass) found :
  relevant_parent_device_according_inheritance _related_type device parents found =
  match found, List.filter (issubclass device) parents with
  | None, [] => Return None
  | None, [p] => Return (Some p)
  | Some f, [] => Return (Some f)
  | _, _ => Raise (Exception MultiInheritanceError
                     (msg_multi_device_parent (__name__ _related_type) (__name__ device)))
  end.
Proof.
  revert found. induction parents as [| p parents IH]; intros found; simpl.
  - destruct found; reflexivity.
  - destruct (issubclass device p).
    + destruct found as [f |].
      * destruct (List.filter (issubclass device) parents) as [| ? [| ? ?]]; reflexivity.
      * rewrite IH. destruct (List.filter (issubclass device) parents); reflexivity.
    + apply IH.
Qed.

(** The check of one inner device returns exactly when the device is a
    subclass of at most one parent device and has a parent by name exactly
    when it has one by inheritance. *)
Lemma check_item_device_returns (parents : list pyclass) device :
  check_device parents device = Return tt <->
  length (List.filter (issubclass device) parents) <= 1
  /\ (by_naming device parents = None <-> List.filter (issubclass device) parents = []).
Proof.
  pose proof (by_inheritance_spec device parents None) as Hspec.
  destruct (List.filter (issubclass device) parents) as [| p [| p' ps]] eqn:Hfilter.
  - rewrite (check_item_device_cases _ _ _ _ Hspec).
    destruct (by_naming device parents); simpl.
    + split; [discriminate |]. intros [_ [_ Hno]]. by specialize (Hno eq_refl).
    + split; [intros _ |]; [split; [lia | done] | done].
  - rewrite (check_item_device_cases _ _ _ _ Hspec).
    destruct (by_naming device parents); simpl.
    + split; [intros _ |]; [split; [lia |]; split; discriminate | done].
    + split; [discriminate |]. intros [_ [Hno _]]. by specialize (Hno eq_refl).
  - unfold check_item_device. rewrite Hspec. simpl.
    split; [discriminate |]. intros [Hlen _]. simpl in Hlen. lia.
Qed.

Lemma check_parent_implemented_returns c (devices : list pyclass) parent :
  check_parent_implemented c devices parent = Return tt <->
  exists device, In device devices /\ issubclass device parent = true.
Proof.
  unfold check_parent_implemented.
  destruct (existsb (fun d => issubclass d parent) devices) eqn:Hex.
  - apply existsb_exists in Hex. by split.
  - split; [discriminate |]. intros Hsome. apply existsb_exists in Hsome. congruence.
Qed.

(** X11.  What [validate_inheritance] of a class with inner devices and a parent
    class other than [Scenario]/[Setup] amounts to: it returns exactly when
    every inner device is a subclass of at most one parent device and has a
    same-named parent device exactly when it is a subclass of one, every
    parent device has a subclass among the inner devices, and
    [validate_inheritance] of the parent returns. *)
Theorem validate_inheritance_returns_iff (c parent : pyclass) (devices parents : list pyclass) :
  List.filter is_scenario_or_setup (__bases__ c) = [parent] ->
  class_eq parent Scenario = false -> class_eq parent Setup = false ->
  inner_devices c = Return devices -> devices <> [] ->
  abs_devices parent = Return parents ->
  (validate c = Return tt <->
   (forall device, In device devices ->
      length (List.filter (issubclass device) parents) <= 1
      /\ (by_naming device parents = None
          <-> List.filter (issubclass device) parents = []))
   /\ (forall p, In p parents -> exists device, In device devices /\ issubclass device p = true)
   /\ validate parent = Return tt).
Proof.
  intros Hparent Hscenario Hsetup Hdevices Hne Hparents.
  rewrite validate_inheritance_unfold, find_parent_scenario_or_setup_spec, Hparent. simpl.
  rewrite Hscenario, Hsetup, Hdevices, Hparents. simpl.
  rewrite (FeatureControllerFacts.length_nonzero _ Hne).
  destruct (for_each (check_device parents) devices) as [[] | e] eqn:Hitems; simpl.
  - apply FeatureControllerFacts.for_each_returns in Hitems. rewrite Forall_forall in Hitems.
    destruct (for_each (check_parent_implemented c devices) parents) as [[] | e] eqn:Himpl;
      simpl.
    + apply FeatureControllerFacts.for_each_returns in Himpl.
      rewrite Forall_forall in Himpl. split.
      * intros Hvalid. split; [| split; [| exact Hvalid]].
        -- intros device Hdevice. apply (proj1 (check_item_device_returns _ _)).
           apply Hitems. by apply list_elem_of_In.
        -- intros p Hp. apply (proj1 (check_parent_implemented_returns c _ _)).
           apply Himpl. by apply list_elem_of_In.
      * by intros (_ & _ & ?).
    + split; [discriminate |]. intros (_ & Hall & _).
      assert (Hret : for_each (check_parent_implemented c devices) parents = Return tt).
      { apply FeatureControllerFacts.for_each_returns, Forall_forall. intros p Hp.
        apply (proj2 (check_parent_implemented_returns c _ _)).
        apply Hall. by apply list_elem_of_In. }
      congruence.
  - split; [discriminate |]. intros (Hall & _).
    assert (Hret : for_each (check_device parents) devices = Return tt).
    { apply FeatureControllerFacts.for_each_returns, Forall_forall. intros d Hd.
      apply (proj2 (check_item_device_returns _ _)).
      apply Hall. by apply list_elem_of_In. }
    congruence.
Qed.

(** X12.  The outcomes of [validate_inheritance] that do not depend on the
    devices of the class: more than one Scenario/Setup base raises
    [MultiInheritanceError]; a class directly below [Scenario] or [Setup]
    is valid; and a class without inner devices is valid as soon as the
    parent's absolute devices can be determined, whether or not the parent
    is valid itself. *)
Theorem validate_inheritance_without_devices (c : pyclass) :
  (1 < length (List.filter is_scenario_or_setup (__bases__ c)) ->
   validate c = Raise (Exception MultiInheritanceError
                         (msg_multi_scenario_setup_parent (__name__ c))))
  /\ (forall parent,
        List.filter is_scenario_or_setup (__bases__ c) = [parent] ->
        class_eq parent Scenario || class_eq parent Setup = true ->
        validate c = Return tt)
  /\ (forall parent parents,
        List.filter is_scenario_or_setup (__bases__ c) = [parent] ->
        class_eq parent Scenario || class_eq parent Setup = false ->
        inner_devices c = Return [] -> abs_devices parent = Return parents ->
        validate c = Return tt).
Proof.
  rewrite validate_inheritance_unfold, find_parent_scenario_or_setup_spec.
  split; [| split].
  - destruct (List.filter is_scenario_or_setup (__bases__ c)) as [| p [| p' ps]];
      simpl; intros; [lia | lia | reflexivity].
  - intros parent -> Hroot. simpl. by rewrite Hroot.
  - intros parent parents -> Hroot Hdevices Hparents. simpl.
    by rewrite Hroot, Hdevices, Hparents.
Qed.


(** *** get_all_abs_inner_device_classes *)

Lemma filter_device_classes_in c (members : list (string * pyclass)) l d :
  filter_device_classes c members = Return l -> In d l ->
  issubclass d Device = true /\ exists x, __qualname__ d = [__name__ c; x].
Proof.
  revert l. induction members as [| [n cls] members IH]; simpl; intros l.
  - intros [= <-] [].
  - destruct (issubclass cls Device) eqn:Hsub; simpl; [| apply IH].
    destruct (__qualname__ cls) as [| outer [| x [| ? ?]]] eqn:Hq; try discriminate.
    destruct (str_eq outer (__name__ c)) eqn:Hname; simpl; [| apply IH].
    destruct (filter_device_classes c members) as [l' | e]; simpl; [| discriminate].
    intros [= <-] [<- | Hd]; [| by apply (IH l')].
    apply bool_decide_eq_true in Hname as ->. rewrite Hq. eauto.
Qed.

(** X13.  Where the absolute Device classes come from: a non-empty result of
    [get_all_abs_inner_device_classes] is the list of the inner Device
    classes of the class itself or of a class reached through bases of the
    related type; every element is a subclass of [Device] whose qualified
    name is the name of that class followed by one component. *)
Theorem get_all_abs_inner_device_classes_provenance (c : pyclass) :
  forall l,
    abs_devices c = Return l -> l <> [] ->
    exists a, related_ancestor _related_type c a
              /\ inner_devices a = Return l
              /\ forall d, In d l ->
                           issubclass d Device = true
                           /\ exists x, __qualname__ d = [__name__ a; x].
Proof.
  induction c as [c IH] using FeatureControllerMore.pyclass_bases_ind. intros l.
  rewrite abs_devices_unfold.
  destruct (inner_devices c) as [[| d0 l0] | e] eqn:Hinner; simpl; [| | discriminate].
  - rewrite find_base_class_spec.
    destruct (List.filter (fun b => issubclass b _related_type) (__bases__ c))
      as [| p [| p' ps]] eqn:Hfilter; simpl; [discriminate | | discriminate].
    destruct (class_eq p _related_type); [intros [= <-] Hne; contradiction |].
    intros Hparent Hne.
    assert (Hp : In p (List.filter (fun b => issubclass b _related_type) (__bases__ c)))
      by (rewrite Hfilter; by left).
    apply filter_In in Hp as [Hp Hsub].
    destruct (IH p Hp l Hparent Hne) as (a & Hanc & Hlocal & Hall).
    exists a. split; [| by split]. by apply (related_ancestor_base _ c p a).
  - intros [= <-] _. exists c. split; [constructor |]. split; [exact Hinner |].
    intros d Hd. by apply (filter_device_classes_in c (getmembers_isclass c) (d0 :: l0)).
Qed.

(** *** get_absolute_single_connections *)

#[local] Abbreviation in_order := (connections_in_order absolute_connections).

Lemma for_fold_returns c (events : list (pyclass * pyclass * Connection)) t0 t :
  for_fold (fun (t : @table Connection) '(cur_from_device, cur_to_device, cur_cnn) =>
              add_connection c cur_from_device cur_to_device t cur_cnn) events t0
  = Return t ->
  (forall k singles, lookup4 t0 k = Some singles -> lookup4 t k = Some singles)
  /\ forall e, In e events -> lookup4 t (keys_of e) = Some (get_singles e.2).
Proof.
  revert t0. induction events as [| [[fd td] cnn] events IH]; intros t0; simpl.
  - intros [= <-]. split; [done | intros e []].
  - destruct (lookup4 t0 (keys_of (fd, td, cnn))) as [taken |] eqn:Hkey.
    + by rewrite (add_connection_taken c fd td t0 cnn taken Hkey).
    + destruct (add_connection_fresh c fd td t0 cnn Hkey) as (t1 & -> & Hat & Hother).
      simpl. intros Hrest. destruct (IH t1 Hrest) as [Hkeep Hall]. split.
      * intros k singles Hk. apply Hkeep. rewrite Hother; [exact Hk |].
        intros ->. congruence.
      * intros e [<- | He]; [by apply Hkeep | by apply Hall].
Qed.

(** X14.  A connection that two devices both list for each other is found in the
    returned table from both sides: under the FROM device with the nodes as
    the connection has them, and under the other device with the nodes
    exchanged, each time with the singles of the connection. *)
Theorem connection_recorded_from_both_sides (c : pyclass) (devices : list pyclass)
        (t : @table Connection) (A B : pyclass) (cnn : Connection)
        (cnns_at_A cnns_at_B : list Connection) :
  abs_devices c = Return devices ->
  get_absolute_single_connections getmembers_isclass absolute_connections _related_type c
  = Return t ->
  In A devices -> In (B, cnns_at_A) (absolute_connections A) -> In cnn cnns_at_A ->
  In B devices -> In (A, cnns_at_B) (absolute_connections B) -> In cnn cnns_at_B ->
  opt_class_eq (Some A) (cnn_from_device cnn) = true ->
  opt_class_eq (Some B) (cnn_from_device cnn) = false ->
  lookup4 t (cid A, cnn_from_node_name cnn, cid B, cnn_to_node_name cnn)
  = Some (get_singles cnn)
  /\ lookup4 t (cid B, cnn_to_node_name cnn, cid A, cnn_from_node_name cnn)
     = Some (get_singles cnn).
Proof.
  intros Hdevices Htable HA HAB HcnnA HB HBA HcnnB Hfrom Hnot_from.
  unfold get_absolute_single_connections in Htable. rewrite Hdevices in Htable.
  simpl in Htable. apply for_fold_returns in Htable as [_ Hall]. split.
  - specialize (Hall (A, B, cnn)). unfold keys_of, nodes_seen_from in Hall.
    rewrite Hfrom in Hall. apply Hall. apply in_order_iff. eauto.
  - specialize (Hall (B, A, cnn)). unfold keys_of, nodes_seen_from in Hall.
    rewrite Hnot_from in Hall. apply Hall. apply in_order_iff. eauto.
Qed.

End More.

(** *** check_vdevice_feature_existence *)

Section Existence.
Variable getmembers_isclass : pyclass -> list (string * pyclass).
Variable _related_type : pyclass.
Variable device_feature_objects : pyclass -> list (string * feature_object).
Variable vdevice_feature_objects : pyclass -> list (string * feature_object).

#[local] Abbreviation abs_devices :=
  (get_all_abs_inner_device_classes getmembers_isclass _related_type).
#[local] Abbreviation check :=
  (check_vdevice_feature_existence getmembers_isclass _related_type
     device_feature_objects vdevice_feature_objects).
#[local] Abbreviation implemented_by :=
  (implements device_feature_objects vdevice_feature_objects).

Lemma for_all_returns {A} (body : A -> outcome) l :
  for_all body l = Returns <-> forall x, In x l -> body x = Returns.
Proof.
  induction l as [| x l IH]; simpl; [by split |].
  destruct (body x) eqn:Hx.
  - rewrite IH. split; [intros Hl y [<- | Hy]; auto | intros Hl y Hy; apply Hl; by right].
  - split; [discriminate |]. intros Hl. specialize (Hl x (or_introl eq_refl)). congruence.
  - split; [discriminate |]. intros Hl. specialize (Hl x (or_introl eq_refl)). congruence.
Qed.

Lemma for_all_stops {A} (body : A -> outcome) l o :
  for_all body l = o -> o <> Returns -> exists x, In x l /\ body x = o.
Proof.
  induction l as [| x l IH]; simpl; [congruence |].
  destruct (body x) eqn:Hx.
  - intros Hl Ho. destruct (IH Hl Ho) as (y & ? & ?). eauto.
  - intros <- _. eauto.
  - intros <- _. eauto.
Qed.

Lemma check_feature_returns feature :
  check_feature device_feature_objects vdevice_feature_objects feature = Returns <->
  forall active_vdevice related_device,
    active_vdevice_device_mapping feature = mapped active_vdevice related_device ->
    implemented_by related_device active_vdevice.
Proof.
  unfold check_feature, implements.
  destruct (active_vdevice_device_mapping feature) as [d | v d]; simpl.
  - split; [intros _ ? ? ?; discriminate | reflexivity].
  - rewrite for_all_returns. split.
    + intros Hall v' d' [= <- <-] name vf Hvf.
      specialize (Hall vf (in_map snd _ _ Hvf)).
      unfold check_vdevice_feature in Hall.
      destruct (existsb _ _) eqn:Hex; [| discriminate].
      apply existsb_exists in Hex as (df & Hdf & Hsub).
      apply in_map_iff in Hdf as ([name' df'] & <- & Hin). eauto.
    + intros Hall vf Hvf. apply in_map_iff in Hvf as ([name vf'] & <- & Hin).
      destruct (Hall v d eq_refl name vf' Hin) as (name' & df & Hdf & Hsub).
      unfold check_vdevice_feature. simpl.
      assert (Hex : existsb (fun o => issubclass (__class__ o) (__class__ vf'))
                      (map snd (device_feature_objects d)) = true).
      { apply existsb_exists. exists df. split; [| exact Hsub].
        apply (in_map snd _ (name', df)), Hdf. }
      by rewrite Hex.
Qed.

(** X15.  [check_vdevice_feature_existence] returns exactly when, for every
    Feature object of every absolute device that is mapped to a VDevice, the
    mapped device has, for each Feature object of that VDevice, a Feature
    object of the same class or of a subclass.  When it raises the
    "doesn't have an implementation" exception, the names in the message
    are those of a mapped device, its VDevice and a Feature class of the
    VDevice of which the device has no instance. *)
Theorem check_vdevice_feature_existence_returns_iff (c : pyclass) (devices : list pyclass) :
  abs_devices c = Return devices ->
  (check c = Returns <->
   forall device name feature active_vdevice related_device,
     In device devices -> In (name, feature) (device_feature_objects device) ->
     active_vdevice_device_mapping feature = mapped active_vdevice related_device ->
     implemented_by related_device active_vdevice)
  /\ (forall device_name vdevice_name feature_name,
        check c = MissingImplementation device_name vdevice_name feature_name ->
        exists device name feature active_vdevice related_device name' vdevice_feature,
          In device devices /\ In (name, feature) (device_feature_objects device)
          /\ active_vdevice_device_mapping feature = mapped active_vdevice related_device
          /\ In (name', vdevice_feature) (vdevice_feature_objects active_vdevice)
          /\ device_name = __name__ related_device
          /\ vdevice_name = __name__ active_vdevice
          /\ feature_name = __name__ (__class__ vdevice_feature)
          /\ forall n o, In (n, o) (device_feature_objects related_device) ->
                         issubclass (__class__ o) (__class__ vdevice_feature) = false).
Proof.
  intros Hdevices. unfold check_vdevice_feature_existence. rewrite Hdevices. split.
  - rewrite for_all_returns. split.
    + intros Hall device name feature v d Hdevice Hfeature Hmapped.
      specialize (Hall device Hdevice). rewrite for_all_returns in Hall.
      specialize (Hall feature (in_map snd _ _ Hfeature)).
      by apply (proj1 (check_feature_returns feature) Hall v d).
    + intros Hall device Hdevice. apply for_all_returns. intros feature Hfeature.
      apply in_map_iff in Hfeature as ([name f] & <- & Hin).
      apply (proj2 (check_feature_returns f)). intros v d Hv. by apply (Hall device name f).
  - intros dn vn fn Hmissing.
    apply for_all_stops in Hmissing as (device & Hdevice & Hmissing); [| discriminate].
    apply for_all_stops in Hmissing as (feature & Hfeature & Hmissing); [| discriminate].
    apply in_map_iff in Hfeature as ([name f] & <- & Hin). simpl in Hmissing.
    unfold check_feature in Hmissing.
    destruct (active_vdevice_device_mapping f) as [d | v d] eqn:Hmap; try discriminate.
    apply for_all_stops in Hmissing as (vf & Hvf & Hmissing); [| discriminate].
    apply in_map_iff in Hvf as ([name' vf'] & <- & Hin'). simpl in Hmissing.
    unfold check_vdevice_feature in Hmissing.
    destruct (existsb _ _) eqn:Hex; [discriminate |]. injection Hmissing as <- <- <-.
    exists device, name, f, v, d, name', vf'. repeat (split; [done |]).
    intros n o Ho. destruct (issubclass (__class__ o) (__class__ vf')) eqn:Hsub; [| done].
    assert (Hsome : existsb (fun o => issubclass (__class__ o) (__class__ vf'))
                      (map snd (device_feature_objects d)) = true).
    { apply existsb_exists. exists o. split; [| exact Hsub]. apply (in_map snd _ (n, o)), Ho. }
    congruence.
Qed.

End Existence.

(** *** The statements at the example classes *)

Lemma validate_inheritance_returns_iff_witness :
  (forall device, In device [Swapped_SetupDevice1; Swapped_SetupDevice2] ->
     length (List.filter (issubclass device) [Parent_SetupDevice1; Parent_SetupDevice2]) <= 1
     /\ (relevant_parent_according_naming device [Parent_SetupDevice1; Parent_SetupDevice2]
         = None
         <-> List.filter (issubclass device) [Parent_SetupDevice1; Parent_SetupDevice2] = []))
  /\ (forall p, In p [Parent_SetupDevice1; Parent_SetupDevice2] ->
        exists device, In device [Swapped_SetupDevice1; Swapped_SetupDevice2]
                       /\ issubclass device p = true)
  /\ validate_inheritance setup_members Setup SetupAParent = Return tt.
Proof.
  apply (proj1 (validate_inheritance_returns_iff setup_members Setup SetupSwapped SetupAParent
                  [Swapped_SetupDevice1; Swapped_SetupDevice2]
                  [Parent_SetupDevice1; Parent_SetupDevice2]
                  eq_refl eq_refl eq_refl eq_refl ltac:(discriminate) eq_refl)).
  vm_compute. reflexivity.
Defined.

Lemma validate_inheritance_without_devices_witness :
  validate_inheritance setup_members Setup SetupAParent = Return tt.
Proof.
  destruct (validate_inheritance_without_devices setup_members Setup SetupAParent)
    as (_ & Hroot & _).
  apply (Hroot Setup); reflexivity.
Defined.

Lemma get_all_abs_inner_device_classes_provenance_witness :
  exists a, related_ancestor Setup SetupPlainChild a
            /\ get_all_inner_device_classes setup_members a
               = Return [Parent_SetupDevice1; Parent_SetupDevice2]
            /\ forall d, In d [Parent_SetupDevice1; Parent_SetupDevice2] ->
                         issubclass d Device = true
                         /\ exists x, __qualname__ d = [__name__ a; x].
Proof.
  apply (get_all_abs_inner_device_classes_provenance setup_members Setup SetupPlainChild
           [Parent_SetupDevice1; Parent_SetupDevice2]).
  - vm_compute. reflexivity.
  - discriminate.
Defined.

Lemma connection_recorded_from_both_sides_witness :
  exists t,
    get_absolute_single_connections setup_members absolute_connections Setup SetupAParent
    = Return t
    /\ lookup4 t (cid Parent_SetupDevice1, cnn_from_node_name cnn_1_2,
                  cid Parent_SetupDevice2, cnn_to_node_name cnn_1_2)
       = Some (get_singles cnn_1_2)
    /\ lookup4 t (cid Parent_SetupDevice2, cnn_to_node_name cnn_1_2,
                  cid Parent_SetupDevice1, cnn_from_node_name cnn_1_2)
       = Some (get_singles cnn_1_2).
Proof.
  destruct (get_absolute_single_connections setup_members absolute_connections Setup
              SetupAParent) as [t | e] eqn:Htable; [| vm_compute in Htable; discriminate].
  exists t. split; [reflexivity |].
  apply (connection_recorded_from_both_sides setup_members absolute_connections Setup
           SetupAParent [Parent_SetupDevice1; Parent_SetupDevice2] t
           Parent_SetupDevice1 Parent_SetupDevice2 cnn_1_2 [cnn_1_2] [cnn_1_2]).
  - vm_compute. reflexivity.
  - exact Htable.
  - left. reflexivity.
  - left. reflexivity.
  - left. reflexivity.
  - right. left. reflexivity.
  - left. reflexivity.
  - left. reflexivity.
  - reflexivity.
  - reflexivity.
Defined.

Lemma check_vdevice_feature_existence_returns_iff_witness :
  implements FeatureObjectExamples.device_feature_objects
    FeatureObjectExamples.vdevice_feature_objects Parent_SetupDevice2 SomeVDevice.
Proof.
  destruct (check_vdevice_feature_existence_returns_iff setup_members Setup
              FeatureObjectExamples.device_feature_objects
              FeatureObjectExamples.vdevice_feature_objects
              SetupAParent [Parent_SetupDevice1; Parent_SetupDevice2]) as [Hreturns _].
  - vm_compute. reflexivity.
  - apply (proj1 Hreturns eq_refl Parent_SetupDevice1 "left"
             (FeatureObject FeatureLeft (mapped SomeVDevice Parent_SetupDevice2))).
    + left. reflexivity.
    + left. reflexivity.
    + reflexivity.
Defined.

End NormalScenarioSetupControllerMore.

(* ===================================================================== *)
(** ** Properties of executor/scenario_executor.py *)
(* ===================================================================== *)

Module ScenarioExecutorFacts.
Import ScenarioExecutor Examples.

Section Facts.
Variable prev_mark : VariationExecutor -> PreviousExecutorMark.
Variable get_testcase_executors : VariationExecutor -> list positive.
Variable base_device_mapping : VariationExecutor -> gmap positive positive.

#[local] Abbreviation remove_all :=
  (fold_left (fun (l : option children) cur => l ← l; list_remove cur l)).
#[local] Abbreviation cleanup :=
  (cleanup_empty_executor_branches prev_mark get_testcase_executors).
#[local] Abbreviation empty_branch :=
  (fun e => bool_decide (length (get_testcase_executors e) = 0)).
#[local] Abbreviation add := add_variation_executor.
#[local] Abbreviation executor_for := (get_executor_for_device_mapping base_device_mapping).

(** *** The list of child executors *)

Lemma remove_all_raised (xs : children) : remove_all xs None = None.
Proof. induction xs as [| x xs IH]; simpl; [reflexivity | exact IH]. Qed.

Lemma remove_all_skips a (xs acc : children) :
  (forall x, In x xs -> x <> a) ->
  remove_all xs (Some (a :: acc)) = (l ← remove_all xs (Some acc); Some (a :: l)).
Proof.
  revert acc. induction xs as [| x xs IH]; intros acc Hne; simpl; [reflexivity |].
  assert (Hx : x <> a) by (apply Hne; left; reflexivity).
  rewrite (bool_decide_eq_false_2 _ Hx).
  destruct (list_remove x acc) as [acc' |]; simpl.
  - apply IH. intros y Hy. apply Hne. by right.
  - rewrite !remove_all_raised. reflexivity.
Qed.

Lemma remove_filtered (P : VariationExecutor -> bool) (l : children) :
  remove_all (List.filter P l) (Some l) = Some (List.filter (fun e => negb (P e)) l).
Proof.
  induction l as [| a l IH]; simpl; [reflexivity |].
  destruct (P a) eqn:Ha; simpl.
  - rewrite bool_decide_eq_true_2 by reflexivity. exact IH.
  - rewrite remove_all_skips, IH; [reflexivity |].
    intros x Hx ->. apply filter_In in Hx as [_ Hx]. congruence.
Qed.

(** X16.  [cleanup_empty_executor_branches] never raises the [ValueError] of
    [list.remove], also for a child list with repetitions.  It keeps, in
    their order, exactly the children that it does not look at (the
    discarded ones, unless [consider_discarded]) and those with at least one
    testcase executor; afterwards every child it looks at has a testcase
    executor, and a second call changes nothing. *)
Theorem cleanup_empty_executor_branches_keeps (l : children) (consider_discarded : bool) :
  exists l',
    cleanup l consider_discarded = Some l'
    /\ l' = List.filter (fun e => negb (considered prev_mark consider_discarded e
                                        && empty_branch e)) l
    /\ (forall e, In e l' -> considered prev_mark consider_discarded e = true ->
                  get_testcase_executors e <> [])
    /\ cleanup l' consider_discarded = Some l'.
Proof.
  assert (Heq : forall l,
             cleanup l consider_discarded
             = Some (List.filter (fun e => negb (considered prev_mark consider_discarded e
                                                 && empty_branch e)) l)).
  { intros l0. unfold cleanup_empty_executor_branches, get_variation_executors, considered.
    destruct consider_discarded; simpl.
    - apply (remove_filtered empty_branch).
    - rewrite <- (remove_filtered
                    (fun e => negb (bool_decide (prev_mark e = DISCARDED)) && empty_branch e)).
      f_equal. induction l0 as [| a l0 IH]; simpl; [reflexivity |].
      destruct (negb (bool_decide (prev_mark a = DISCARDED))); simpl; [| exact IH].
      destruct (bool_decide (length (get_testcase_executors a) = 0)); simpl; by rewrite IH. }
  eexists. split; [apply Heq |]. split; [reflexivity |]. split.
  - intros e He Hconsidered. apply filter_In in He as [_ He].
    rewrite Hconsidered in He. simpl in He. apply negb_true_iff in He.
    apply bool_decide_eq_false in He. intros Hnil. apply He. by rewrite Hnil.
  - rewrite Heq. f_equal. induction l as [| a l IH]; simpl; [reflexivity |].
    destruct (negb _) eqn:Ha; simpl; [| exact IH]. by rewrite Ha, IH.
Qed.

(** X17.  [add_variation_executor] accepts exactly the executors that are not in
    the child list.  On a child list without repetitions the new list has no
    repetitions either and ends with the new executor; adding the same
    executor again raises the [ValueError]; and
    [get_executor_for_device_mapping] then finds an executor for the device
    mapping of the new one, the new one itself if no earlier child has the
    same mapping. *)
Theorem add_variation_executor_keeps_children_distinct (l : children)
        (ve : VariationExecutor) :
  (ve ∉ l <-> add l (inl ve) = Added (l ++ [ve])%list)
  /\ (ve ∈ l <-> add l (inl ve) = ValueError_already_exists)
  /\ (forall l',
        NoDup l -> add l (inl ve) = Added l' ->
        NoDup l'
        /\ add l' (inl ve) = ValueError_already_exists
        /\ (exists e, executor_for l' (base_device_mapping ve) = Some e
                      /\ base_device_mapping e = base_device_mapping ve)
        /\ (executor_for l (base_device_mapping ve) = None ->
            executor_for l' (base_device_mapping ve) = Some ve)).
Proof.
  unfold add_variation_executor. split; [| split].
  - case_bool_decide as Hin; split; intros Hadd;
      first [done | discriminate Hadd | contradiction].
  - case_bool_decide as Hin; split; intros Hadd;
      first [done | discriminate Hadd | contradiction].
  - intros l' Hnodup. case_bool_decide as Hin; [discriminate |]. intros [= <-].
    split; [| split; [| split]].
    + apply NoDup_app. split; [exact Hnodup |]. split; [| apply NoDup_singleton].
      intros x Hx Hve. apply list_elem_of_singleton in Hve as ->. contradiction.
    + rewrite bool_decide_eq_true_2; [reflexivity |]. apply elem_of_app. right. by left.
    + unfold get_executor_for_device_mapping.
      destruct (find _ (l ++ [ve])) as [e |] eqn:Hfind.
      * exists e. split; [reflexivity |]. apply find_some in Hfind as [_ He].
        by apply bool_decide_eq_true in He.
      * exfalso. pose proof (find_none _ _ Hfind ve) as Hno. simpl in Hno.
        rewrite bool_decide_eq_true_2 in Hno by reflexivity.
        discriminate Hno. apply in_or_app. right. by left.
    + unfold get_executor_for_device_mapping. intros Hnone. clear Hnodup Hin.
      induction l as [| a l IH]; simpl.
      * by rewrite bool_decide_eq_true_2.
      * simpl in Hnone.
        destruct (bool_decide (base_device_mapping a = base_device_mapping ve));
          [discriminate |].
        by apply IH.
Qed.

End Facts.

(** *** determine_most_inherited_class *)

(** X18.  [determine_most_inherited_class] returns a class of the list that is a
    subclass of every class of the list, and no class before it in the list
    is one; it returns [None] exactly when the list has no such class. *)
Theorem determine_most_inherited_class_spec (class_list : list pyclass) :
  (forall c, determine_most_inherited_class class_list = Some c ->
             exists before after,
               class_list = (before ++ c :: after)%list
               /\ (forall other, In other class_list -> issubclass c other = true)
               /\ forall b, In b before ->
                            exists other, In other class_list /\ issubclass b other = false)
  /\ (determine_most_inherited_class class_list = None <->
      forall c, In c class_list ->
                exists other, In other class_list /\ issubclass c other = false).
Proof.
  unfold determine_most_inherited_class.
  set (valid := fun cur_candidate : pyclass =>
                  forallb (fun cur_other_candidate => issubclass cur_candidate cur_other_candidate)
                    class_list).
  assert (Hfirst : forall l c, find valid l = Some c ->
                     exists before after,
                       l = (before ++ c :: after)%list /\ valid c = true
                       /\ forall b, In b before -> valid b = false).
  { induction l as [| a l IH]; simpl; [discriminate |]. intros c.
    destruct (valid a) eqn:Ha.
    - intros [= <-]. exists [], l. split; [reflexivity |]. split; [exact Ha | intros ? []].
    - intros Hfind. destruct (IH c Hfind) as (before & after & -> & Hc & Hbefore).
      exists (a :: before), after. split; [reflexivity |]. split; [exact Hc |].
      intros b [<- | Hb]; [exact Ha | by apply Hbefore]. }
  split.
  - intros c Hfind. destruct (Hfirst _ _ Hfind) as (before & after & Hlist & Hc & Hbefore).
    exists before, after. split; [exact Hlist |]. split.
    + by apply forallb_forall.
    + intros b Hb. by apply FeatureControllerFacts.forallb_false_exists, Hbefore.
  - split.
    + intros Hnone c Hc. pose proof (find_none _ _ Hnone c Hc) as Hno.
      by apply FeatureControllerFacts.forallb_false_exists in Hno.
    + intros Hall. destruct (find valid class_list) as [c |] eqn:Hfind; [| reflexivity].
      apply find_some in Hfind as [Hc Hsub]. unfold valid in Hsub.
      rewrite forallb_forall in Hsub.
      destruct (Hall c Hc) as (other & Hother & Hno). rewrite (Hsub other Hother) in Hno.
      discriminate.
Qed.

(** *** The statements at examples *)

Lemma cleanup_empty_executor_branches_keeps_witness :
  cleanup_empty_executor_branches (fun e => if bool_decide (e = 3%positive) then DISCARDED else SKIP)
    (fun e => if bool_decide (e = 1%positive) then [5%positive] else [])
    [1; 2; 3; 2]%positive false
  = Some [1; 3]%positive.
Proof.
  destruct (cleanup_empty_executor_branches_keeps
              (fun e => if bool_decide (e = 3%positive) then DISCARDED else SKIP)
              (fun e => if bool_decide (e = 1%positive) then [5%positive] else [])
              [1; 2; 3; 2]%positive false) as (l' & Hcleanup & -> & _).
  exact Hcleanup.
Defined.

Lemma add_variation_executor_keeps_children_distinct_witness :
  add_variation_executor [1; 2]%positive (inl 2%positive) = ValueError_already_exists.
Proof.
  destruct (add_variation_executor_keeps_children_distinct (fun _ => ∅)
              [1%positive] 2%positive) as (_ & _ & Hadded).
  destruct (Hadded [1; 2]%positive) as (_ & Hagain & _).
  - apply NoDup_cons. split; [intros Hin; inversion Hin | apply NoDup_nil_2].
  - reflexivity.
  - exact Hagain.
Defined.

Lemma determine_most_inherited_class_spec_witness :
  issubclass SetupAChild SetupAParent = true.
Proof.
  destruct (determine_most_inherited_class_spec [SetupAParent; SetupAChild]) as [Hsome _].
  destruct (Hsome SetupAChild) as (_ & _ & _ & Hall & _); [vm_compute; reflexivity |].
  apply Hall. left. reflexivity.
Defined.

End ScenarioExecutorFacts.
